(** * bank_ai: the transfer, account and allocator handlers

    A shallow embedding of
      - [functions/transaction-service/transaction-service.js]
        ([getCustomerIdFromAuth0Sub], [handleInternalTransfer]) and
      - the account service ([generateUniqueAccountNumber],
        [handleCreateAccount], [handleListAccounts], [handleGetAccount]).

    The handlers are JavaScript functions that talk to a datastore through
    the Supabase client and to the random source of [crypto].  They are
    embedded as trees of requests ([io]): every [await supabase...] and every
    call to [crypto] is a node whose children are indexed by the answer.  A
    property of "every run" is a property of every path of the tree
    ([runs]); running the tree against a concrete datastore ([World.exec])
    picks one path.

    Conventions.
      - A JavaScript value is a [value]; numbers are IEEE-754 doubles
        ([spec_float]), strings are sequences of characters in the ASCII
        range ([toUpperCase] and [trim] act on ASCII letters and ASCII white
        space).
      - A response [{ statusCode, body: JSON.stringify(o) }] is kept as the
        status code and the object [o] handed to [JSON.stringify].
      - Console output is not part of the model, but the conversions that
        the template literals of the log lines make are: a value that cannot
        be converted to a string throws there as it does in the code.
      - The two database routines behind [supabase.rpc] are not JavaScript
        and not in the sources; module [Ledger] writes them from the design
        document, and the properties of the handlers that do not need them
        are stated for every answer the datastore can give.

    Layout: the model ([JS], requests and runs, the two services, [Ledger],
    [World], [Sample]); the vocabulary of the statements ([TransferSpec],
    [AccountSpec]); the properties. *)

From Stdlib Require Import ZArith List String Ascii Bool Lia QArith.
From Stdlib Require Import Floats.SpecFloat DecimalString.
Import ListNotations.
Open Scope string_scope.
Open Scope Z_scope.

Set Implicit Arguments.
Set Warnings "-register-all".

(* ================================================================== *)
(** * JavaScript values and the built-in operations the handlers use *)
(* ================================================================== *)

Module JS.

(** Numbers are binary64 floats.  [num_of_Z] is the double nearest to an
    integer, in canonical form. *)
Definition number := spec_float.

Definition num_of_Z (z : Z) : number := binary_normalize 53 1024 z 0 false.

Definition num_zero : number := S754_zero false.

(** The values that [JSON.parse] and the datastore client hand to the
    handlers, plus [undefined]. An object is the list of its own
    properties. *)
Inductive value : Type :=
| JUndefined
| JNull
| JBool (b : bool)
| JNum (n : number)
| JStr (s : string)
| JArr (items : list value)
| JObj (fields : list (string * value)).

Definition object := list (string * value).

(** [ToBoolean]: what [!v] and [if (v)] test. *)
Definition truthy (v : value) : bool :=
  match v with
  | JUndefined | JNull => false
  | JBool b => b
  | JNum (S754_zero _) | JNum S754_nan => false
  | JNum _ => true
  | JStr s => negb (String.eqb s "")
  | JArr _ | JObj _ => true
  end.

(** [a === b].  Arrays and objects are compared by identity; every array
    or object a handler sees comes out of a separate [JSON.parse] or
    datastore answer, so two of them are never the same object. *)
Definition strict_eq (a b : value) : bool :=
  match a, b with
  | JUndefined, JUndefined => true
  | JNull, JNull => true
  | JBool x, JBool y => Bool.eqb x y
  | JNum x, JNum y => SFeqb x y
  | JStr x, JStr y => String.eqb x y
  | _, _ => false
  end.

(** [v <= 0] for a value already known to be a number. *)
Definition num_le_zero (n : number) : bool := SFleb n num_zero.

(** Own property lookup in an object; [undefined] when absent. *)
Fixpoint get_field (o : object) (name : string) : value :=
  match o with
  | [] => JUndefined
  | (k, v) :: rest => if String.eqb k name then v else get_field rest name
  end.

(** [{ ...o, name: v }]: the property is overwritten in place when the
    object has it, appended otherwise. *)
Fixpoint set_field (o : object) (name : string) (v : value) : object :=
  match o with
  | [] => [(name, v)]
  | (k, w) :: rest =>
      if String.eqb k name then (k, v) :: rest
      else (k, w) :: set_field rest name v
  end.

(** Whether the object has an own property of that name. *)
Fixpoint has_own (o : object) (name : string) : bool :=
  match o with
  | [] => false
  | (k, _) :: rest => String.eqb k name || has_own rest name
  end.

(** Whether [String(v)] returns. An object is converted by its [toString]
    method and, failing that, by [valueOf]. No property of a value that
    comes out of JSON is a function, so an own property [toString] hides
    the inherited method and leaves [valueOf], which (own or inherited)
    yields no primitive: the conversion throws a [TypeError]. Without such
    a property the inherited [toString] answers. An array joins the
    conversions of its items. *)
Fixpoint convertible (v : value) : bool :=
  match v with
  | JArr items => List.forallb convertible items
  | JObj o => negb (has_own o "toString")
  | _ => true
  end.

(** [v.name] for the property names the handlers read from a request body
    ([fromAccountId], [toAccountId], [amount], [currency], ...): [None]
    is the [TypeError] raised on [null] and [undefined]; primitives and
    arrays have no such own property. *)
Definition get_prop (v : value) (name : string) : option value :=
  match v with
  | JUndefined | JNull => None
  | JObj o => Some (get_field o name)
  | _ => Some JUndefined
  end.

(** [v.length === n] on a truthy value. The length of a string or of an
    array is an integer that a double holds exactly, so the comparison is
    the comparison of the lengths; an object has the [length] it was given,
    a number or a boolean has none. *)
Definition length_is (v : value) (n : nat) : bool :=
  match v with
  | JStr s => Nat.eqb (String.length s) n
  | JArr l => Nat.eqb (List.length l) n
  | JObj o => strict_eq (get_field o "length") (JNum (num_of_Z (Z.of_nat n)))
  | _ => false
  end.

(** ** Strings *)

Definition upper_char (c : ascii) : ascii :=
  let n := N_of_ascii c in
  if ((97 <=? n) && (n <=? 122))%N then ascii_of_N (n - 32) else c.

(** [s.toUpperCase()]: the letters [a] to [z]; every other character of the
    ASCII range maps to itself. *)
Fixpoint toUpperCase (s : string) : string :=
  match s with
  | EmptyString => EmptyString
  | String c rest => String (upper_char c) (toUpperCase rest)
  end.

(** The white space and line terminators of the ASCII range, which [trim]
    removes: tab, line feed, vertical tab, form feed, carriage return and
    space. *)
Definition is_space (c : ascii) : bool :=
  let n := N_of_ascii c in
  ((9 <=? n) && (n <=? 13) || (n =? 32))%N.

Fixpoint trim_start (s : string) : string :=
  match s with
  | EmptyString => EmptyString
  | String c rest => if is_space c then trim_start rest else s
  end.

(** [trim_end] keeps a character when it is not a space or when something
    that is kept follows it. *)
Fixpoint trim_end (s : string) : string :=
  match s with
  | EmptyString => EmptyString
  | String c rest =>
      match trim_end rest with
      | EmptyString => if is_space c then EmptyString else String c EmptyString
      | kept => String c kept
      end
  end.

(** [s.trim()] *)
Definition trim (s : string) : string := trim_end (trim_start s).

Fixpoint drop (n : nat) (s : string) : string :=
  match n, s with
  | O, _ => s
  | S _, EmptyString => EmptyString
  | S m, String _ rest => drop m rest
  end.

(** First occurrence of [sep] in [s]: the text before it and the text
    after it. *)
Fixpoint find_sep (sep s : string) : option (string * string) :=
  if String.prefix sep s then Some (EmptyString, drop (String.length sep) s)
  else
    match s with
    | EmptyString => None
    | String c rest =>
        match find_sep sep rest with
        | Some (before, after) => Some (String c before, after)
        | None => None
        end
    end.

(** [s.includes(sep)] *)
Definition includes (s sep : string) : bool :=
  match find_sep sep s with Some _ => true | None => false end.

(** [s.split(sep)] for a separator that is not empty. Each separator found
    consumes at least one character, so [length s] rounds are enough. *)
Fixpoint split_rounds (rounds : nat) (sep s : string) : list string :=
  match rounds with
  | O => [s]
  | S r =>
      match find_sep sep s with
      | None => [s]
      | Some (before, after) => before :: split_rounds r sep after
      end
  end.

Definition split (s sep : string) : list string :=
  split_rounds (String.length s) sep s.

(** ** Conversions *)

Definition is_digit (c : ascii) : bool :=
  let n := N_of_ascii c in ((48 <=? n) && (n <=? 57))%N.

Definition digit_val (c : ascii) : Z := Z.of_N (N_of_ascii c) - 48.

(** Value of the longest prefix of decimal digits, with the number of
    digits read. *)
Fixpoint read_digits (acc : Z) (seen : nat) (s : string) : Z * nat :=
  match s with
  | String c rest =>
      if is_digit c then read_digits (10 * acc + digit_val c) (S seen) rest
      else (acc, seen)
  | EmptyString => (acc, seen)
  end.

(** [parseInt(s, 10)] on a string: leading white space, an optional sign,
    then digits; [NaN] when there is no digit. *)
Definition parseInt_string (s : string) : number :=
  let s1 := trim_start s in
  let '(neg, s2) :=
    match s1 with
    | String "-" rest => (true, rest)
    | String "+" rest => (false, rest)
    | _ => (false, s1)
    end in
  match read_digits 0 O s2 with
  | (_, O) => S754_nan
  | (n, _) => if neg then SFopp (num_of_Z n) else num_of_Z n
  end.

(** [n.toString()] for an integer. *)
Definition Z_toString (n : Z) : string :=
  DecimalString.NilZero.string_of_int (Z.to_int n).

Section ToString.

(** [Number::toString] (the shortest decimal that reads back as the same
    double) is a built-in of the engine and is taken as given. *)
Variable Number_toString : number -> string.

Definition join_comma (parts : list string) : string :=
  String.concat "," parts.

(** [String(v)], the conversion behind template literals, [parseInt] and
    the filters of the datastore client. [None] is the [TypeError]
    "Cannot convert object to primitive value" (see [convertible]). *)
Fixpoint ToString (v : value) : option string :=
  match v with
  | JUndefined => Some "undefined"
  | JNull => Some "null"
  | JBool true => Some "true"
  | JBool false => Some "false"
  | JNum n => Some (Number_toString n)
  | JStr s => Some s
  | JArr items =>
      option_map join_comma
        ((fix joined (l : list value) : option (list string) :=
            match l with
            | [] => Some []
            | item :: rest =>
                match
                  match item with
                  | JUndefined | JNull => Some EmptyString
                  | _ => ToString item
                  end,
                  joined rest
                with
                | Some part, Some parts => Some (part :: parts)
                | _, _ => None
                end
            end) items)
  | JObj o => if has_own o "toString" then None else Some "[object Object]"
  end.

(** [parseInt(v, 10)]: the argument is converted to a string first. *)
Definition parseInt (v : value) : option value :=
  option_map (fun s => JNum (parseInt_string s)) (ToString v).

End ToString.

End JS.
Import JS.

(* ================================================================== *)
(** * Requests to the outside world *)
(* ================================================================== *)

(** What a handler throws or an awaited promise rejects with; only the
    [message] is ever read ([err.message]). *)
Record js_error : Type := Error_ { err_message : string }.

(** The [error] member of a datastore answer. *)
Record pg_error : Type := PgError {
  pg_message : option string;
  pg_code : option string
}.

Definition message_value (e : pg_error) : value :=
  match pg_message e with Some m => JStr m | None => JUndefined end.

(** An awaited datastore call either resolves to [{ data, error }] or
    rejects. *)
Inductive reply (D : Type) : Type :=
| Answer (data : D) (error : option pg_error)
| Rejects (e : js_error).
Arguments Rejects {D} e.

(** Queries that end in [.single()] or [.maybeSingle()]: the data is one row
    or [null]. *)
Inductive row_query : Type :=
| CustomerIdByAuth0Sub (auth0_sub : string)
    (* from('customer').select('id').eq('auth0_user_id', sub).single() *)
| AccountOwnerById (id : value)
    (* from('accounts').select('customer_id').eq('id', id).single() *)
| AccountNumberLookup (candidate : string)
    (* from('accounts').select('account_number')
         .eq('account_number', candidate).maybeSingle() *)
| InsertAccount (new_row : object)
    (* from('accounts').insert(new_row).select().single() *)
| AccountById (id : string).
    (* from('accounts').select('*').eq('id', id).single() *)

(** Queries whose data is an array of rows or [null]. *)
Inductive rows_query : Type :=
| AccountsByCustomer (customer_id : value).
    (* from('accounts').select('id, account_number, ...')
         .eq('customer_id', customer_id) *)

(** Database-side routines called through [supabase.rpc]. *)
Inductive rpc_call : Type :=
| post_ledger_transaction
    (p_transaction_id : string)
    (p_debit_account_id p_credit_account_id p_amount : value)
    (p_currency : string)
    (p_description : value)
| calculate_balance (p_account_id : value).

(** A computation: its result, or a request with one continuation per
    answer. *)
Inductive io (A : Type) : Type :=
| Ret (a : A)
| AwaitRow (q : row_query) (k : reply (option object) -> io A)
| AwaitRows (q : rows_query) (k : reply (option (list object)) -> io A)
| AwaitRpc (c : rpc_call) (k : reply value -> io A)
| RandomUUID (k : string -> io A)
| RandomInt (min max : Z) (k : Z -> io A).
Arguments Ret {A} a.
Arguments AwaitRow {A} q k.
Arguments AwaitRows {A} q k.
Arguments AwaitRpc {A} c k.
Arguments RandomUUID {A} k.
Arguments RandomInt {A} min max k.

Fixpoint bind {A B : Type} (m : io A) (f : A -> io B) : io B :=
  match m with
  | Ret a => f a
  | AwaitRow q k => AwaitRow q (fun r => bind (k r) f)
  | AwaitRows q k => AwaitRows q (fun r => bind (k r) f)
  | AwaitRpc c k => AwaitRpc c (fun r => bind (k r) f)
  | RandomUUID k => RandomUUID (fun u => bind (k u) f)
  | RandomInt lo hi k => RandomInt lo hi (fun n => bind (k n) f)
  end.

(** A function body either returns or throws. *)
Inductive completion (A : Type) : Type :=
| Normal (a : A)
| Throw (e : js_error).
Arguments Normal {A} a.
Arguments Throw {A} e.

Definition js (A : Type) : Type := io (completion A).

Definition ret {A : Type} (a : A) : js A := Ret (Normal a).
Definition throw {A : Type} (e : js_error) : js A := Ret (Throw e).

(** [const x = await m; f x]: an exception of [m] skips [f]. *)
Definition bindc {A B : Type} (m : js A) (f : A -> js B) : js B :=
  bind m (fun c => match c with Normal a => f a | Throw e => throw e end).

(** [try { m } catch (err) { h err }] *)
Definition try_catch {A : Type} (m : js A) (h : js_error -> js A) : js A :=
  bind m (fun c => match c with Normal a => ret a | Throw e => h e end).

Notation "'let*' x ':=' m 'in' f" := (bindc m (fun x => f))
  (at level 10, x name, m at level 100, f at level 200).

(** [await q] for the three kinds of datastore call: a rejection is thrown,
    an answer is destructured into [data] and [error]. *)
Definition await_row {A : Type} (q : row_query)
    (k : option object -> option pg_error -> js A) : js A :=
  AwaitRow q (fun r =>
    match r with Answer data error => k data error | Rejects e => throw e end).

Definition await_rows {A : Type} (q : rows_query)
    (k : option (list object) -> option pg_error -> js A) : js A :=
  AwaitRows q (fun r =>
    match r with Answer data error => k data error | Rejects e => throw e end).

Definition await_rpc {A : Type} (c : rpc_call)
    (k : value -> option pg_error -> js A) : js A :=
  AwaitRpc c (fun r =>
    match r with Answer data error => k data error | Rejects e => throw e end).

(** ** Runs *)

(** One request of a run together with the answer it got. *)
Inductive event : Type :=
| EvRow (q : row_query) (r : reply (option object))
| EvRows (q : rows_query) (r : reply (option (list object)))
| EvRpc (c : rpc_call) (r : reply value)
| EvUUID (u : string)
| EvInt (min max n : Z).

(** [runs m t a]: [m] can finish with [a] after exactly the requests and
    answers of [t], in that order. *)
Inductive runs {A : Type} : io A -> list event -> A -> Prop :=
| runs_ret : forall a, runs (Ret a) [] a
| runs_row : forall q k r t a,
    runs (k r) t a -> runs (AwaitRow q k) (EvRow q r :: t) a
| runs_rows : forall q k r t a,
    runs (k r) t a -> runs (AwaitRows q k) (EvRows q r :: t) a
| runs_rpc : forall c k r t a,
    runs (k r) t a -> runs (AwaitRpc c k) (EvRpc c r :: t) a
| runs_uuid : forall k u t a,
    runs (k u) t a -> runs (RandomUUID k) (EvUUID u :: t) a
| runs_int : forall lo hi k n t a,
    runs (k n) t a -> runs (RandomInt lo hi k) (EvInt lo hi n :: t) a.

(** The requests that can change the datastore. *)
Definition is_write (e : event) : bool :=
  match e with
  | EvRow (InsertAccount _) _ => true
  | EvRpc (post_ledger_transaction _ _ _ _ _ _) _ => true
  | _ => false
  end.

(** ** Responses *)

Record response : Type := Response {
  statusCode : Z;
  body : value
}.

Definition respond (code : Z) (o : object) : response :=
  Response code (JObj o).

Definition message_only (code : Z) (text : string) : response :=
  respond code [("message", JStr text)].

(** ** What a handler receives *)

(** The claims of a verified token; the handlers read [sub] only. *)
Record token : Type := Token { sub : string }.

(** The parts of the incoming event the handlers read. [parsed_body] is
    the outcome of [JSON.parse(req.body)], [None] when it throws;
    [query_customerId] is [req.queryStringParameters?.customerId]. *)
Record request : Type := Request {
  parsed_body : option value;
  path : string;
  query_customerId : option string
}.

(** [TypeError]s raised by the engine (V8 wording). *)
Definition cannot_destructure (prop : string) : js_error :=
  Error_ ("Cannot destructure property '" ++ prop
          ++ "' of 'requestBody' as it is null.").

Definition not_a_function (what : string) : js_error :=
  Error_ (what ++ " is not a function").

Definition cannot_read_null (prop : string) : js_error :=
  Error_ ("Cannot read properties of null (reading '" ++ prop ++ "')").

Definition cannot_convert : js_error :=
  Error_ "Cannot convert object to primitive value".

(** A statement whose template literal substitutes the values: each is
    converted to a string, which throws when it cannot be; the text itself
    goes to the console. *)
Definition template {A : Type} (substitutions : list value) (next : js A)
    : js A :=
  if List.forallb convertible substitutions then next else throw cannot_convert.

Definition internal_server_error (err : js_error) : response :=
  message_only 500 ("Internal server error: " ++ err_message err).

(** [v.toUpperCase()]: only strings have the method. *)
Definition call_toUpperCase {A : Type} (what : string) (v : value)
    (k : string -> js A) : js A :=
  match v with
  | JStr s => k (toUpperCase s)
  | _ => throw (not_a_function (what ++ ".toUpperCase"))
  end.

(** [getCustomerIdFromAuth0Sub], the same function in both services. *)
Definition getCustomerIdFromAuth0Sub (auth0Sub : string) : js value :=
  await_row (CustomerIdByAuth0Sub auth0Sub) (fun data error =>
    match error, data with
    | None, Some row => ret (get_field row "id")
    | _, _ => ret JNull
    end).

(* ================================================================== *)
(** * transaction-service.js *)
(* ================================================================== *)

Module TransactionService.

Definition EXCEPTION_marker : string := "EXCEPTION:".

Definition generic_db_failure : string :=
  "Transaction failed due to database error.".

(** The [details] of a failed posting:
    [rpcError.message?.includes('EXCEPTION:')
       ? rpcError.message.split('EXCEPTION:')[1].trim()
       : 'Transaction failed due to database error.'] *)
Definition dbErrorMessage (rpcError : pg_error) : js string :=
  match pg_message rpcError with
  | Some message =>
      if includes message EXCEPTION_marker then
        match nth_error (split message EXCEPTION_marker) 1 with
        | Some text => ret (trim text)
        | None =>
            throw (Error_
              "Cannot read properties of undefined (reading 'trim')")
        end
      else ret generic_db_failure
  | None => ret generic_db_failure
  end.

Section WithBuiltins.

Variable Number_toString : number -> string.

(** The five properties destructured from the request body. *)
Record transfer_fields : Type := TransferFields {
  fromAccountId : value;
  toAccountId : value;
  amount : value;
  currency : value;
  description : value
}.

Definition destructure (requestBody : value) : option transfer_fields :=
  match get_prop requestBody "fromAccountId",
        get_prop requestBody "toAccountId",
        get_prop requestBody "amount",
        get_prop requestBody "currency",
        get_prop requestBody "description" with
  | Some f, Some t, Some a, Some c, Some d => Some (TransferFields f t a c d)
  | _, _, _, _, _ => None
  end.

(** [typeof amount !== 'number' || amount <= 0] *)
Definition invalid_amount (a : value) : bool :=
  match a with
  | JNum n => num_le_zero n
  | _ => true
  end.

(** The body of the [try] block: authorization, then the posting.
    [.eq('id', fromAccountId)] writes the filter as the text
    [`eq.${fromAccountId}`], so the lookup cannot be built for a value that
    does not convert; [fromAccountText] is that conversion, made again for
    the message of the 404. *)
Definition authorize_and_post (verifiedToken : token) (f : transfer_fields)
    : js response :=
  let* requestingCustomerId := getCustomerIdFromAuth0Sub (sub verifiedToken) in
  if negb (truthy requestingCustomerId) then
    ret (message_only 403 "Could not identify requesting customer")
  else
    match ToString Number_toString (fromAccountId f) with
    | None => throw cannot_convert
    | Some fromAccountText =>
    await_row (AccountOwnerById (fromAccountId f))
      (fun fromAccountData fromAccountError =>
    match fromAccountError, fromAccountData with
    | None, Some row =>
        if negb (strict_eq (get_field row "customer_id") requestingCustomerId)
        then
          (* console.warn(`Auth mismatch: Token sub ${verifiedToken.sub}
             (customer ${requestingCustomerId}) tried to transfer from account
             ${fromAccountId} owned by customer
             ${fromAccountData.customer_id}`) *)
          template
            [JStr (sub verifiedToken); requestingCustomerId; fromAccountId f;
             get_field row "customer_id"]
            (ret (message_only 403
                    "Forbidden: You do not own the source account."))
        else
          RandomUUID (fun transactionId =>
          call_toUpperCase "currency" (currency f) (fun upperCaseCurrency =>
          await_rpc
            (post_ledger_transaction transactionId (fromAccountId f)
               (toAccountId f) (amount f) upperCaseCurrency (description f))
            (fun _ rpcError =>
          match rpcError with
          | Some err =>
              let* details := dbErrorMessage err in
              ret (respond 422
                     [("message", JStr "Transaction failed.");
                      ("details", JStr details);
                      ("transactionId", JStr transactionId)])
          | None =>
              ret (respond 200
                     [("transactionId", JStr transactionId);
                      ("status", JStr "COMPLETED")])
          end)))
    | _, _ =>
        ret (message_only 404 ("Debit account not found: " ++ fromAccountText))
    end)
    end.

Definition handleInternalTransfer (req : request) (verifiedToken : token)
    : js response :=
  match parsed_body req with
  | None => ret (message_only 400 "Invalid JSON body")
  | Some requestBody =>
      match destructure requestBody with
      | None => throw (cannot_destructure "fromAccountId")
      | Some f =>
          if negb (truthy (fromAccountId f)) || negb (truthy (toAccountId f))
             || negb (truthy (amount f)) || negb (truthy (currency f))
          then
            ret (message_only 400
              "Missing required fields: fromAccountId, toAccountId, amount, currency")
          else if invalid_amount (amount f) then
            ret (message_only 400 "Invalid amount: must be a positive number")
          else if strict_eq (fromAccountId f) (toAccountId f) then
            ret (message_only 400 "From and To accounts cannot be the same")
          else if negb (length_is (currency f) 3)
          then
            ret (message_only 400 "Invalid currency code (must be 3 letters)")
          else
            try_catch (authorize_and_post verifiedToken f)
              (fun err => ret (internal_server_error err))
      end
  end.

End WithBuiltins.

End TransactionService.

(* ================================================================== *)
(** * The account service *)
(* ================================================================== *)

Module AccountService.

Definition allocation_db_error : js_error :=
  Error_ "Database error during account number generation".

Definition allocation_exhausted : js_error :=
  Error_ "Failed to generate a unique account number after multiple attempts.".

(** [generateUniqueAccountNumber(maxRetries = 5)]: the argument counts the
    iterations of the [for] loop that are left. *)
Fixpoint generateUniqueAccountNumber (maxRetries : nat) : js string :=
  match maxRetries with
  | O => throw allocation_exhausted
  | S remaining =>
      RandomInt 1000000000 9999999999 (fun n =>
      let candidate := Z_toString n in
      await_row (AccountNumberLookup candidate) (fun data error =>
        match error with
        | Some _ => throw allocation_db_error
        | None =>
            match data with
            | None => ret candidate
            | Some _ => generateUniqueAccountNumber remaining
            end
        end))
  end.

Definition default_maxRetries : nat := 5.

(** [['CHECKING', 'SAVINGS'].includes(accountType)] *)
Definition known_accountType (v : value) : bool :=
  strict_eq v (JStr "CHECKING") || strict_eq v (JStr "SAVINGS").

(** [accountError.code === 'PGRST116' || accountError.code === '22P02'] *)
Definition not_found_code (e : pg_error) : bool :=
  match pg_code e with
  | Some c => String.eqb c "PGRST116" || String.eqb c "22P02"
  | None => false
  end.

Definition balance_Error : value := JStr "Error".

(** The [balance] put in an account for an answer of [calculate_balance]:
    the data, or the string ['Error'] when the routine reports an error or
    the call rejects (both handlers log the failure and go on). *)
Definition balance_or_Error (r : reply value) : value :=
  match r with
  | Answer balanceData error =>
      match error with
      | None => balanceData
      | Some _ => balance_Error
      end
  | Rejects _ => balance_Error
  end.

(** What follows an answer of [calculate_balance] for the account [id]:
    an answer without error goes on; an error, or a rejection, is logged
    with [`... for account ${id}:`], in the [try] and again in its [catch]
    when the first log line throws, before the handler goes on. *)
Definition balance_logged {A : Type} (id : value) (r : reply value)
    (next : js A) : js A :=
  match r with
  | Answer _ None => next
  | _ => template [id] next
  end.

(** One callback of [accounts.map(async (acc) => ...)]:
    [{ ...acc, balance: balanceData }] or [{ ...acc, balance: 'Error' }]. *)
Definition with_balance (acc : object) : js object :=
  AwaitRpc (calculate_balance (get_field acc "id")) (fun r =>
    balance_logged (get_field acc "id") r
      (ret (set_field acc "balance" (balance_or_Error r)))).

(** [Promise.all(accounts.map(with_balance))]. Every call is made before
    any answer is awaited and the results keep the order of [accounts];
    the calls are requested here one after the other. When a callback
    throws, which it only does with [cannot_convert], the whole is
    rejected with that error. *)
Fixpoint all_with_balance (accounts : list object) : js (list object) :=
  match accounts with
  | [] => ret []
  | acc :: rest =>
      bind (with_balance acc) (fun first =>
      bind (all_with_balance rest) (fun others =>
        match first, others with
        | Normal account, Normal accounts' => ret (account :: accounts')
        | Throw e, _ => throw e
        | Normal _, Throw e => throw e
        end))
  end.

Section WithBuiltins.

Variable Number_toString : number -> string.

Record create_fields : Type := CreateFields {
  customerId : value;
  accountType : value;
  currency : value;
  nickname : value
}.

Definition destructure (requestBody : value) : option create_fields :=
  match get_prop requestBody "customerId",
        get_prop requestBody "accountType",
        get_prop requestBody "currency",
        get_prop requestBody "nickname" with
  | Some c, Some t, Some cur, Some n => Some (CreateFields c t cur n)
  | _, _, _, _ => None
  end.

(** [!requestingCustomerId || requestingCustomerId !== parseInt(id, 10)]:
    [parseInt] is only called for a truthy [requestingCustomerId]; [None]
    when it throws. *)
Definition not_self (requestingCustomerId id : value) : option bool :=
  if negb (truthy requestingCustomerId) then Some true
  else
    match parseInt Number_toString id with
    | Some n => Some (negb (strict_eq requestingCustomerId n))
    | None => None
    end.

Definition handleCreateAccount (req : request) (verifiedToken : token)
    : js response :=
  match parsed_body req with
  | None => ret (message_only 400 "Invalid JSON body")
  | Some requestBody =>
      match destructure requestBody with
      | None => throw (cannot_destructure "customerId")
      | Some f =>
          if negb (truthy (customerId f)) || negb (truthy (accountType f))
             || negb (truthy (currency f))
          then
            ret (message_only 400 "Missing customerId, accountType, or currency")
          else if negb (known_accountType (accountType f)) then
            ret (message_only 400 "Invalid accountType")
          else if negb (length_is (currency f) 3)
          then
            ret (message_only 400 "Invalid currency code")
          else
            let* requestingCustomerId :=
              getCustomerIdFromAuth0Sub (sub verifiedToken) in
            match not_self requestingCustomerId (customerId f) with
            | None => throw cannot_convert
            | Some true =>
                (* console.warn(`Auth mismatch: Token sub ${verifiedToken.sub}
                   (customer ${requestingCustomerId}) tried to create account
                   for customer ${customerId}`) *)
                template
                  [JStr (sub verifiedToken); requestingCustomerId; customerId f]
                  (ret (message_only 403
                          "Forbidden: You can only create accounts for yourself."))
            | Some false =>
              try_catch
                (let* accountNumber :=
                   generateUniqueAccountNumber default_maxRetries in
                 call_toUpperCase "currency" (currency f) (fun upper =>
                 await_row
                   (InsertAccount
                      [("customer_id", requestingCustomerId);
                       ("account_number", JStr accountNumber);
                       ("account_type", accountType f);
                       ("currency", JStr upper);
                       ("nickname", nickname f)])
                   (fun data error =>
                 match error with
                 | Some err =>
                     ret (respond 500
                            [("message", JStr "Database error creating account");
                             ("details", message_value err)])
                 | None =>
                     (* console.log(`Account created successfully with ID:
                        ${data.id}`) *)
                     match data with
                     | Some row =>
                         template [get_field row "id"]
                           (ret (Response 201 (JObj row)))
                     | None => throw (cannot_read_null "id")
                     end
                 end)))
                (fun err => ret (internal_server_error err))
            end
      end
  end.

Definition handleListAccounts (req : request) (verifiedToken : token)
    : js response :=
  match query_customerId req with
  | None => ret (message_only 400 "Missing customerId query parameter")
  | Some customerIdQuery =>
      if negb (truthy (JStr customerIdQuery)) then
        ret (message_only 400 "Missing customerId query parameter")
      else
        let* requestingCustomerId :=
          getCustomerIdFromAuth0Sub (sub verifiedToken) in
        match not_self requestingCustomerId (JStr customerIdQuery) with
        | None => throw cannot_convert
        | Some true =>
            (* console.warn(`Auth mismatch: Token sub ${verifiedToken.sub}
               (customer ${requestingCustomerId}) tried to list accounts for
               customer ${customerIdQuery}`) *)
            template
              [JStr (sub verifiedToken); requestingCustomerId;
               JStr customerIdQuery]
              (ret (message_only 403
                      "Forbidden: You can only list your own accounts."))
        | Some false =>
          try_catch
            (await_rows (AccountsByCustomer requestingCustomerId)
               (fun accounts accountsError =>
             match accountsError with
             | Some err =>
                 ret (respond 500
                        [("message", JStr "Database error listing accounts");
                         ("details", message_value err)])
             | None =>
                 match accounts with
                 | None | Some [] => ret (Response 200 (JArr []))
                 | Some rows =>
                     let* accountsWithBalance := all_with_balance rows in
                     ret (Response 200
                            (JArr (List.map JObj accountsWithBalance)))
                 end
             end))
            (fun err => ret (internal_server_error err))
        end
  end.

(** [pathParts[pathParts.length - 1]] *)
Definition last_path_part (p : string) : string :=
  List.last (split p "/") EmptyString.

Definition handleGetAccount (req : request) (verifiedToken : token)
    : js response :=
  let accountId := last_path_part (path req) in
  if negb (truthy (JStr accountId)) || (String.length accountId <? 10)%nat then
    ret (message_only 400 "Missing or invalid account ID in path")
  else
    try_catch
      (await_row (AccountById accountId) (fun accountData accountError =>
       match accountError with
       | Some err =>
           if not_found_code err then
             ret (message_only 404 "Account not found")
           else
             ret (respond 500
                    [("message", JStr "Database error getting account");
                     ("details", message_value err)])
       | None =>
           match accountData with
           | None => ret (message_only 404 "Account not found")
           | Some row =>
               let* requestingCustomerId :=
                 getCustomerIdFromAuth0Sub (sub verifiedToken) in
               if negb (truthy requestingCustomerId)
                  || negb (strict_eq requestingCustomerId
                             (get_field row "customer_id"))
               then
                 (* console.warn(`Auth mismatch: Token sub ${verifiedToken.sub}
                    (customer ${requestingCustomerId}) tried to get account
                    ${accountId} owned by customer
                    ${accountData.customer_id}`) *)
                 template
                   [JStr (sub verifiedToken); requestingCustomerId;
                    JStr accountId; get_field row "customer_id"]
                   (ret (message_only 403
                           "Forbidden: You can only view your own accounts."))
               else
                 (* let balance = 'Error'; try { ... balance = balanceData }
                    catch (rpcErr) { } *)
                 AwaitRpc (calculate_balance (get_field row "id")) (fun r =>
                 balance_logged (get_field row "id") r
                   (let balance := balance_or_Error r in
                    let accountWithBalance := set_field row "balance" balance in
                    ret (Response 200 (JObj accountWithBalance))))
           end
       end))
      (fun err => ret (internal_server_error err)).

End WithBuiltins.

End AccountService.

(* ================================================================== *)
(** * The entry points: token, routes, last resort *)
(* ================================================================== *)

Module Http.

(** The event a service receives, which is also the [req] its route
    handlers read: [event.path] is [path (request_of event)]. *)
Record http_event : Type := HttpEvent {
  request_of : request;
  httpMethod : string;
  authorization : option string   (* event.headers.authorization *)
}.

(** What [jwt.verify] hands to its callback. *)
Inductive jwt_outcome : Type :=
| JwtError (message : string)
| Decoded (claims : token).

(** The object [verifyToken] rejects with. *)
Record rejection : Type := Rejection {
  rejection_statusCode : Z;
  rejection_message : string
}.

Inductive verification : Type :=
| Verified (claims : token)
| Refused (r : rejection).

(** [s.replace(pattern, '')] for a pattern that is a string: the first
    occurrence is removed. *)
Definition remove_first (s pattern : string) : string :=
  match find_sep pattern s with
  | Some (before, after) => before ++ after
  | None => s
  end.

(** What the [catch] of an entry point answers:
    [error.statusCode || 500] and [error.message || 'Internal Server
    Error']. *)
Definition last_resort (statusCode : option Z) (message : string) : response :=
  let code :=
    match statusCode with
    | Some c => if (c =? 0)%Z then 500 else c
    | None => 500
    end in
  let text :=
    if String.eqb message EmptyString then "Internal Server Error"
    else message in
  message_only code text.

Definition answer_rejection (r : rejection) : response :=
  last_resort (Some (rejection_statusCode r)) (rejection_message r).

(** An error of the engine or of the datastore client has a [message] and
    no [statusCode]. *)
Definition answer_error (e : js_error) : response :=
  last_resort None (err_message e).

Section WithVerifier.

(** [jwt.verify] with the signing keys, audience and issuer of the
    deployment, as a function of the token it is given. *)
Variable jwt_verify : string -> jwt_outcome.

(** [verifyToken], the same function in the three services. *)
Definition verifyToken (req : http_event) : verification :=
  match authorization req with
  | None => Refused (Rejection 401 "Missing or invalid Authorization header")
  | Some authHeader =>
      if negb (truthy (JStr authHeader))
         || negb (String.prefix "Bearer " authHeader)
      then Refused (Rejection 401 "Missing or invalid Authorization header")
      else
        let token := drop 7 authHeader in
        match jwt_verify token with
        | JwtError message =>
            Refused (Rejection 401 ("Token verification failed: " ++ message))
        | Decoded decoded => Verified decoded
        end
  end.

End WithVerifier.

End Http.
Import Http.

Module TransactionMain.

Section WithDeployment.

(** [supabaseUrl && supabaseServiceRoleKey && auth0Domain && auth0Audience]:
    whether the environment variables are all set. *)
Variable configured : bool.
Variable jwt_verify : string -> jwt_outcome.
Variable Number_toString : number -> string.

(** [exports.handler] of the transaction service. *)
Definition handler (event : http_event) : io response :=
  if negb configured then
    Ret (message_only 500
      "Transaction Service: Server configuration error: Missing environment variables.")
  else
    let path := remove_first (path (request_of event)) "/api/transaction-service" in
    let method := httpMethod event in
    match verifyToken jwt_verify event with
    | Refused error => Ret (answer_rejection error)
    | Verified verifiedToken =>
        if String.eqb method "POST" && String.eqb path "/transfers/internal"
        then
          bind
            (TransactionService.handleInternalTransfer Number_toString
               (request_of event) verifiedToken)
            (fun c =>
               match c with
               | Normal answer => Ret answer
               | Throw error => Ret (answer_error error)
               end)
        else
          Ret (message_only 404 "Transaction Service: Route not found")
    end.

End WithDeployment.

End TransactionMain.

(** ** Handlers that end in another kind of datastore call *)

(** The datastore calls of [handleUpdateAccount], [handleCreateCustomer]
    and [handleGetProfile] that are not among the [row_query]s; each ends in
    [.single()]. *)
Inductive late_query : Type :=
| UpdateAccountStatus (id : string) (status : value)
    (* from('accounts').update({ status }).eq('id', id).select().single() *)
| UpsertCustomer (auth0_user_id email : value)
    (* from('customer').upsert({ auth0_user_id, email },
         { onConflict: 'auth0_user_id' }).select().single() *)
| CustomerByAuth0Sub (auth0_sub : string).
    (* from('customer').select('*').eq('auth0_user_id', sub).single() *)

(** In each of these handlers the call is the last thing awaited: the
    handler has either finished, or it asks [q] and answers [k r] for the
    answer [r] of the datastore. *)
Inductive pending (A : Type) : Type :=
| Finished (a : A)
| Asking (q : late_query) (k : reply (option object) -> A).
Arguments Finished {A} a.
Arguments Asking {A} q k.

(** The answer once the datastore has replied, if it was asked. *)
Definition settle {A : Type} (p : pending A)
    (answer_of : late_query -> reply (option object)) : A :=
  match p with
  | Finished a => a
  | Asking q k => k (answer_of q)
  end.

(** [JSON.stringify(data)] of the data of a [.single()] call. *)
Definition data_value (data : option object) : value :=
  match data with
  | Some row => JObj row
  | None => JNull
  end.

Module AccountUpdate.
Import AccountService.

(** [['ACTIVE', 'DORMANT', 'PENDING_CLOSURE', 'CLOSED'].includes(status)] *)
Definition known_status (v : value) : bool :=
  strict_eq v (JStr "ACTIVE") || strict_eq v (JStr "DORMANT")
  || strict_eq v (JStr "PENDING_CLOSURE") || strict_eq v (JStr "CLOSED").

(** The answer to the update, step 2 of the handler. *)
Definition after_update (r : reply (option object)) : response :=
  match r with
  | Rejects err => internal_server_error err
  | Answer updateData updateError =>
      match updateError with
      | Some err =>
          respond 500
            [("message", JStr "Database error updating account");
             ("details", message_value err)]
      | None => Response 200 (data_value updateData)
      end
  end.

Definition handleUpdateAccount (req : request) (verifiedToken : token)
    : js (pending response) :=
  let accountId := last_path_part (path req) in
  if negb (truthy (JStr accountId)) || (String.length accountId <? 10)%nat then
    ret (Finished (message_only 400 "Missing or invalid account ID in path"))
  else
    match parsed_body req with
    | None => ret (Finished (message_only 400 "Invalid JSON body"))
    | Some requestBody =>
        match get_prop requestBody "status" with
        | None => throw (cannot_destructure "status")
        | Some status =>
            if negb (truthy status) || negb (known_status status) then
              ret (Finished
                     (message_only 400
                        "Missing or invalid status in request body"))
            else
              try_catch
                (await_row (AccountOwnerById (JStr accountId))
                   (fun accountData fetchError =>
                 match fetchError with
                 | Some err =>
                     if not_found_code err then
                       ret (Finished (message_only 404 "Account not found"))
                     else
                       ret (Finished
                              (respond 500
                                 [("message",
                                   JStr "Database error fetching account");
                                  ("details", message_value err)]))
                 | None =>
                     match accountData with
                     | None =>
                         ret (Finished (message_only 404 "Account not found"))
                     | Some row =>
                         let* requestingCustomerId :=
                           getCustomerIdFromAuth0Sub (sub verifiedToken) in
                         if negb (truthy requestingCustomerId)
                            || negb (strict_eq requestingCustomerId
                                       (get_field row "customer_id"))
                         then
                           (* console.warn(`Auth mismatch: Token sub
                              ${verifiedToken.sub} (customer
                              ${requestingCustomerId}) tried to update account
                              ${accountId} owned by customer
                              ${accountData.customer_id}`) *)
                           template
                             [JStr (sub verifiedToken); requestingCustomerId;
                              JStr accountId; get_field row "customer_id"]
                             (ret (Finished
                                     (message_only 403
                                        "Forbidden: You cannot update this account.")))
                         else
                           ret (Asking (UpdateAccountStatus accountId status)
                                  after_update)
                     end
                 end))
                (fun err => ret (Finished (internal_server_error err)))
        end
    end.

End AccountUpdate.

Module AccountMain.
Import AccountService AccountUpdate.

(** [/^\/accounts\/?$/.test(path)] *)
Definition accounts_root (p : string) : bool :=
  String.eqb p "/accounts" || String.eqb p "/accounts/".

(** [[0-9a-fA-F]] *)
Definition is_hex (c : ascii) : bool :=
  let n := N_of_ascii c in
  ((48 <=? n) && (n <=? 57) || (97 <=? n) && (n <=? 102)
   || (65 <=? n) && (n <=? 70))%N.

(** [[0-9a-fA-F]{n}] at the start of [s]: what follows it. *)
Fixpoint hex_run (n : nat) (s : string) : option string :=
  match n, s with
  | O, _ => Some s
  | S m, String c rest => if is_hex c then hex_run m rest else None
  | S _, EmptyString => None
  end.

(** [-] at the start of [s]: what follows it. *)
Definition dash (s : string) : option string :=
  match s with
  | String "-" rest => Some rest
  | _ => None
  end.

Definition and_then (o : option string) (f : string -> option string)
    : option string :=
  match o with
  | Some s => f s
  | None => None
  end.

(** The five groups of hexadecimal digits of a UUID at the start of [s]:
    what follows them. *)
Definition uuid_run (s : string) : option string :=
  and_then (and_then (and_then (and_then (and_then (and_then (and_then
  (and_then (hex_run 8 s) dash) (hex_run 4)) dash) (hex_run 4)) dash)
  (hex_run 4)) dash) (hex_run 12).

(** [/^\/accounts\/[0-9a-fA-F]{8}-[0-9a-fA-F]{4}-[0-9a-fA-F]{4}-[0-9a-fA-F]{4}-[0-9a-fA-F]{12}\/?$/.test(path)]:
    every part of the pattern has a fixed length but the last slash, so
    there is one way to match. *)
Definition one_account (p : string) : bool :=
  if String.prefix "/accounts/" p then
    match uuid_run (drop 10 p) with
    | Some rest => String.eqb rest EmptyString || String.eqb rest "/"
    | None => false
    end
  else false.

(** [event.queryStringParameters?.customerId] as a condition. *)
Definition has_customerId (event : http_event) : bool :=
  match query_customerId (request_of event) with
  | Some customerId => truthy (JStr customerId)
  | None => false
  end.

(** [return await h]: an answer is handed on, an exception is answered by
    the [catch] of the entry point. *)
Definition or_last_resort {A : Type} (wrap : A -> pending response)
    (h : js A) : io (pending response) :=
  bind h (fun c =>
    match c with
    | Normal answer => Ret (wrap answer)
    | Throw error => Ret (Finished (answer_error error))
    end).

Section WithDeployment.

Variable configured : bool.
Variable jwt_verify : string -> jwt_outcome.
Variable Number_toString : number -> string.

(** [exports.handler] of the account service. *)
Definition handler (event : http_event) : io (pending response) :=
  if negb configured then
    Ret (Finished (message_only 500
      "Account Service: Server configuration error: Missing environment variables."))
  else
    let path := remove_first (path (request_of event)) "/api/account-service" in
    let method := httpMethod event in
    match verifyToken jwt_verify event with
    | Refused error => Ret (Finished (answer_rejection error))
    | Verified verifiedToken =>
        if String.eqb method "POST" && accounts_root path then
          or_last_resort Finished
            (handleCreateAccount Number_toString (request_of event)
               verifiedToken)
        else if String.eqb method "GET" && accounts_root path
                && has_customerId event then
          or_last_resort Finished
            (handleListAccounts Number_toString (request_of event)
               verifiedToken)
        else if String.eqb method "GET" && one_account path then
          or_last_resort Finished
            (handleGetAccount (request_of event) verifiedToken)
        else if String.eqb method "PATCH" && one_account path then
          or_last_resort (fun answer => answer)
            (handleUpdateAccount (request_of event) verifiedToken)
        else
          Ret (Finished
                 (message_only 404 "Account Service: Route not found"))
    end.

End WithDeployment.

End AccountMain.

Module CustomerService.

(** The answer to the upsert. A rejected call is answered with the fixed
    message of the [catch]. *)
Definition after_upsert (r : reply (option object)) : response :=
  match r with
  | Rejects _ => message_only 500 "Internal server error"
  | Answer data error =>
      match error with
      | Some err =>
          respond 500
            [("message", JStr "Database error during customer creation");
             ("details", message_value err)]
      | None => Response 200 (data_value data)
      end
  end.

Definition handleCreateCustomer (req : request) (verifiedToken : token)
    : completion (pending response) :=
  match parsed_body req with
  | None => Normal (Finished (message_only 400 "Invalid JSON body"))
  | Some requestBody =>
      match get_prop requestBody "auth0_user_id",
            get_prop requestBody "email" with
      | Some auth0_user_id, Some email =>
          if negb (truthy auth0_user_id) || negb (truthy email) then
            Normal (Finished
                      (message_only 400
                         "Missing auth0_user_id or email in request body"))
          else if negb (strict_eq auth0_user_id (JStr (sub verifiedToken))) then
            (* console.warn(`Attempt to create customer with mismatched
               auth0_user_id. Token sub: ${verifiedToken.sub}, Body ID:
               ${auth0_user_id}`): a value that does not convert throws *)
            if List.forallb convertible
                 [JStr (sub verifiedToken); auth0_user_id]
            then
              Normal (Finished
                        (message_only 403 "Forbidden: User ID mismatch"))
            else Throw cannot_convert
          else
            Normal (Asking (UpsertCustomer auth0_user_id email) after_upsert)
      | _, _ => Throw (cannot_destructure "auth0_user_id")
      end
  end.

(** [error.code === 'PGRST116'] *)
Definition no_rows (e : pg_error) : bool :=
  match pg_code e with
  | Some c => String.eqb c "PGRST116"
  | None => false
  end.

Definition after_profile (r : reply (option object)) : response :=
  match r with
  | Rejects _ => message_only 500 "Internal server error"
  | Answer data error =>
      match error with
      | Some err =>
          if no_rows err then message_only 404 "Customer profile not found"
          else
            respond 500
              [("message", JStr "Database error fetching profile");
               ("details", message_value err)]
      | None =>
          match data with
          | None => message_only 404 "Customer profile not found"
          | Some row => Response 200 (JObj row)
          end
      end
  end.

Definition handleGetProfile (req : request) (verifiedToken : token)
    : pending response :=
  let auth0UserId := sub verifiedToken in
  Asking (CustomerByAuth0Sub auth0UserId) after_profile.

Section WithDeployment.

Variable configured : bool.
Variable jwt_verify : string -> jwt_outcome.

(** [event.path.replace('/api/customer-service', '') || '/'] *)
Definition route_path (event : http_event) : string :=
  let stripped := remove_first (path (request_of event)) "/api/customer-service" in
  if String.eqb stripped EmptyString then "/" else stripped.

(** [exports.handler] of the customer service. *)
Definition handler (event : http_event) : pending response :=
  if negb configured then
    Finished (message_only 500
      "Server configuration error: Missing environment variables.")
  else
    let path := route_path event in
    let method := httpMethod event in
    match verifyToken jwt_verify event with
    | Refused error => Finished (answer_rejection error)
    | Verified verifiedToken =>
        if String.eqb method "POST" && String.eqb path "/create" then
          match handleCreateCustomer (request_of event) verifiedToken with
          | Normal answer => answer
          | Throw error => Finished (answer_error error)
          end
        else if String.eqb method "GET" && String.eqb path "/profile" then
          handleGetProfile (request_of event) verifiedToken
        else Finished (message_only 404 "Route not found")
    end.

End WithDeployment.

End CustomerService.

(* ================================================================== *)
(** * The datastore *)
(* ================================================================== *)

(** The tables behind the queries above, and the two database-side
    routines. The routines are not part of the JavaScript sources; they are
    written here from the design document of the ledger. *)

Module Ledger.

Inductive direction : Type := DEBIT | CREDIT.

Inductive account_status : Type := ACTIVE | DORMANT | PENDING_CLOSURE | CLOSED.

Definition status_name (s : account_status) : string :=
  match s with
  | ACTIVE => "ACTIVE"
  | DORMANT => "DORMANT"
  | PENDING_CLOSURE => "PENDING_CLOSURE"
  | CLOSED => "CLOSED"
  end.

Definition is_active (s : account_status) : bool :=
  match s with ACTIVE => true | _ => false end.

Record customer : Type := Customer {
  customer_id : value;
  auth0_user_id : string
}.

(** The [accounts] table, with the columns the handlers select and
    insert. *)
Record account : Type := Account {
  account_id : string;
  account_customer_id : value;
  account_number : string;
  account_type : value;
  account_status_of : account_status;
  account_currency : string;
  account_nickname : value
}.

(** Modelled from the spec: the [transactions] table is not in the
    sources. A transaction has an identifier, an amount, a currency, a debit
    and a credit account and an optional description; the time stamp is left
    out. *)
Record transaction : Type := Transaction {
  transaction_id : string;
  transaction_debit_account : string;
  transaction_credit_account : string;
  transaction_amount : Q;
  transaction_currency : string;
  transaction_description : value
}.

(** Modelled from the spec: the [ledger_entries] table is not in the
    sources. An entry is one posting against one account: its identifier,
    the transaction it belongs to, the account, the direction, the amount and
    the currency; the time stamp is left out. *)
Record entry : Type := Entry {
  entry_id : nat;
  entry_transaction_id : string;
  entry_account_id : string;
  entry_direction : direction;
  entry_amount : Q;
  entry_currency : string
}.

Record datastore : Type := Datastore {
  customers : list customer;
  accounts : list account;
  transactions : list transaction;
  ledger_entries : list entry
}.

(** Modelled from the spec: the errors the routines raise, by kind. *)
Inductive ledger_error : Type :=
| AccountNotFound
| AccountIneligible
| InsufficientFunds
| Conflict
| StorageError.

(** ** Reading *)

Definition has_id (id : value) (a : account) : bool :=
  match id with
  | JStr s => String.eqb (account_id a) s
  | _ => false
  end.

(** Modelled from the spec: [get_account] of the account directory. *)
Definition get_account (db : datastore) (id : value) : option account :=
  List.find (has_id id) (accounts db).

(** Modelled from the spec: [entries_for], the entries of one account in
    the order they were written. *)
Definition entries_for (db : datastore) (id : string) : list entry :=
  List.filter (fun e => String.eqb (entry_account_id e) id) (ledger_entries db).

Definition signed_amount (e : entry) : Q :=
  match entry_direction e with
  | CREDIT => entry_amount e
  | DEBIT => - entry_amount e
  end.

Definition sum_signed (es : list entry) : Q :=
  List.fold_left (fun total e => total + signed_amount e)%Q es 0%Q.

(** Modelled from the spec: the database routine [calculate_balance] is not
    in the sources. "balance = sum of credit entry amounts minus sum of debit
    entry amounts over the entries of the account"; it "returns Error (not
    a sentinel value) if any entry amount is missing currency-consistency
    with the account". *)
Definition balance (db : datastore) (a : account) : option Q :=
  let es := entries_for db (account_id a) in
  if List.forallb (fun e => String.eqb (entry_currency e) (account_currency a)) es
  then Some (sum_signed es)
  else None.

(** The exact rational value of a finite double. *)
Definition Q_of_number (n : number) : option Q :=
  match n with
  | S754_zero _ => Some 0%Q
  | S754_finite s m e =>
      let magnitude := Qred (inject_Z (Zpos m) * Qpower (2 # 1) e)%Q in
      Some (if s then - magnitude else magnitude)%Q
  | S754_infinity _ | S754_nan => None
  end.

Definition amount_of (v : value) : option Q :=
  match v with JNum n => Q_of_number n | _ => None end.

Definition has_transaction (db : datastore) (id : string) : bool :=
  List.existsb (fun t => String.eqb (transaction_id t) id) (transactions db).

(** ** Writing *)

(** Modelled from the spec: the write of [post], absent from the sources
    with the routine. "Writes the transaction record and both entries as a
    single atomic unit"; both entries carry the amount and the currency of
    the transaction. *)
Definition append_transfer (db : datastore) (id : string) (debit credit : account)
    (amt : Q) (cur : string) (descr : value) : datastore :=
  let next := List.length (ledger_entries db) in
  Datastore (customers db) (accounts db)
    (transactions db
       ++ [Transaction id (account_id debit) (account_id credit) amt cur descr])
    (ledger_entries db
       ++ [Entry next id (account_id debit) DEBIT amt cur;
           Entry (S next) id (account_id credit) CREDIT amt cur]).

(** Modelled from the spec: an account takes part in a transfer when it is
    [ACTIVE] and its currency is the requested one. *)
Definition eligible (a : account) (cur : string) : bool :=
  is_active (account_status_of a) && String.eqb (account_currency a) cur.

(** Modelled from the spec: the database routine [post_ledger_transaction]
    is not in the sources. It carries steps 2 to 5 of the transfer contract
    and the [post] operation of the ledger store: resolve both accounts
    ([AccountNotFound]), require both [ACTIVE] and in the requested currency
    ([AccountIneligible]), compare the debit account's balance with the
    amount ([InsufficientFunds] if balance < amount), fail with [Conflict]
    if the transaction id already exists, and otherwise write the
    transaction and its two entries as one unit. An amount or balance that
    cannot be computed is a [StorageError]. *)
Definition post (db : datastore) (id : string) (debit_id credit_id amt : value)
    (cur : string) (descr : value) : datastore * option ledger_error :=
  match get_account db debit_id, get_account db credit_id with
  | Some debit, Some credit =>
      if negb (eligible debit cur && eligible credit cur) then
        (db, Some AccountIneligible)
      else
        match amount_of amt, balance db debit with
        | Some a, Some b =>
            if negb (Qle_bool a b) then (db, Some InsufficientFunds)
            else if has_transaction db id then (db, Some Conflict)
            else (append_transfer db id debit credit a cur descr, None)
        | _, _ => (db, Some StorageError)
        end
  | _, _ => (db, Some AccountNotFound)
  end.

(** ** The double-entry invariant *)

Definition entries_of (db : datastore) (id : string) : list entry :=
  List.filter (fun e => String.eqb (entry_transaction_id e) id)
    (ledger_entries db).

(** Exactly two entries, a debit and a credit of the same amount in the
    same currency. *)
Definition balanced_pair (es : list entry) : Prop :=
  exists d c,
    es = [d; c]
    /\ entry_direction d = DEBIT /\ entry_direction c = CREDIT
    /\ entry_amount d = entry_amount c
    /\ entry_currency d = entry_currency c.

Definition posted (db : datastore) (id : string) : Prop :=
  In id (List.map transaction_id (transactions db)).

(** Every posted transaction has a balanced pair of entries, and no entry
    belongs to a transaction that was not posted. *)
Definition double_entry (db : datastore) : Prop :=
  (forall id, posted db id -> balanced_pair (entries_of db id))
  /\ (forall e, In e (ledger_entries db) -> posted db (entry_transaction_id e)).

End Ledger.

(* ================================================================== *)
(** * Running a handler against the datastore *)
(* ================================================================== *)

Module World.
Import Ledger.

(** The datastore and the two random sources, each with the number of
    draws made so far. *)
Record world : Type := World_ {
  store : datastore;
  uuid_source : nat -> string;
  uuid_drawn : nat;
  int_source : nat -> Z;
  int_drawn : nat
}.

Definition with_store (w : world) (db : datastore) : world :=
  World_ db (uuid_source w) (uuid_drawn w) (int_source w) (int_drawn w).

Definition draw_uuid (w : world) : string * world :=
  (uuid_source w (uuid_drawn w),
   World_ (store w) (uuid_source w) (S (uuid_drawn w))
     (int_source w) (int_drawn w)).

(** [crypto.randomInt(min, max)] answers in [min, max). *)
Definition draw_int (w : world) (lo hi : Z) : Z * world :=
  (lo + (int_source w (int_drawn w)) mod (hi - lo),
   World_ (store w) (uuid_source w) (uuid_drawn w)
     (int_source w) (S (int_drawn w))).

(** ** Rows as the client returns them *)

Definition no_single_row : pg_error :=
  PgError (Some "JSON object requested, multiple (or no) rows returned")
          (Some "PGRST116").

Definition unique_violation : pg_error :=
  PgError (Some "duplicate key value violates unique constraint")
          (Some "23505").

Definition invalid_row : pg_error :=
  PgError (Some "invalid input value") (Some "22P02").

(** [.single()] *)
Definition single (rows : list object) : reply (option object) :=
  match rows with
  | [row] => Answer (Some row) None
  | _ => Answer None (Some no_single_row)
  end.

(** [.maybeSingle()] *)
Definition maybeSingle (rows : list object) : reply (option object) :=
  match rows with
  | [] => Answer None None
  | [row] => Answer (Some row) None
  | _ => Answer None (Some no_single_row)
  end.

Definition account_row (a : account) : object :=
  [("id", JStr (account_id a));
   ("customer_id", account_customer_id a);
   ("account_number", JStr (account_number a));
   ("account_type", account_type a);
   ("status", JStr (status_name (account_status_of a)));
   ("currency", JStr (account_currency a));
   ("nickname", account_nickname a)].

Definition account_summary (a : account) : object :=
  [("id", JStr (account_id a));
   ("account_number", JStr (account_number a));
   ("account_type", account_type a);
   ("status", JStr (status_name (account_status_of a)));
   ("currency", JStr (account_currency a));
   ("nickname", account_nickname a)].

Definition number_taken (db : datastore) (candidate : string) : list account :=
  List.filter (fun a => String.eqb (account_number a) candidate) (accounts db).

(** The double nearest to a rational whose numerator and denominator are
    below 2^53. *)
Definition number_of_Q (q : Q) : number :=
  SFdiv 53 1024 (num_of_Z (Qnum q)) (num_of_Z (Zpos (Qden q))).

Section Execution.

(** The wording of the errors the routines raise is not in the sources. *)
Variable describe : ledger_error -> pg_error.

Definition answer_row (w : world) (q : row_query)
    : reply (option object) * world :=
  let db := store w in
  match q with
  | CustomerIdByAuth0Sub auth0_sub =>
      (single
         (List.map (fun c => [("id", customer_id c)])
            (List.filter (fun c => String.eqb (auth0_user_id c) auth0_sub)
               (customers db))), w)
  | AccountOwnerById id =>
      (single
         (List.map (fun a => [("customer_id", account_customer_id a)])
            (List.filter (has_id id) (accounts db))), w)
  | AccountNumberLookup candidate =>
      (maybeSingle
         (List.map (fun a => [("account_number", JStr (account_number a))])
            (number_taken db candidate)), w)
  | AccountById id =>
      (single (List.map account_row
                 (List.filter (has_id (JStr id)) (accounts db))), w)
  | InsertAccount new_row =>
      match get_field new_row "account_number", get_field new_row "currency" with
      | JStr number, JStr cur =>
          match number_taken db number with
          | [] =>
              let (id, w1) := draw_uuid w in
              let a := Account id (get_field new_row "customer_id") number
                         (get_field new_row "account_type") ACTIVE cur
                         (get_field new_row "nickname") in
              (Answer (Some (account_row a)) None,
               with_store w1
                 (Datastore (customers db) (accounts db ++ [a])
                    (transactions db) (ledger_entries db)))
          | _ => (Answer None (Some unique_violation), w)
          end
      | _, _ => (Answer None (Some invalid_row), w)
      end
  end.

Definition answer_rows (w : world) (q : rows_query)
    : reply (option (list object)) * world :=
  match q with
  | AccountsByCustomer cid =>
      (Answer
         (Some (List.map account_summary
                  (List.filter (fun a => strict_eq (account_customer_id a) cid)
                     (accounts (store w)))))
         None, w)
  end.

Definition answer_rpc (w : world) (c : rpc_call) : reply value * world :=
  match c with
  | post_ledger_transaction id debit credit amt cur descr =>
      match post (store w) id debit credit amt cur descr with
      | (db, None) => (Answer JNull None, with_store w db)
      | (db, Some kind) => (Answer JNull (Some (describe kind)), with_store w db)
      end
  | calculate_balance id =>
      match get_account (store w) id with
      | Some a =>
          match balance (store w) a with
          | Some b => (Answer (JNum (number_of_Q b)) None, w)
          | None => (Answer JNull (Some (describe StorageError)), w)
          end
      | None => (Answer JNull (Some (describe AccountNotFound)), w)
      end
  end.

(** The run of [m] from [w]: its result, the world it leaves and the
    requests it made. *)
Fixpoint exec {A : Type} (w : world) (m : io A) : A * world * list event :=
  match m with
  | Ret a => (a, w, [])
  | AwaitRow q k =>
      let (r, w1) := answer_row w q in
      let '(a, w2, t) := exec w1 (k r) in (a, w2, EvRow q r :: t)
  | AwaitRows q k =>
      let (r, w1) := answer_rows w q in
      let '(a, w2, t) := exec w1 (k r) in (a, w2, EvRows q r :: t)
  | AwaitRpc c k =>
      let (r, w1) := answer_rpc w c in
      let '(a, w2, t) := exec w1 (k r) in (a, w2, EvRpc c r :: t)
  | RandomUUID k =>
      let (u, w1) := draw_uuid w in
      let '(a, w2, t) := exec w1 (k u) in (a, w2, EvUUID u :: t)
  | RandomInt lo hi k =>
      let (n, w1) := draw_int w lo hi in
      let '(a, w2, t) := exec w1 (k n) in (a, w2, EvInt lo hi n :: t)
  end.

Definition result_of {A : Type} (x : A * world * list event) : A :=
  fst (fst x).
Definition world_of {A : Type} (x : A * world * list event) : world :=
  snd (fst x).
Definition trace_of {A : Type} (x : A * world * list event) : list event :=
  snd x.

(** The world after one request, and what it means for the recorded answer
    to be the one this world gives. *)
Definition step_world (w : world) (e : event) : world :=
  match e with
  | EvRow q _ => snd (answer_row w q)
  | EvRows q _ => snd (answer_rows w q)
  | EvRpc c _ => snd (answer_rpc w c)
  | EvUUID _ => snd (draw_uuid w)
  | EvInt lo hi _ => snd (draw_int w lo hi)
  end.

Definition answered (w : world) (e : event) : Prop :=
  match e with
  | EvRow q r => r = fst (answer_row w q)
  | EvRows q r => r = fst (answer_rows w q)
  | EvRpc c r => r = fst (answer_rpc w c)
  | EvUUID u => u = fst (draw_uuid w)
  | EvInt lo hi n => n = fst (draw_int w lo hi)
  end.

Fixpoint faithful (w : world) (t : list event) : Prop :=
  match t with
  | [] => True
  | e :: rest => answered w e /\ faithful (step_world w e) rest
  end.

End Execution.

End World.

(* ================================================================== *)
(** * A small bank to run the handlers on *)
(* ================================================================== *)

Module Sample.
Import Ledger World.

(** [Number::toString] on the doubles that are integers; the requests below
    contain no other number. *)
Definition print_integer (n : number) : string :=
  match n with
  | S754_zero _ => "0"
  | S754_finite s m e =>
      Z_toString ((if s then -1 else 1) * Z.shiftl (Zpos m) e)
  | S754_infinity s => if s then "-Infinity" else "Infinity"
  | S754_nan => "NaN"
  end.

Definition alice : customer := Customer (JNum (num_of_Z 1)) "auth0|alice".
Definition bob : customer := Customer (JNum (num_of_Z 2)) "auth0|bob".

Definition alice_token : token := Token "auth0|alice".

Definition checking (id : string) (owner : Z) (number cur : string) : account :=
  Account id (JNum (num_of_Z owner)) number (JStr "CHECKING") ACTIVE cur JNull.

(** Three accounts in one currency; Alice's was funded with 100 by the
    house account. *)
Definition bank (cur : string) (extra : list entry) : datastore :=
  Datastore [alice; bob]
    [checking "acc-house-0001" 0 "1000000001" cur;
     checking "acc-alice-0001" 1 "1000000002" cur;
     checking "acc-bob-0001" 2 "1000000003" cur]
    [Transaction "tx-funding" "acc-house-0001" "acc-alice-0001" (100 # 1) cur
       JNull]
    ([Entry 0 "tx-funding" "acc-house-0001" DEBIT (100 # 1) cur;
      Entry 1 "tx-funding" "acc-alice-0001" CREDIT (100 # 1) cur] ++ extra).

Definition uuids (n : nat) : string := "uuid-" ++ Z_toString (Z.of_nat n).

Definition world_of_bank (db : datastore) : world :=
  World_ db uuids 0 (fun n => Z.of_nat n) 0.

Definition usd_world : world := world_of_bank (bank "USD" []).


(** A ledger with a EUR entry on Alice's USD account. *)
Definition corrupt_world : world :=
  world_of_bank
    (bank "USD" [Entry 2 "tx-stray" "acc-alice-0001" CREDIT (5 # 1) "EUR"]).

Definition kind_name (k : ledger_error) : string :=
  match k with
  | AccountNotFound => "AccountNotFound"
  | AccountIneligible => "AccountIneligible"
  | InsufficientFunds => "InsufficientFunds"
  | Conflict => "Conflict"
  | StorageError => "StorageError"
  end.

(** Two wordings for the errors of the routines: with and without the
    marker the transfer handler looks for. *)
Definition describe_marked (k : ledger_error) : pg_error :=
  PgError (Some ("EXCEPTION: " ++ kind_name k)) (Some "P0001").

Definition describe_plain (k : ledger_error) : pg_error :=
  PgError (Some (kind_name k)) (Some "P0001").

(** A transfer request; the body also carries a [transaction_id] chosen by
    the caller. *)
Definition transfer_body (from to : string) (amt : Z) (cur : string) : value :=
  JObj [("fromAccountId", JStr from);
        ("toAccountId", JStr to);
        ("amount", JNum (num_of_Z amt));
        ("currency", JStr cur);
        ("description", JStr "rent");
        ("transaction_id", JStr "tx-caller-1")].

Definition transfer_request (from to : string) (amt : Z) (cur : string)
    : request :=
  Request (Some (transfer_body from to amt cur)) "/transfers/internal" None.

Definition get_request (account : string) : request :=
  Request None ("/api/account-service/accounts/" ++ account) None.

Definition list_request (customer : string) : request :=
  Request None "/api/account-service/accounts" (Some customer).

Definition create_request (customer : Z) (cur : string) : request :=
  Request
    (Some (JObj [("customerId", JNum (num_of_Z customer));
                 ("accountType", JStr "SAVINGS");
                 ("currency", JStr cur)]))
    "/api/account-service/accounts" None.

(** Alice's transfer, run from a world. *)
Definition transfer (w : world) (describe : ledger_error -> pg_error)
    (from to : string) (amt : Z) (cur : string)
    : completion response * world * list event :=
  exec describe w
    (TransactionService.handleInternalTransfer print_integer
       (transfer_request from to amt cur) alice_token).

Definition fields (from to : string) (amt : Z) (cur : string)
    : TransactionService.transfer_fields :=
  TransactionService.TransferFields (JStr from) (JStr to)
    (JNum (num_of_Z amt)) (JStr cur) (JStr "rent").

(** Five candidates that are all in use. *)
Definition five_taken : list (Z * object) :=
  [(1000000001, [("account_number", JStr "1000000001")]);
   (1000000002, [("account_number", JStr "1000000002")]);
   (1000000003, [("account_number", JStr "1000000003")]);
   (1000000001, [("account_number", JStr "1000000001")]);
   (1000000002, [("account_number", JStr "1000000002")])].

End Sample.

(* ================================================================== *)
(** * The vocabulary of the properties *)
(* ================================================================== *)

Import Ledger World.

Unset Implicit Arguments.

(** ** Reading the answers of the two lookups *)

(** The value [getCustomerIdFromAuth0Sub] returns for an answer. *)
Definition resolved_customer (data : option object) (error : option pg_error)
    : value :=
  match error, data with
  | None, Some row => get_field row "id"
  | _, _ => JNull
  end.

(** The row of an account lookup that found the account. *)
Definition found_row (data : option object) (error : option pg_error)
    : option object :=
  match error, data with
  | None, Some row => Some row
  | _, _ => None
  end.

Module TransferSpec.
Import TransactionService.

(** The four guards of the "basic input validation", taken together. *)
Definition passes_validation (f : transfer_fields) : bool :=
  truthy (fromAccountId f) && truthy (toAccountId f)
  && truthy (amount f) && truthy (currency f)
  && negb (invalid_amount (amount f))
  && negb (strict_eq (fromAccountId f) (toAccountId f))
  && length_is (currency f) 3.



(** ** The details of a failed posting *)

(** The text up to the next marker, or all of it. *)
Definition first_segment (s : string) : string :=
  match find_sep EXCEPTION_marker s with
  | Some (segment, _) => segment
  | None => s
  end.

(** What the handler reports for an error of the posting routine: the
    trimmed text between the first marker and the next one, and the fixed
    sentence when the message is absent or has no marker. *)
Definition details_of (err : pg_error) : string :=
  match pg_message err with
  | Some message =>
      match find_sep EXCEPTION_marker message with
      | Some (_, after) => trim (first_segment after)
      | None => generic_db_failure
      end
  | None => generic_db_failure
  end.

Definition failed (transactionId : string) (err : pg_error) : response :=
  respond 422
    [("message", JStr "Transaction failed.");
     ("details", JStr (details_of err));
     ("transactionId", JStr transactionId)].

Definition completed (transactionId : string) : response :=
  respond 200
    [("transactionId", JStr transactionId); ("status", JStr "COMPLETED")].

(** ** The runs of the [try] block, case by case *)

Section Runs.

Variable Number_toString : number -> string.
Variables (tok : token) (f : transfer_fields).

Let lookup_customer := CustomerIdByAuth0Sub (sub tok).
Let lookup_debit := AccountOwnerById (fromAccountId f).
Let post (id cur : string) :=
  post_ledger_transaction id (fromAccountId f) (toAccountId f) (amount f) cur
    (description f).

(** The values substituted in the log line of an ownership mismatch. *)
Definition mismatch_log (owner : value) (row : object) : list value :=
  [JStr (sub tok); owner; fromAccountId f; get_field row "customer_id"].

Inductive transfer_run : list event -> completion response -> Prop :=
| customer_lookup_rejects : forall e,
    transfer_run [EvRow lookup_customer (Rejects e)]
      (Normal (internal_server_error e))
| customer_unidentified : forall data error,
    truthy (resolved_customer data error) = false ->
    transfer_run [EvRow lookup_customer (Answer data error)]
      (Normal (message_only 403 "Could not identify requesting customer"))
| debit_unaddressable : forall data error,
    truthy (resolved_customer data error) = true ->
    ToString Number_toString (fromAccountId f) = None ->
    transfer_run [EvRow lookup_customer (Answer data error)]
      (Normal (internal_server_error cannot_convert))
| debit_lookup_rejects : forall data error text e,
    truthy (resolved_customer data error) = true ->
    ToString Number_toString (fromAccountId f) = Some text ->
    transfer_run
      [EvRow lookup_customer (Answer data error);
       EvRow lookup_debit (Rejects e)]
      (Normal (internal_server_error e))
| debit_not_found : forall data error text adata aerror,
    truthy (resolved_customer data error) = true ->
    ToString Number_toString (fromAccountId f) = Some text ->
    found_row adata aerror = None ->
    transfer_run
      [EvRow lookup_customer (Answer data error);
       EvRow lookup_debit (Answer adata aerror)]
      (Normal (message_only 404 ("Debit account not found: " ++ text)))
| debit_not_owned : forall data error text adata aerror row,
    truthy (resolved_customer data error) = true ->
    ToString Number_toString (fromAccountId f) = Some text ->
    found_row adata aerror = Some row ->
    strict_eq (get_field row "customer_id") (resolved_customer data error)
    = false ->
    List.forallb convertible (mismatch_log (resolved_customer data error) row)
    = true ->
    transfer_run
      [EvRow lookup_customer (Answer data error);
       EvRow lookup_debit (Answer adata aerror)]
      (Normal (message_only 403
                 "Forbidden: You do not own the source account."))
| debit_not_owned_log_throws : forall data error text adata aerror row,
    truthy (resolved_customer data error) = true ->
    ToString Number_toString (fromAccountId f) = Some text ->
    found_row adata aerror = Some row ->
    strict_eq (get_field row "customer_id") (resolved_customer data error)
    = false ->
    List.forallb convertible (mismatch_log (resolved_customer data error) row)
    = false ->
    transfer_run
      [EvRow lookup_customer (Answer data error);
       EvRow lookup_debit (Answer adata aerror)]
      (Normal (internal_server_error cannot_convert))
| currency_not_string : forall data error text adata aerror row id,
    truthy (resolved_customer data error) = true ->
    ToString Number_toString (fromAccountId f) = Some text ->
    found_row adata aerror = Some row ->
    strict_eq (get_field row "customer_id") (resolved_customer data error)
    = true ->
    (forall s, currency f <> JStr s) ->
    transfer_run
      [EvRow lookup_customer (Answer data error);
       EvRow lookup_debit (Answer adata aerror);
       EvUUID id]
      (Normal (internal_server_error (not_a_function "currency.toUpperCase")))
| posting_rejects : forall data error text adata aerror row id s e,
    truthy (resolved_customer data error) = true ->
    ToString Number_toString (fromAccountId f) = Some text ->
    found_row adata aerror = Some row ->
    strict_eq (get_field row "customer_id") (resolved_customer data error)
    = true ->
    currency f = JStr s ->
    transfer_run
      [EvRow lookup_customer (Answer data error);
       EvRow lookup_debit (Answer adata aerror);
       EvUUID id;
       EvRpc (post id (toUpperCase s)) (Rejects e)]
      (Normal (internal_server_error e))
| posting_fails : forall data error text adata aerror row id s pdata err,
    truthy (resolved_customer data error) = true ->
    ToString Number_toString (fromAccountId f) = Some text ->
    found_row adata aerror = Some row ->
    strict_eq (get_field row "customer_id") (resolved_customer data error)
    = true ->
    currency f = JStr s ->
    transfer_run
      [EvRow lookup_customer (Answer data error);
       EvRow lookup_debit (Answer adata aerror);
       EvUUID id;
       EvRpc (post id (toUpperCase s)) (Answer pdata (Some err))]
      (Normal (failed id err))
| posting_succeeds : forall data error text adata aerror row id s pdata,
    truthy (resolved_customer data error) = true ->
    ToString Number_toString (fromAccountId f) = Some text ->
    found_row adata aerror = Some row ->
    strict_eq (get_field row "customer_id") (resolved_customer data error)
    = true ->
    currency f = JStr s ->
    transfer_run
      [EvRow lookup_customer (Answer data error);
       EvRow lookup_debit (Answer adata aerror);
       EvUUID id;
       EvRpc (post id (toUpperCase s)) (Answer pdata None)]
      (Normal (completed id)).

End Runs.

(** The requests a transfer may make: the customer of the token, the
    account named by [fromAccountId], a fresh identifier and the posting. *)
Definition debit_only (tok : token) (f : transfer_fields) (e : event) : Prop :=
  match e with
  | EvRow q _ =>
      q = CustomerIdByAuth0Sub (sub tok)
      \/ q = AccountOwnerById (fromAccountId f)
  | EvRpc c _ =>
      exists id cur,
        c = post_ledger_transaction id (fromAccountId f) (toAccountId f)
              (amount f) cur (description f)
  | EvUUID _ => True
  | EvRows _ _ | EvInt _ _ _ => False
  end.

End TransferSpec.

Module AccountSpec.
Import AccountService.

(** ** The allocator *)

Definition is_lookup (e : event) : bool :=
  match e with
  | EvRow (AccountNumberLookup _) _ => true
  | _ => false
  end.

(** A uniqueness check that found the number in use. *)
Definition is_collision (e : event) : bool :=
  match e with
  | EvRow (AccountNumberLookup _) (Answer (Some _) None) => true
  | _ => false
  end.

Definition is_insert (e : event) : bool :=
  match e with
  | EvRow (InsertAccount _) _ => true
  | _ => false
  end.

Definition count (p : event -> bool) (t : list event) : nat :=
  List.length (List.filter p t).

(** The runs of the allocator with [left] attempts left. *)
Inductive allocation_run : nat -> list event -> completion string -> Prop :=
| attempts_exhausted :
    allocation_run 0 [] (Throw allocation_exhausted)
| candidate_free : forall left n,
    allocation_run (S left)
      [EvInt 1000000000 9999999999 n;
       EvRow (AccountNumberLookup (Z_toString n)) (Answer None None)]
      (Normal (Z_toString n))
| check_fails : forall left n data err,
    allocation_run (S left)
      [EvInt 1000000000 9999999999 n;
       EvRow (AccountNumberLookup (Z_toString n)) (Answer data (Some err))]
      (Throw allocation_db_error)
| check_rejects : forall left n e,
    allocation_run (S left)
      [EvInt 1000000000 9999999999 n;
       EvRow (AccountNumberLookup (Z_toString n)) (Rejects e)]
      (Throw e)
| candidate_taken : forall left n row t out,
    allocation_run left t out ->
    allocation_run (S left)
      (EvInt 1000000000 9999999999 n
       :: EvRow (AccountNumberLookup (Z_toString n)) (Answer (Some row) None)
       :: t)
      out.

(** The requests and answers of attempts that all find their candidate in
    use. *)
Fixpoint collisions (taken : list (Z * object)) : list event :=
  match taken with
  | [] => []
  | (n, row) :: rest =>
      EvInt 1000000000 9999999999 n
      :: EvRow (AccountNumberLookup (Z_toString n)) (Answer (Some row) None)
      :: collisions rest
  end.

(** ** Balances in the answers *)

(** The routine reported an error, or the call rejected. *)
Definition balance_failed (r : reply value) : Prop :=
  match r with
  | Answer _ error =>
      match error with
      | None => False
      | Some _ => True
      end
  | Rejects _ => True
  end.

(** ** The runs of [handleCreateAccount] *)

Definition passes_validation (f : create_fields) : bool :=
  truthy (customerId f) && truthy (accountType f) && truthy (currency f)
  && known_accountType (accountType f)
  && length_is (currency f) 3.

(** The row handed to the insert. *)
Definition new_account (owner : value) (number : string) (f : create_fields)
    (cur : string) : object :=
  [("customer_id", owner);
   ("account_number", JStr number);
   ("account_type", accountType f);
   ("currency", JStr cur);
   ("nickname", nickname f)].

(** The answer of the handler for each answer of the insert. *)
Definition insert_outcome (r : reply (option object)) : response :=
  match r with
  | Rejects e => internal_server_error e
  | Answer data error =>
      match error with
      | Some err =>
          respond 500
            [("message", JStr "Database error creating account");
             ("details", message_value err)]
      | None =>
          match data with
          | Some row =>
              if convertible (get_field row "id") then Response 201 (JObj row)
              else internal_server_error cannot_convert
          | None => internal_server_error (cannot_read_null "id")
          end
      end
  end.


Section Runs.

Variable Number_toString : number -> string.
Variables (tok : token) (f : create_fields).

Let lookup_customer := CustomerIdByAuth0Sub (sub tok).

(** The values substituted in the log line of a mismatch. *)
Definition mismatch_log (owner : value) : list value :=
  [JStr (sub tok); owner; customerId f].

Inductive create_run : list event -> completion response -> Prop :=
| create_customer_rejects : forall e,
    create_run [EvRow lookup_customer (Rejects e)] (Throw e)
| create_unreadable_customerId : forall data error,
    not_self Number_toString (resolved_customer data error) (customerId f)
    = None ->
    create_run [EvRow lookup_customer (Answer data error)]
      (Throw cannot_convert)
| create_not_self : forall data error,
    not_self Number_toString (resolved_customer data error) (customerId f)
    = Some true ->
    List.forallb convertible (mismatch_log (resolved_customer data error))
    = true ->
    create_run [EvRow lookup_customer (Answer data error)]
      (Normal (message_only 403
                 "Forbidden: You can only create accounts for yourself."))
| create_not_self_log_throws : forall data error,
    not_self Number_toString (resolved_customer data error) (customerId f)
    = Some true ->
    List.forallb convertible (mismatch_log (resolved_customer data error))
    = false ->
    create_run [EvRow lookup_customer (Answer data error)]
      (Throw cannot_convert)
| create_allocation_throws : forall data error ta e,
    not_self Number_toString (resolved_customer data error) (customerId f)
    = Some false ->
    allocation_run default_maxRetries ta (Throw e) ->
    create_run (EvRow lookup_customer (Answer data error) :: ta)
      (Normal (internal_server_error e))
| create_currency_not_string : forall data error ta number,
    not_self Number_toString (resolved_customer data error) (customerId f)
    = Some false ->
    allocation_run default_maxRetries ta (Normal number) ->
    (forall s, currency f <> JStr s) ->
    create_run (EvRow lookup_customer (Answer data error) :: ta)
      (Normal (internal_server_error (not_a_function "currency.toUpperCase")))
| create_inserts : forall data error ta number s r,
    not_self Number_toString (resolved_customer data error) (customerId f)
    = Some false ->
    allocation_run default_maxRetries ta (Normal number) ->
    currency f = JStr s ->
    create_run
      (EvRow lookup_customer (Answer data error)
       :: ta
       ++ [EvRow
             (InsertAccount
                (new_account (resolved_customer data error) number f
                   (toUpperCase s)))
             r])%list
      (Normal (insert_outcome r)).

End Runs.

End AccountSpec.

(** ** The entry points *)

Module EntrySpec.

(** The event carries a bearer token that [jwt_verify] decodes to [tok]. *)
Definition bearer (jwt_verify : string -> jwt_outcome) (event : http_event)
    (tok : token) : Prop :=
  exists authHeader,
    authorization event = Some authHeader
    /\ String.prefix "Bearer " authHeader = true
    /\ jwt_verify (drop 7 authHeader) = Decoded tok.

(** The path of the event once the prefix of the service is removed. *)
Definition routed (service : string) (event : http_event) : string :=
  remove_first (path (request_of event)) service.

(** A posting that the routine answered without an error. *)
Definition is_posted (e : event) : bool :=
  match e with
  | EvRpc (post_ledger_transaction _ _ _ _ _ _) (Answer _ None) => true
  | _ => false
  end.

(** An insert that the datastore answered with the new row. *)
Definition is_inserted (e : event) : bool :=
  match e with
  | EvRow (InsertAccount _) (Answer (Some _) None) => true
  | _ => false
  end.

(** An insert that the datastore answered with a new row whose [id]
    converts to a string: the handler writes it to the log before it
    answers 201. *)
Definition is_created (e : event) : bool :=
  match e with
  | EvRow (InsertAccount _) (Answer (Some row) None) =>
      convertible (get_field row "id")
  | _ => false
  end.

(** A uniqueness check that the datastore answered with an error. *)
Definition is_failed_check (e : event) : bool :=
  match e with
  | EvRow (AccountNumberLookup _) (Answer _ (Some _)) => true
  | _ => false
  end.

(** The customer record a late query reads or writes. *)
Definition customer_of (q : late_query) : option value :=
  match q with
  | UpsertCustomer auth0_user_id _ => Some auth0_user_id
  | CustomerByAuth0Sub auth0_sub => Some (JStr auth0_sub)
  | UpdateAccountStatus _ _ => None
  end.

(** No [/] in the string. *)
Fixpoint no_slash (s : string) : bool :=
  match s with
  | EmptyString => true
  | String c rest => negb (Ascii.eqb c "/") && no_slash rest
  end.

End EntrySpec.

(** ** Reading accounts *)

Module ReadSpec.
Import AccountService.

(** The balance request made for a row, with the answer it got. *)
Definition balance_request (asked : object * reply value) : event :=
  EvRpc (calculate_balance (get_field (fst asked) "id")) (snd asked).

(** The account shown for a row and the answer of its balance request. *)
Definition shown (asked : object * reply value) : object :=
  set_field (fst asked) "balance" (balance_or_Error (snd asked)).

Definition is_balance_request (e : event) : bool :=
  match e with
  | EvRpc (calculate_balance _) _ => true
  | _ => false
  end.

(** The log line of a failed balance request throws: the request was
    answered with an error, or rejected, and the [id] of its row does not
    convert to a string. *)
Definition log_throws (asked : object * reply value) : bool :=
  match snd asked with
  | Answer _ None => false
  | _ => negb (convertible (get_field (fst asked) "id"))
  end.

(** The values substituted in the log line of an ownership mismatch. *)
Definition mismatch_log (tok : token) (owner : value) (accountId : string)
    (row : object) : list value :=
  [JStr (sub tok); owner; JStr accountId; get_field row "customer_id"].

End ReadSpec.

(** ** Visitors of the small bank *)

Module Visits.
Import Sample.

(** A verifier that knows one token, Alice's. *)
Definition accept_alice (t : string) : jwt_outcome :=
  if String.eqb t "alice.jwt" then Decoded alice_token
  else JwtError "invalid signature".

Definition as_alice (method : string) (req : request) : http_event :=
  HttpEvent req method (Some "Bearer alice.jwt").

Definition anonymous (method : string) (req : request) : http_event :=
  HttpEvent req method None.

Definition transfer_event (from to : string) (amt : Z) (cur : string)
    : http_event :=
  as_alice "POST"
    (Request (Some (transfer_body from to amt cur))
       "/api/transaction-service/transfers/internal" None).

Definition alice_uuid : string := "0a1b2c3d-0000-4000-8000-00000000a11c".

Definition update_request (account status : string) : request :=
  Request (Some (JObj [("status", JStr status)]))
    ("/api/account-service/accounts/" ++ account) None.

Definition signup_request (auth0_user_id email : string) : request :=
  Request
    (Some (JObj [("auth0_user_id", JStr auth0_user_id);
                 ("email", JStr email)]))
    "/api/customer-service/create" None.

End Visits.

(* ================================================================== *)
(** * Properties *)
(* ================================================================== *)

(** ** The built-in operations on small inputs *)

Example truthy_zero : truthy (JNum (num_of_Z 0)) = false.
Proof. reflexivity. Qed.

Example length_usd : length_is (JStr "usd") 3 = true.
Proof. reflexivity. Qed.

Example upper_usd : toUpperCase "usd" = "USD".
Proof. reflexivity. Qed.

Example trim_pads : trim "  Insufficient funds " = "Insufficient funds".
Proof. reflexivity. Qed.

Example split_marker :
  split "ERROR: EXCEPTION: Insufficient funds" "EXCEPTION:"
  = ["ERROR: "; " Insufficient funds"].
Proof. reflexivity. Qed.

Example parseInt_pads : parseInt_string "  42abc" = num_of_Z 42.
Proof. reflexivity. Qed.

Example parseInt_none : parseInt_string "abc" = S754_nan.
Proof. reflexivity. Qed.

(** ** Runs against the datastore are runs *)

Lemma exec_runs :
  forall (describe : ledger_error -> pg_error) (A : Type) (m : io A) (w : world),
    runs m (trace_of (exec describe w m)) (result_of (exec describe w m)).
Proof.
  intros describe A m; induction m as [a | q k IH | q k IH | c k IH | k IH | lo hi k IH];
    intro w; cbn [exec].
  - constructor.
  - destruct (answer_row w q) as [r w1].
    specialize (IH r w1). destruct (exec describe w1 (k r)) as [[a w2] t].
    constructor; exact IH.
  - destruct (answer_rows w q) as [r w1].
    specialize (IH r w1). destruct (exec describe w1 (k r)) as [[a w2] t].
    constructor; exact IH.
  - destruct (answer_rpc describe w c) as [r w1].
    specialize (IH r w1). destruct (exec describe w1 (k r)) as [[a w2] t].
    constructor; exact IH.
  - destruct (draw_uuid w) as [u w1].
    specialize (IH u w1). destruct (exec describe w1 (k u)) as [[a w2] t].
    constructor; exact IH.
  - destruct (draw_int w lo hi) as [n w1].
    specialize (IH n w1). destruct (exec describe w1 (k n)) as [[a w2] t].
    constructor; exact IH.
Qed.

(** The trace of a run against the datastore records the answers of the
    datastore, and the world it leaves is the one the requests lead to. *)
Lemma exec_faithful :
  forall (describe : ledger_error -> pg_error) (A : Type) (m : io A) (w : world),
    faithful describe w (trace_of (exec describe w m))
    /\ world_of (exec describe w m)
       = List.fold_left (step_world describe) (trace_of (exec describe w m)) w.
Proof.
  intros describe A m; induction m as [a | q k IH | q k IH | c k IH | k IH | lo hi k IH];
    intro w; cbn [exec].
  - split; [exact I | reflexivity].
  - destruct (answer_row w q) as [r w1] eqn:E.
    specialize (IH r w1). destruct (exec describe w1 (k r)) as [[a w2] t].
    cbn [trace_of world_of fst snd faithful answered step_world fold_left] in *;
      rewrite E; cbn [fst snd]; intuition.
  - destruct (answer_rows w q) as [r w1] eqn:E.
    specialize (IH r w1). destruct (exec describe w1 (k r)) as [[a w2] t].
    cbn [trace_of world_of fst snd faithful answered step_world fold_left] in *;
      rewrite E; cbn [fst snd]; intuition.
  - destruct (answer_rpc describe w c) as [r w1] eqn:E.
    specialize (IH r w1). destruct (exec describe w1 (k r)) as [[a w2] t].
    cbn [trace_of world_of fst snd faithful answered step_world fold_left] in *;
      rewrite E; cbn [fst snd]; intuition.
  - destruct (draw_uuid w) as [u w1] eqn:E.
    specialize (IH u w1). destruct (exec describe w1 (k u)) as [[a w2] t].
    cbn [trace_of world_of fst snd faithful answered step_world fold_left] in *;
      rewrite E; cbn [fst snd]; intuition.
  - destruct (draw_int w lo hi) as [n w1] eqn:E.
    specialize (IH n w1). destruct (exec describe w1 (k n)) as [[a w2] t].
    cbn [trace_of world_of fst snd faithful answered step_world fold_left] in *;
      rewrite E; cbn [fst snd]; intuition.
Qed.

(** Inversion of a run along the shape of the computation. *)
Ltac run_step :=
  match goal with
  | H : runs (Ret _) _ _ |- _ => inversion H; subst; clear H
  | H : runs (AwaitRow _ _) _ _ |- _ => inversion H; subst; clear H
  | H : runs (AwaitRows _ _) _ _ |- _ => inversion H; subst; clear H
  | H : runs (AwaitRpc _ _) _ _ |- _ => inversion H; subst; clear H
  | H : runs (RandomUUID _) _ _ |- _ => inversion H; subst; clear H
  | H : runs (RandomInt _ _ _) _ _ |- _ => inversion H; subst; clear H
  end.

Lemma runs_ret_inv :
  forall (A : Type) (a b : A) (t : list event), runs (Ret a) t b -> t = [] /\ b = a.
Proof. intros A a b t H; inversion H; subst; split; reflexivity. Qed.

(** The run of [bind m f] is a run of [m] followed by a run of [f]. *)
Lemma runs_bind :
  forall (A B : Type) (m : io A) (f : A -> io B) (t : list event) (b : B),
    runs (bind m f) t b ->
    exists t1 a t2, t = (t1 ++ t2)%list /\ runs m t1 a /\ runs (f a) t2 b.
Proof.
  intros A B m f; induction m as [a | q k IH | q k IH | c k IH | k IH | lo hi k IH];
    intros t b H; simpl in H.
  - exists [], a, t; repeat split; [constructor | exact H].
  - run_step.
    match goal with
    | R : runs (bind _ _) _ _ |- _ =>
        destruct (IH _ _ _ R) as (t1 & a0 & t2 & -> & Rm & Rf)
    end.
    eexists (_ :: t1), a0, t2; repeat split; [constructor; exact Rm | exact Rf].
  - run_step.
    match goal with
    | R : runs (bind _ _) _ _ |- _ =>
        destruct (IH _ _ _ R) as (t1 & a0 & t2 & -> & Rm & Rf)
    end.
    eexists (_ :: t1), a0, t2; repeat split; [constructor; exact Rm | exact Rf].
  - run_step.
    match goal with
    | R : runs (bind _ _) _ _ |- _ =>
        destruct (IH _ _ _ R) as (t1 & a0 & t2 & -> & Rm & Rf)
    end.
    eexists (_ :: t1), a0, t2; repeat split; [constructor; exact Rm | exact Rf].
  - run_step.
    match goal with
    | R : runs (bind _ _) _ _ |- _ =>
        destruct (IH _ _ _ R) as (t1 & a0 & t2 & -> & Rm & Rf)
    end.
    eexists (_ :: t1), a0, t2; repeat split; [constructor; exact Rm | exact Rf].
  - run_step.
    match goal with
    | R : runs (bind _ _) _ _ |- _ =>
        destruct (IH _ _ _ R) as (t1 & a0 & t2 & -> & Rm & Rf)
    end.
    eexists (_ :: t1), a0, t2; repeat split; [constructor; exact Rm | exact Rf].
Qed.

(** ** Searching and splitting strings *)

Lemma prefix_drop :
  forall sep s : string,
    String.prefix sep s = true -> s = sep ++ drop (String.length sep) s.
Proof.
  induction sep as [ | c sep IH]; intros s H.
  - destruct s; reflexivity.
  - destruct s as [ | d s]; cbn [String.prefix] in H; [discriminate | ].
    destruct (Ascii.ascii_dec c d) as [-> | ]; [ | discriminate].
    cbn [String.length drop append]. f_equal; apply IH; exact H.
Qed.

(** What [find_sep] returns is a decomposition of the string around the
    separator. *)
Lemma find_sep_sound :
  forall sep s before after : string,
    find_sep sep s = Some (before, after) -> s = before ++ sep ++ after.
Proof.
  intros sep s; induction s as [ | c s IH]; intros before after H;
    cbn [find_sep] in H.
  - destruct (String.prefix sep EmptyString) eqn:P; [ | discriminate].
    injection H as <- <-. apply (prefix_drop _ _ P).
  - destruct (String.prefix sep (String c s)) eqn:P.
    + injection H as <- <-. apply (prefix_drop _ _ P).
    + destruct (find_sep sep s) as [[b a] | ] eqn:F; [ | discriminate].
      injection H as <- <-. cbn [append]. f_equal. apply IH; reflexivity.
Qed.

Lemma string_length_app :
  forall a b : string,
    String.length (a ++ b) = (String.length a + String.length b)%nat.
Proof. induction a as [ | c a IH]; intro b; simpl; [ | rewrite IH]; reflexivity. Qed.

Lemma prefix_app :
  forall sep rest : string, String.prefix sep (sep ++ rest) = true.
Proof.
  induction sep as [ | c sep IH]; intro rest; cbn [append String.prefix].
  - destruct rest; reflexivity.
  - destruct (Ascii.ascii_dec c c) as [_ | N]; [apply IH | contradiction].
Qed.

Lemma drop_app :
  forall sep rest : string, drop (String.length sep) (sep ++ rest) = rest.
Proof.
  induction sep as [ | c sep IH]; intro rest; cbn [append String.length drop];
    [reflexivity | apply IH].
Qed.

(** A string that starts with the separator is split right there. *)
Lemma find_sep_at_start :
  forall sep rest : string,
    find_sep sep (sep ++ rest) = Some (EmptyString, rest).
Proof.
  intros sep rest.
  assert (U : forall s, String.prefix sep s = true ->
              find_sep sep s = Some (EmptyString, drop (String.length sep) s)).
  { intros s P; destruct s; cbn [find_sep]; rewrite P; reflexivity. }
  rewrite U by apply prefix_app. rewrite drop_app; reflexivity.
Qed.

(** The second element of [split m sep] when [sep], which is not empty,
    occurs in [m]: the text between the first occurrence and the next. *)
Lemma split_second :
  forall sep m before after : string,
    sep <> EmptyString ->
    find_sep sep m = Some (before, after) ->
    nth_error (split m sep) 1
    = Some match find_sep sep after with
           | Some (segment, _) => segment
           | None => after
           end.
Proof.
  intros sep m before after Hsep F.
  pose proof (find_sep_sound _ _ _ _ F) as E.
  assert (L : (String.length m >= 1 + String.length after)%nat).
  { rewrite E, !string_length_app. destruct sep; [contradiction | simpl; lia]. }
  unfold split. destruct (String.length m) as [ | n]; [lia | ].
  cbn [split_rounds]. rewrite F. cbn [nth_error].
  destruct n as [ | n]; cbn [split_rounds].
  - assert (after = EmptyString) as ->
      by (destruct after; [reflexivity | simpl in L; lia]).
    cbn [nth_error]. f_equal.
    destruct (find_sep sep EmptyString) as [[sg rest] | ] eqn:F2; [ | reflexivity].
    apply find_sep_sound in F2. destruct sg; [reflexivity | discriminate].
  - destruct (find_sep sep after) as [[sg rest] | ]; reflexivity.
Qed.


(** The case analysis of a run: invert the requests, split on what the
    answers are matched against. *)
Ltac run_cases :=
  repeat first
    [ run_step
    | discriminate
    | match goal with
      | R : runs (match ?x with _ => _ end) _ _ |- _ => destruct x eqn:?
      | R : runs (bind (match ?x with _ => _ end) _) _ _ |- _ =>
          destruct x eqn:?
      | R : runs (bind (bind (match ?x with _ => _ end) _) _) _ _ |- _ =>
          destruct x eqn:?
      end
    | progress cbn [bind] in * ].

(* ================================================================== *)
(** * The ledger routines *)
(* ================================================================== *)

Module LedgerFacts.

(** A posting that reports an error writes nothing. *)
Lemma post_unchanged :
  forall db id debit_id credit_id amt cur descr db' kind,
    post db id debit_id credit_id amt cur descr = (db', Some kind) -> db' = db.
Proof.
  intros db id debit_id credit_id amt cur descr db' kind H.
  unfold post in H.
  repeat match type of H with
         | context [match ?x with _ => _ end] => destruct x
         end;
    try discriminate; injection H as <- _; reflexivity.
Qed.

(** A posting that reports no error found both accounts, an amount and no
    transaction with its identifier, and appended the transfer. *)
Lemma post_written :
  forall db id debit_id credit_id amt cur descr db',
    post db id debit_id credit_id amt cur descr = (db', None) ->
    exists debit credit a,
      get_account db debit_id = Some debit
      /\ get_account db credit_id = Some credit
      /\ amount_of amt = Some a
      /\ has_transaction db id = false
      /\ db' = append_transfer db id debit credit a cur descr.
Proof.
  intros db id debit_id credit_id amt cur descr db' H.
  unfold post in H.
  destruct (get_account db debit_id) as [debit | ]; [ | discriminate].
  destruct (get_account db credit_id) as [credit | ]; [ | discriminate].
  destruct (negb (eligible debit cur && eligible credit cur)); [discriminate | ].
  destruct (amount_of amt) as [a | ]; [ | discriminate].
  destruct (balance db debit) as [b | ]; [ | discriminate].
  destruct (negb (Qle_bool a b)); [discriminate | ].
  destruct (has_transaction db id) eqn:T; [discriminate | ].
  injection H as <-. exists debit, credit, a; auto.
Qed.

Lemma has_transaction_posted :
  forall db id, has_transaction db id = true <-> posted db id.
Proof.
  intros db id; unfold has_transaction, posted.
  rewrite existsb_exists, in_map_iff. split.
  - intros (t & Hin & E). apply String.eqb_eq in E. exists t; auto.
  - intros (t & E & Hin). exists t; split; [exact Hin | ].
    apply String.eqb_eq; exact E.
Qed.

Lemma entries_of_append :
  forall db id debit credit a cur descr id',
    entries_of (append_transfer db id debit credit a cur descr) id'
    = (entries_of db id'
       ++ (if String.eqb id id'
           then [Entry (List.length (ledger_entries db)) id (account_id debit)
                   DEBIT a cur;
                 Entry (S (List.length (ledger_entries db))) id
                   (account_id credit) CREDIT a cur]
           else []))%list.
Proof.
  intros; unfold entries_of, append_transfer; cbn [ledger_entries].
  rewrite filter_app; cbn [filter entry_transaction_id].
  destruct (String.eqb id id'); reflexivity.
Qed.

(** Before a transaction is posted the ledger has no entry for it. *)
Lemma unposted_has_no_entry :
  forall db id,
    double_entry db -> has_transaction db id = false -> entries_of db id = [].
Proof.
  intros db id [_ Hentries] Hnew. unfold entries_of.
  destruct (filter _ (ledger_entries db)) as [ | e rest] eqn:F; [reflexivity | ].
  assert (Hin : In e (filter (fun e => String.eqb (entry_transaction_id e) id)
                        (ledger_entries db))) by (rewrite F; left; reflexivity).
  apply filter_In in Hin; destruct Hin as [Hin E].
  apply String.eqb_eq in E. apply Hentries in Hin. rewrite E in Hin.
  apply has_transaction_posted in Hin. congruence.
Qed.

(** Appending a transfer under a new identifier keeps the invariant. *)
Lemma append_keeps_double_entry :
  forall db id debit credit a cur descr,
    double_entry db ->
    has_transaction db id = false ->
    double_entry (append_transfer db id debit credit a cur descr).
Proof.
  intros db id debit credit a cur descr Hinv Hnew.
  pose proof (unposted_has_no_entry _ _ Hinv Hnew) as Hnone.
  destruct Hinv as [Hpairs Hentries]. split.
  - intros id' Hposted. rewrite entries_of_append.
    unfold posted, append_transfer in Hposted; cbn [transactions] in Hposted.
    rewrite map_app, in_app_iff in Hposted; cbn in Hposted.
    destruct (String.eqb id id') eqn:E.
    + apply String.eqb_eq in E; subst id'. rewrite Hnone; cbn [app].
      do 2 eexists; repeat split.
    + rewrite app_nil_r. apply Hpairs.
      destruct Hposted as [H | [H | []]]; [exact H | ].
      apply String.eqb_neq in E; contradiction.
  - intros e Hin. unfold posted, append_transfer in *;
      cbn [transactions ledger_entries] in *.
    rewrite map_app, in_app_iff. apply in_app_iff in Hin.
    destruct Hin as [Hin | [<- | [<- | []]]]; cbn; auto.
Qed.

End LedgerFacts.

(* ================================================================== *)
(** * The transfer handler *)
(* ================================================================== *)

Module TransferFacts.
Import TransactionService TransferSpec.

Lemma strict_eq_string : forall s : string, strict_eq (JStr s) (JStr s) = true.
Proof. intro s; simpl; apply String.eqb_refl. Qed.


(** [dbErrorMessage] never throws. *)
Lemma dbErrorMessage_total :
  forall err : pg_error, dbErrorMessage err = ret (details_of err).
Proof.
  intro err; unfold dbErrorMessage, details_of, includes.
  destruct (pg_message err) as [message | ]; [ | reflexivity].
  destruct (find_sep EXCEPTION_marker message) as [[before after] | ] eqn:F;
    [ | reflexivity].
  erewrite split_second; [reflexivity | discriminate | exact F].
Qed.

Section WithBuiltins.

Variable Number_toString : number -> string.

(** ** The runs of the [try] block, case by case *)

Section Runs.

Variables (tok : token) (f : transfer_fields).

(** Every run of the [try] block with its [catch] is one of the eleven
    cases. *)
Lemma try_block_runs :
  forall t out,
    runs (try_catch (authorize_and_post Number_toString tok f)
            (fun err => ret (internal_server_error err))) t out ->
    transfer_run Number_toString tok f t out.
Proof.
  intros t out H.
  unfold try_catch, authorize_and_post, bindc, getCustomerIdFromAuth0Sub,
    await_row, await_rpc, call_toUpperCase, template, ret, throw in H.
  cbn [bind] in H.
  repeat first
    [ run_step
    | rewrite dbErrorMessage_total in *; unfold ret in *
    | discriminate
    | match goal with
      | R : runs (match ?x with _ => _ end) _ _ |- _ => destruct x eqn:?
      | R : runs (bind (match ?x with _ => _ end) _) _ _ |- _ => destruct x eqn:?
      | R : runs (bind (bind (match ?x with _ => _ end) _) _) _ _ |- _ =>
          destruct x eqn:?
      end
    | progress cbn [bind] in * ].
  all: repeat match goal with
              | E : negb _ = true |- _ => apply negb_true_iff in E
              | E : negb _ = false |- _ => apply negb_false_iff in E
              end.
  all: solve [econstructor; cbn; eauto; intros; congruence].
Qed.

(** Conversely, each of the eleven cases is a run. *)
Lemma try_block_can_run :
  forall t out,
    transfer_run Number_toString tok f t out ->
    runs (try_catch (authorize_and_post Number_toString tok f)
            (fun err => ret (internal_server_error err))) t out.
Proof.
  intros t out H.
  unfold try_catch, authorize_and_post, bindc, getCustomerIdFromAuth0Sub,
    await_row, await_rpc, call_toUpperCase, template, ret, throw.
  destruct H; unfold resolved_customer, found_row, mismatch_log in *.
  all: repeat match goal with
              | x : option pg_error |- _ => destruct x
              | x : option object |- _ => destruct x
              end;
    cbn [bind truthy] in *; try discriminate.
  all: repeat match goal with
              | E : Some _ = Some _ |- _ => injection E as ->
              end.
  all: repeat first
    [ apply runs_ret
    | apply runs_row
    | apply runs_uuid
    | apply runs_rpc
    | rewrite dbErrorMessage_total; unfold ret
    | progress cbn [bind negb]
    | match goal with
      | E : ?x = _ |- context [?x] => rewrite E
      | E : forall s, ?c <> JStr s |- context [match ?c with _ => _ end] =>
          destruct c eqn:?; try (exfalso; eapply E; reflexivity)
      end ].
Qed.

End Runs.

(** A request that fails a guard is answered at once with status 400. *)
Lemma invalid_is_400 :
  forall (req : request) (tok : token) (requestBody : value) (f : transfer_fields),
    parsed_body req = Some requestBody ->
    destructure requestBody = Some f ->
    passes_validation f = false ->
    exists resp,
      handleInternalTransfer Number_toString req tok = Ret (Normal resp) /\ statusCode resp = 400.
Proof.
  intros req tok requestBody f Hbody Hf Hv.
  unfold handleInternalTransfer; rewrite Hbody, Hf.
  unfold passes_validation in Hv.
  destruct (truthy (fromAccountId f)); simpl in *; [ | eexists; split; reflexivity].
  destruct (truthy (toAccountId f)); simpl in *; [ | eexists; split; reflexivity].
  destruct (truthy (amount f)); simpl in *; [ | eexists; split; reflexivity].
  destruct (truthy (currency f)); simpl in *; [ | eexists; split; reflexivity].
  destruct (invalid_amount (amount f)); simpl in *; [eexists; split; reflexivity | ].
  destruct (strict_eq (fromAccountId f) (toAccountId f)); simpl in *;
    [eexists; split; reflexivity | ].
  rewrite Hv; simpl. eexists; split; reflexivity.
Qed.

(** A request that passes every guard enters the [try] block. *)
Lemma valid_enters_try :
  forall (req : request) (tok : token) (requestBody : value) (f : transfer_fields),
    parsed_body req = Some requestBody ->
    destructure requestBody = Some f ->
    passes_validation f = true ->
    handleInternalTransfer Number_toString req tok
    = try_catch (authorize_and_post Number_toString tok f)
        (fun err => ret (internal_server_error err)).
Proof.
  intros req tok requestBody f Hbody Hf Hv.
  unfold handleInternalTransfer; rewrite Hbody, Hf.
  unfold passes_validation in Hv.
  repeat (apply andb_prop in Hv; destruct Hv as [Hv ?]).
  repeat match goal with
         | H : negb _ = true |- _ => apply negb_true_iff in H
         end.
  repeat match goal with
         | H : _ = true |- _ => rewrite H
         | H : _ = false |- _ => rewrite H
         end.
  reflexivity.
Qed.

(** C6. A transfer whose [fromAccountId] and [toAccountId] are the same
    ([===]) is answered with status 400 without a single request: the
    handler is a bare return, so no run of it reads an account (or
    anything else). *)
Theorem self_transfer_rejected_before_lookup :
  forall (req : request) (tok : token) (requestBody : value) (f : transfer_fields),
    parsed_body req = Some requestBody ->
    destructure requestBody = Some f ->
    strict_eq (fromAccountId f) (toAccountId f) = true ->
    exists resp,
      statusCode resp = 400
      /\ handleInternalTransfer Number_toString req tok = Ret (Normal resp)
      /\ forall t out,
           runs (handleInternalTransfer Number_toString req tok) t out ->
           t = [] /\ out = Normal resp.
Proof.
  intros req tok requestBody f Hbody Hf Hsame.
  destruct (invalid_is_400 req tok _ _ Hbody Hf) as (resp & Hret & Hcode).
  - unfold passes_validation; rewrite Hsame; simpl.
    rewrite andb_false_r; reflexivity.
  - exists resp; repeat split; auto.
    + rewrite Hret in H; apply runs_ret_inv in H; tauto.
    + rewrite Hret in H; apply runs_ret_inv in H; tauto.
Qed.


(** Every run of the handler is empty (the request was answered by the
    validation) or is a run of the [try] block of a valid request. *)
Lemma handler_runs :
  forall (req : request) (tok : token) t out,
    runs (handleInternalTransfer Number_toString req tok) t out ->
    (t = [] /\ forall resp, out = Normal resp -> statusCode resp = 400)
    \/ exists requestBody f,
         parsed_body req = Some requestBody
         /\ destructure requestBody = Some f
         /\ passes_validation f = true
         /\ transfer_run Number_toString tok f t out.
Proof.
  intros req tok t out H.
  destruct (parsed_body req) as [requestBody | ] eqn:Hbody.
  2: { unfold handleInternalTransfer in H; rewrite Hbody in H.
       apply runs_ret_inv in H; destruct H as [-> ->].
       left; split; [reflexivity | intros resp E; injection E as <-; reflexivity]. }
  destruct (destructure requestBody) as [f | ] eqn:Hf.
  2: { unfold handleInternalTransfer in H; rewrite Hbody, Hf in H.
       apply runs_ret_inv in H; destruct H as [-> ->].
       left; split; [reflexivity | intros resp E; discriminate E]. }
  destruct (passes_validation f) eqn:Hv.
  - right; exists requestBody, f; repeat split; auto.
    rewrite (valid_enters_try req tok _ _ Hbody Hf Hv) in H.
    apply try_block_runs; exact H.
  - destruct (invalid_is_400 req tok _ _ Hbody Hf Hv) as (resp & Hret & Hcode).
    rewrite Hret in H; apply runs_ret_inv in H; destruct H as [-> ->].
    left; split; [reflexivity | intros resp' E; injection E as <-; exact Hcode].
Qed.

(** C9, as amended. For a transfer that passes the input validation the
    handler first resolves the customer from [sub] of the token (403 when it
    cannot). It then builds the lookup of the account named by
    [fromAccountId], which converts that value to a string: when the
    conversion throws no account is read and the answer is 500. Otherwise
    it looks the account up (404 when the lookup finds no row) and, unless
    the [customer_id] of that row is the resolved customer, answers 403
    (500 when one of the ids does not convert to a string for the log
    line) without posting; the posting call is made only when the row
    belongs to the resolved customer, and the only account read before it
    is the debit account. A lookup that rejects is answered 500, without
    posting. *)
Theorem debit_owner_gate :
  forall (req : request) (tok : token) (requestBody : value) (f : transfer_fields),
    parsed_body req = Some requestBody ->
    destructure requestBody = Some f ->
    passes_validation f = true ->
    forall t out,
      runs (handleInternalTransfer Number_toString req tok) t out ->
      (exists r rest, t = EvRow (CustomerIdByAuth0Sub (sub tok)) r :: rest)
      /\ Forall (debit_only tok f) t
      /\ (forall data error rest,
            t = EvRow (CustomerIdByAuth0Sub (sub tok)) (Answer data error)
                :: rest ->
            if truthy (resolved_customer data error) then
              match ToString Number_toString (fromAccountId f) with
              | None =>
                  rest = []
                  /\ out = Normal (internal_server_error cannot_convert)
              | Some _ =>
                  exists r rest',
                    rest = EvRow (AccountOwnerById (fromAccountId f)) r :: rest'
              end
            else
              rest = []
              /\ out = Normal
                         (message_only 403
                            "Could not identify requesting customer"))
      /\ (forall data error adata aerror rest,
            t = EvRow (CustomerIdByAuth0Sub (sub tok)) (Answer data error)
                :: EvRow (AccountOwnerById (fromAccountId f))
                     (Answer adata aerror)
                :: rest ->
            match found_row adata aerror with
            | None =>
                rest = []
                /\ exists text,
                     ToString Number_toString (fromAccountId f) = Some text
                     /\ out = Normal
                                (message_only 404
                                   ("Debit account not found: " ++ text))
            | Some row =>
                if strict_eq (get_field row "customer_id")
                     (resolved_customer data error)
                then exists id rest', rest = EvUUID id :: rest'
                else
                  rest = []
                  /\ out = Normal
                             (if List.forallb convertible
                                   (mismatch_log tok f
                                      (resolved_customer data error) row)
                              then
                                message_only 403
                                  "Forbidden: You do not own the source account."
                              else internal_server_error cannot_convert)
            end)
      /\ (forall c r,
            In (EvRpc c r) t ->
            exists data error adata aerror row id,
              t = [EvRow (CustomerIdByAuth0Sub (sub tok)) (Answer data error);
                   EvRow (AccountOwnerById (fromAccountId f))
                     (Answer adata aerror);
                   EvUUID id;
                   EvRpc c r]
              /\ truthy (resolved_customer data error) = true
              /\ found_row adata aerror = Some row
              /\ strict_eq (get_field row "customer_id")
                   (resolved_customer data error) = true)
      /\ (forall q e,
            In (EvRow q (Rejects e)) t ->
            out = Normal (internal_server_error e)
            /\ forall c r, ~ In (EvRpc c r) t).
Proof.
  intros req tok requestBody f Hbody Hf Hv t out H.
  rewrite (valid_enters_try req tok _ _ Hbody Hf Hv) in H.
  apply try_block_runs in H.
  inversion H; subst; clear H.
  all: split; [do 2 eexists; reflexivity | ].
  all: split;
    [repeat (first [apply Forall_nil | apply Forall_cons]); cbn; eauto | ].
  all: split;
    [intros ? ? ? E; try discriminate E; injection E as <- <- <-;
     repeat match goal with
            | E1 : truthy _ = _ |- _ => rewrite E1
            | E1 : ToString _ _ = _ |- _ => rewrite E1
            end; eauto | ].
  all: split;
    [intros ? ? ? ? ? E; try discriminate E; injection E as <- <- <- <- <-;
     repeat match goal with
            | E1 : found_row _ _ = _ |- _ => rewrite E1
            | E1 : strict_eq _ _ = _ |- _ => rewrite E1
            | E1 : forallb _ _ = _ |- _ => rewrite E1
            end; eauto | ].
  all: split;
    [ | intros q0 e0 Hin; cbn [In] in Hin;
        repeat (destruct Hin as [E | Hin];
                [try discriminate E; injection E as <- <- | ]);
        try contradiction;
        (split; [reflexivity | ]);
        intros c0 r0 Hin; cbn [In] in Hin;
        repeat (destruct Hin as [E | Hin]; [discriminate E | ]);
        contradiction].
  all: intros c r Hin; cbn [In] in Hin.
  all: repeat (destruct Hin as [E | Hin];
               [try discriminate E; injection E as <- <- | ]);
    try contradiction.
  all: do 6 eexists; repeat split; eauto.
Qed.

(** C7, as amended. When the posting routine reports an error the answer
    is always 422 with the message "Transaction failed." and the generated
    identifier; the error of the routine (the insufficient-funds rejection
    included) reaches the caller in [details] only when its message carries
    the marker [EXCEPTION:], as the trimmed text between the first marker
    and the next one. A message without the marker, or no message, is
    replaced by "Transaction failed due to database error.". *)
Theorem posting_error_details :
  forall (req : request) (tok : token) t out c pdata err,
    runs (handleInternalTransfer Number_toString req tok) t out ->
    In (EvRpc c (Answer pdata (Some err))) t ->
    (exists id,
        In (EvUUID id) t
        /\ out = Normal
                   (respond 422
                      [("message", JStr "Transaction failed.");
                       ("details", JStr (details_of err));
                       ("transactionId", JStr id)]))
    /\ (pg_message err = None -> details_of err = generic_db_failure)
    /\ (forall m,
          pg_message err = Some m ->
          includes m EXCEPTION_marker = false ->
          details_of err = generic_db_failure)
    /\ (forall m before after,
          pg_message err = Some m ->
          find_sep EXCEPTION_marker m = Some (before, after) ->
          details_of err = trim (first_segment after))
    /\ (forall text,
          pg_message err = Some (EXCEPTION_marker ++ text) ->
          includes text EXCEPTION_marker = false ->
          details_of err = trim text).
Proof.
  intros req tok t out c pdata err H Hin.
  split.
  - destruct (handler_runs _ _ _ _ H) as [[-> _] | (requestBody & f & _ & _ & _ & R)];
      [contradiction | ].
    inversion R; subst; clear R; cbn [In] in Hin.
    all: repeat (destruct Hin as [E | Hin]; [try discriminate E | ]);
      try contradiction.
    injection E as <- <- <-. exists id; split; [cbn; tauto | reflexivity].
  - unfold details_of, includes.
    repeat split.
    + intros ->; reflexivity.
    + intros m -> Hm.
      destruct (find_sep EXCEPTION_marker m) as [[? ?] | ];
        [discriminate | reflexivity].
    + intros m before after -> ->; reflexivity.
    + intros text -> Hm. rewrite find_sep_at_start. unfold first_segment.
      destruct (find_sep EXCEPTION_marker text) as [[? ?] | ];
        [discriminate | reflexivity].
Qed.



(** ** Transfers against the datastore *)

Variable describe : ledger_error -> pg_error.

(** What one call of the handler does to the datastore: nothing, with an
    answer other than 200; or one transfer appended under the identifier
    drawn from the random source, with the answer 200 carrying that
    identifier. *)
Lemma transfer_effect :
  forall (w : world) (req : request) (tok : token),
    let x := exec describe w (handleInternalTransfer Number_toString req tok) in
    (store (world_of x) = store w
     /\ forall resp, result_of x = Normal resp -> statusCode resp <> 200)
    \/ exists requestBody f s debit credit a,
         let id := uuid_source w (uuid_drawn w) in
         parsed_body req = Some requestBody
         /\ destructure requestBody = Some f
         /\ currency f = JStr s
         /\ get_account (store w) (fromAccountId f) = Some debit
         /\ get_account (store w) (toAccountId f) = Some credit
         /\ amount_of (amount f) = Some a
         /\ has_transaction (store w) id = false
         /\ In (EvUUID id) (trace_of x)
         /\ result_of x = Normal (completed id)
         /\ store (world_of x)
            = append_transfer (store w) id debit credit a (toUpperCase s)
                (description f)
         /\ uuid_source (world_of x) = uuid_source w
         /\ uuid_drawn (world_of x) = S (uuid_drawn w).
Proof.
  intros w req tok x.
  pose proof (exec_runs describe _ (handleInternalTransfer Number_toString req tok) w)
    as R.
  destruct (exec_faithful describe _
              (handleInternalTransfer Number_toString req tok) w) as [F W].
  subst x.
  destruct (exec describe w (handleInternalTransfer Number_toString req tok))
    as [[out w'] t].
  cbn [result_of world_of trace_of fst snd] in *.
  destruct (handler_runs _ _ _ _ R)
    as [[E Hcode] | (requestBody & f & Hb & Hf & Hv & T)].
  - left. rewrite W, E; cbn. split; [reflexivity | ].
    intros resp Hr. rewrite (Hcode _ Hr). discriminate.
  - inversion T as
      [ e Et Eo | data error Hc Et Eo | data error Hc Hts Et Eo
      | data error text e Hc Hts Et Eo
      | data error text adata aerror Hc Hts Hrow Et Eo
      | data error text adata aerror row Hc Hts Hrow Hown Hlog Et Eo
      | data error text adata aerror row Hc Hts Hrow Hown Hlog Et Eo
      | data error text adata aerror row id Hc Hts Hrow Hown Hcur Et Eo
      | data error text adata aerror row id s e Hc Hts Hrow Hown Hcur Et Eo
      | data error text adata aerror row id s pdata err
          Hc Hts Hrow Hown Hcur Et Eo
      | data error text adata aerror row id s pdata
          Hc Hts Hrow Hown Hcur Et Eo ];
      rewrite <- Et in F, W; cbn in F, W.
    1-8: left; rewrite W; split; [reflexivity | ];
      intros resp Hr; injection Hr as <-; discriminate.
    + exfalso. destruct F as (_ & _ & _ & F & _).
      destruct (post _ _ _ _ _ _ _) as [db [kind | ]]; discriminate F.
    + left.
      destruct (post (store w) _ _ _ _ _ _) as [db [kind | ]] eqn:P;
        cbn in F, W.
      * apply LedgerFacts.post_unchanged in P; subst db.
        rewrite W; split; [reflexivity | ].
        intros resp Hr; injection Hr as <-; discriminate.
      * destruct F as (_ & _ & _ & F & _); discriminate F.
    + destruct (post (store w) _ _ _ _ _ _) as [db [kind | ]] eqn:P;
        cbn in F, W.
      * destruct F as (_ & _ & _ & F & _); discriminate F.
      * right. destruct F as (_ & _ & Eid & _ & _).
        apply LedgerFacts.post_written in P.
        destruct P as (debit & credit & a & Hd & Hcr & Ha & Hnew & ->).
        exists requestBody, f, s, debit, credit, a. cbn zeta.
        rewrite <- Eid, W. cbn.
        repeat split; auto.
Qed.

(** C2. The double-entry invariant (every posted transaction has exactly
    two entries, one debit and one credit, of the same amount and currency,
    and every entry belongs to a posted transaction) is kept by every call
    of the transfer handler; after a call answered 200 the transaction of
    the answer is posted with such a pair, a debit of the requested amount
    on the debit account and a credit on the credit account, in the
    upper-cased currency of the request. *)
Theorem transfer_keeps_double_entry :
  forall (w : world) (req : request) (tok : token),
    double_entry (store w) ->
    let x := exec describe w (handleInternalTransfer Number_toString req tok) in
    double_entry (store (world_of x))
    /\ forall resp,
         result_of x = Normal resp ->
         statusCode resp = 200 ->
         exists requestBody f s debit credit id d c,
           parsed_body req = Some requestBody
           /\ destructure requestBody = Some f
           /\ currency f = JStr s
           /\ get_account (store w) (fromAccountId f) = Some debit
           /\ get_account (store w) (toAccountId f) = Some credit
           /\ resp = completed id
           /\ posted (store (world_of x)) id
           /\ entries_of (store (world_of x)) id = [d; c]
           /\ entry_direction d = DEBIT
           /\ entry_direction c = CREDIT
           /\ entry_account_id d = account_id debit
           /\ entry_account_id c = account_id credit
           /\ amount_of (amount f) = Some (entry_amount d)
           /\ entry_amount d = entry_amount c
           /\ entry_currency d = toUpperCase s
           /\ entry_currency d = entry_currency c.
Proof.
  intros w req tok Hinv x.
  destruct (transfer_effect w req tok)
    as [[Hsame Hcode]
       | (requestBody & f & s & debit & credit & a & Hb & Hf & Hcur & Hd & Hc
          & Ha & Hnew & Hu & Hres & Hstore & _)];
    fold x in Hsame, Hcode || fold x in Hu, Hres, Hstore.
  - rewrite Hsame. split; [exact Hinv | ].
    intros resp Hr H200. destruct (Hcode _ Hr H200).
  - rewrite Hstore. split.
    + apply LedgerFacts.append_keeps_double_entry; assumption.
    + intros resp Hr _. rewrite Hres in Hr; injection Hr as <-.
      exists requestBody, f, s, debit, credit, (uuid_source w (uuid_drawn w)),
        (Entry (List.length (ledger_entries (store w)))
           (uuid_source w (uuid_drawn w)) (account_id debit) DEBIT a
           (toUpperCase s)),
        (Entry (S (List.length (ledger_entries (store w))))
           (uuid_source w (uuid_drawn w)) (account_id credit) CREDIT a
           (toUpperCase s)).
      repeat match goal with |- _ /\ _ => split end; try assumption;
        try reflexivity.
      * apply LedgerFacts.has_transaction_posted.
        unfold has_transaction, append_transfer; cbn [transactions].
        rewrite existsb_app; cbn. rewrite String.eqb_refl.
        apply orb_true_iff; right; reflexivity.
      * rewrite LedgerFacts.entries_of_append, String.eqb_refl.
        rewrite (LedgerFacts.unposted_has_no_entry _ _ Hinv Hnew).
        reflexivity.
Qed.

(** C1, as amended. The handler takes no transaction identifier from the
    caller: each call posts under the identifier it draws from the random
    source. When the same request is made twice and both calls are answered
    200, the two answers carry two different identifiers, the two successive
    draws, and the ledger holds two entries under each of them: four more
    entries than before, not two. Of the body the handler reads the five
    properties [fromAccountId], [toAccountId], [amount], [currency] and
    [description] only: two bodies that agree on them are handled alike,
    whatever else they carry. *)
Theorem repeated_transfer_posts_again :
  forall (w : world) (req : request) (tok : token),
    double_entry (store w) ->
    let first :=
      exec describe w (handleInternalTransfer Number_toString req tok) in
    let second :=
      exec describe (world_of first)
        (handleInternalTransfer Number_toString req tok) in
    forall r1 r2,
      result_of first = Normal r1 -> statusCode r1 = 200 ->
      result_of second = Normal r2 -> statusCode r2 = 200 ->
      let id1 := uuid_source w (uuid_drawn w) in
      let id2 := uuid_source w (S (uuid_drawn w)) in
      id1 <> id2
      /\ r1 = completed id1
      /\ r2 = completed id2
      /\ List.length (entries_of (store (world_of second)) id1) = 2%nat
      /\ List.length (entries_of (store (world_of second)) id2) = 2%nat
      /\ List.length (ledger_entries (store (world_of second)))
         = (List.length (ledger_entries (store w)) + 4)%nat
      /\ (forall req' requestBody requestBody',
            parsed_body req = Some requestBody ->
            parsed_body req' = Some requestBody' ->
            destructure requestBody' = destructure requestBody ->
            handleInternalTransfer Number_toString req' tok
            = handleInternalTransfer Number_toString req tok).
Proof.
  intros w req tok Hinv first second r1 r2 Hr1 H1 Hr2 H2 id1 id2.
  destruct (transfer_effect w req tok)
    as [[_ Hcode]
       | (b1 & f1 & s1 & d1 & c1 & a1 & _ & _ & _ & _ & _ & _ & Hnew1 & _
          & Hres1 & Hstore1 & Hsrc & Hdrawn)];
    fold first in Hcode || fold first in Hres1, Hstore1, Hsrc, Hdrawn.
  { destruct (Hcode _ Hr1 H1). }
  destruct (transfer_effect (world_of first) req tok)
    as [[_ Hcode]
       | (b2 & f2 & s2 & d2 & c2 & a2 & _ & _ & _ & _ & _ & _ & Hnew2 & _
          & Hres2 & Hstore2 & _)];
    fold second in Hcode || fold second in Hres2, Hstore2.
  { destruct (Hcode _ Hr2 H2). }
  rewrite Hsrc, Hdrawn in Hnew2, Hres2, Hstore2.
  fold id1 in Hnew1, Hres1, Hstore1. fold id2 in Hnew2, Hres2, Hstore2.
  assert (Hinv1 : double_entry (store (world_of first))).
  { rewrite Hstore1. apply LedgerFacts.append_keeps_double_entry; assumption. }
  assert (Hne : id1 <> id2).
  { intro E. rewrite <- E, Hstore1 in Hnew2.
    unfold has_transaction, append_transfer in Hnew2; cbn [transactions] in Hnew2.
    rewrite existsb_app in Hnew2; cbn in Hnew2.
    rewrite String.eqb_refl in Hnew2.
    rewrite orb_true_r in Hnew2. discriminate. }
  assert (Hneb : String.eqb id2 id1 = false).
  { apply String.eqb_neq. intro E; apply Hne; symmetry; exact E. }
  split; [exact Hne | ].
  split; [congruence | ].
  split; [congruence | ].
  rewrite Hstore2.
  rewrite !LedgerFacts.entries_of_append, Hneb, String.eqb_refl, app_nil_r.
  rewrite (LedgerFacts.unposted_has_no_entry _ _ Hinv1 Hnew2).
  rewrite Hstore1.
  rewrite LedgerFacts.entries_of_append, String.eqb_refl.
  rewrite (LedgerFacts.unposted_has_no_entry _ _ Hinv Hnew1).
  split; [reflexivity | ]. split; [reflexivity | ]. split.
  - unfold append_transfer; cbn [ledger_entries].
    rewrite !List.length_app; cbn. lia.
  - intros req' requestBody requestBody' Hb Hb' Hsame.
    unfold handleInternalTransfer. rewrite Hb, Hb', Hsame. reflexivity.
Qed.

End WithBuiltins.

End TransferFacts.

(* ================================================================== *)
(** * The account service *)
(* ================================================================== *)

Module AccountFacts.
Import AccountService AccountSpec.

(** ** The allocator *)

Lemma allocator_runs :
  forall (maxRetries : nat) t out,
    runs (generateUniqueAccountNumber maxRetries) t out ->
    allocation_run maxRetries t out.
Proof.
  induction maxRetries as [ | left IH]; intros t out H;
    cbn [generateUniqueAccountNumber] in H.
  - unfold throw in H; run_step; constructor.
  - unfold await_row, ret, throw in H. run_step. run_step.
    match goal with R : runs _ _ _ |- _ => rename R into H end.
    destruct r as [data [err | ] | e]; cbn beta iota in H.
    + run_step; constructor.
    + destruct data as [row | ].
      * constructor; apply IH; exact H.
      * run_step; constructor.
    + run_step; constructor.
Qed.

(** Every attempt the allocator can make does happen in some run: with
    enough collisions it runs out, and it returns the first free
    candidate. *)
Lemma allocator_can_run :
  forall (maxRetries : nat) t out,
    allocation_run maxRetries t out ->
    runs (generateUniqueAccountNumber maxRetries) t out.
Proof.
  intros maxRetries t out H; induction H; cbn [generateUniqueAccountNumber];
    unfold await_row, ret, throw; repeat constructor; assumption.
Qed.

Lemma allocation_counts :
  forall left t out,
    allocation_run left t out ->
    (count is_lookup t <= left)%nat
    /\ (count is_collision t <= count is_lookup t)%nat
    /\ (count is_collision t = left -> out = Throw allocation_exhausted)
    /\ count is_insert t = 0%nat.
Proof.
  intros left t out H; induction H; unfold count in *; cbn in *;
    repeat split; try lia; try reflexivity; try discriminate.
  - destruct data; cbn; lia.
  - destruct data; cbn; intro E; discriminate E.
  - intro E; apply IHallocation_run; lia.
Qed.

Lemma allocation_returns_checked :
  forall left t out candidate,
    allocation_run left t out ->
    out = Normal candidate ->
    exists before n,
      t = (before
           ++ [EvInt 1000000000 9999999999 n;
               EvRow (AccountNumberLookup candidate) (Answer None None)])%list
      /\ candidate = Z_toString n
      /\ Forall (fun e => is_lookup e = true -> is_collision e = true) before.
Proof.
  intros left t out candidate H; induction H; intro E; try discriminate E.
  - injection E as <-. exists [], n; repeat split; constructor.
  - destruct (IHallocation_run E) as (before & m & -> & -> & Hall).
    exists (EvInt 1000000000 9999999999 n
            :: EvRow (AccountNumberLookup (Z_toString n)) (Answer (Some row) None)
            :: before), m.
    repeat split. constructor; [cbn; discriminate | ].
    constructor; [reflexivity | exact Hall].
Qed.

Section WithBuiltins.

Variable Number_toString : number -> string.

(** ** The runs of [handleCreateAccount] *)

Section Runs.

Variables (tok : token) (f : create_fields).

Opaque generateUniqueAccountNumber.

(** Every run of the handler lets the validation answer, or is one of the
    seven cases. *)
Lemma create_runs :
  forall (req : request) t out,
    runs (handleCreateAccount Number_toString req tok) t out ->
    forall requestBody,
      parsed_body req = Some requestBody ->
      destructure requestBody = Some f ->
      (passes_validation f = false
       /\ t = [] /\ exists resp, out = Normal resp /\ statusCode resp = 400)
      \/ (passes_validation f = true /\ create_run Number_toString tok f t out).
Proof.
  intros req t out H requestBody Hbody Hf.
  unfold handleCreateAccount in H; rewrite Hbody, Hf in H.
  unfold passes_validation. unfold ret at 1 2 3 in H.
  destruct (truthy (customerId f)); cbn [negb orb andb] in *;
    [ | left; run_step; repeat split; eauto].
  destruct (truthy (accountType f)); cbn [negb orb andb] in *;
    [ | left; run_step; repeat split; eauto].
  destruct (truthy (currency f)); cbn [negb orb andb] in *;
    [ | left; run_step; repeat split; eauto].
  destruct (known_accountType (accountType f)); cbn [negb orb andb] in *;
    [ | left; run_step; repeat split; eauto].
  destruct (length_is (currency f) 3); cbn [negb orb andb] in *;
    [ | left; run_step; repeat split; eauto].
  right; split; [reflexivity | ].
  unfold try_catch, bindc, getCustomerIdFromAuth0Sub, await_row,
    call_toUpperCase, template, ret, throw in H.
  cbn [bind] in H. run_step.
  match goal with R : runs _ _ _ |- _ => rename R into H end.
  destruct r as [data error | e]; [ | cbn [bind] in H; run_step; constructor].
  assert (H' :
    runs
      match
        not_self Number_toString (resolved_customer data error) (customerId f)
      with
      | None => Ret (Throw cannot_convert)
      | Some true =>
          if List.forallb convertible
               (mismatch_log tok f (resolved_customer data error))
          then Ret (Normal (message_only 403
                      "Forbidden: You can only create accounts for yourself."))
          else Ret (Throw cannot_convert)
      | Some false =>
         bind
           (bind (generateUniqueAccountNumber default_maxRetries)
              (fun c =>
                 match c with
                 | Normal accountNumber =>
                     match currency f with
                     | JStr s =>
                         AwaitRow
                           (InsertAccount
                              (new_account (resolved_customer data error)
                                 accountNumber f (toUpperCase s)))
                           (fun r =>
                              match r with
                              | Answer d (Some err) =>
                                  Ret (Normal
                                    (respond 500
                                       [("message",
                                         JStr "Database error creating account");
                                        ("details", message_value err)]))
                              | Answer d None =>
                                  match d with
                                  | Some row =>
                                      if List.forallb convertible
                                           [get_field row "id"]
                                      then
                                        Ret (Normal (Response 201 (JObj row)))
                                      else Ret (Throw cannot_convert)
                                  | None =>
                                      Ret (Throw (cannot_read_null "id"))
                                  end
                              | Rejects e => Ret (Throw e)
                              end)
                     | _ =>
                         Ret (Throw (not_a_function "currency.toUpperCase"))
                     end
                 | Throw e => Ret (Throw e)
                 end))
           (fun c =>
              match c with
              | Normal a => Ret (Normal a)
              | Throw e => Ret (Normal (internal_server_error e))
              end)
      end t0 out).
  { unfold resolved_customer; destruct error, data; cbn [bind] in H; exact H. }
  clear H.
  destruct (not_self _ _ _) as [[ | ] | ] eqn:Self.
  { destruct (List.forallb convertible
                (mismatch_log tok f (resolved_customer data error))) eqn:L;
      run_step;
      [apply create_not_self | apply create_not_self_log_throws]; assumption. }
  2: { run_step. apply create_unreadable_customerId; exact Self. }
  apply runs_bind in H'. destruct H' as (t1 & a & t2 & -> & H1 & H2).
  apply runs_bind in H1. destruct H1 as (ta & number & t3 & -> & Ha & H3).
  apply allocator_runs in Ha.
  destruct number as [number | e].
  2: { run_cases. rewrite !app_nil_r. eapply create_allocation_throws; eauto. }
  destruct (currency f) as [ | | b | n | s | l | o] eqn:Cur.
  5: { run_step.
       match goal with R : runs _ _ _ |- _ => rename R into H end.
       assert (E : t = [] /\ t2 = [] /\ out = Normal (insert_outcome r)).
       { destruct r as [d [err | ] | e]; [ | destruct d as [row | ] | ];
           cbn [forallb insert_outcome] in *; rewrite ?andb_true_r in *;
           try destruct (convertible (get_field row "id"));
           run_cases; auto. }
       destruct E as (-> & -> & ->). rewrite app_nil_r.
       eapply create_inserts; eauto. }
  all: run_cases; rewrite !app_nil_r;
    eapply create_currency_not_string; eauto; intros s E; congruence.
Qed.

Transparent generateUniqueAccountNumber.

End Runs.

Lemma count_app :
  forall (p : event -> bool) (a b : list event),
    count p (a ++ b) = (count p a + count p b)%nat.
Proof.
  intros p a b; unfold count. rewrite filter_app, List.length_app; reflexivity.
Qed.

(** When the allocator gives up, the handler answers 500 and nothing is
    inserted. *)
Lemma exhausted_is_500 :
  forall (req : request) (tok : token) t out,
    runs (handleCreateAccount Number_toString req tok) t out ->
    count is_collision t = default_maxRetries ->
    out = Normal (internal_server_error allocation_exhausted)
    /\ count is_insert t = 0%nat.
Proof.
  intros req tok t out H Hfive.
  destruct (parsed_body req) as [requestBody | ] eqn:Hbody.
  2: { unfold handleCreateAccount in H; rewrite Hbody in H.
       apply runs_ret_inv in H; destruct H as [-> _]; discriminate Hfive. }
  destruct (destructure requestBody) as [f | ] eqn:Hf.
  2: { unfold handleCreateAccount in H; rewrite Hbody, Hf in H.
       apply runs_ret_inv in H; destruct H as [-> _]; discriminate Hfive. }
  destruct (create_runs tok f req t out H requestBody Hbody Hf)
    as [(_ & -> & _) | [_ R]]; [discriminate Hfive | ].
  inversion R as
    [ e Et Eo | data error Hself Et Eo | data error Hself Hlog Et Eo
    | data error Hself Hlog Et Eo | data error ta e Hself Ha Et Eo
    | data error ta number Hself Ha Hcur Et Eo
    | data error ta number s r Hself Ha Hcur Et Eo ];
    subst t; try discriminate Hfive.
  - change (count is_collision ta = default_maxRetries) in Hfive.
    destruct (allocation_counts _ _ _ Ha) as (_ & _ & Hex & Hins).
    injection (Hex Hfive) as ->. split; [reflexivity | exact Hins].
  - change (count is_collision ta = default_maxRetries) in Hfive.
    destruct (allocation_counts _ _ _ Ha) as (_ & _ & Hex & _).
    discriminate (Hex Hfive).
  - change (count is_collision
              (ta ++ [EvRow (InsertAccount
                        (new_account (resolved_customer data error) number f
                           (toUpperCase s))) r])
            = default_maxRetries) in Hfive.
    rewrite count_app in Hfive. cbn in Hfive. rewrite Nat.add_0_r in Hfive.
    destruct (allocation_counts _ _ _ Ha) as (_ & _ & Hex & _).
    discriminate (Hex Hfive).
Qed.

(** C8. The allocator makes at most 5 attempts. A number it returns is the
    candidate of its last uniqueness check, which found no row, and every
    check before that one found the candidate in use. After 5 checks that
    all found the candidate in use it fails with the error "Failed to
    generate a unique account number after multiple attempts.", and
    [handleCreateAccount] then answers 500, a server error, without
    inserting anything. *)
Theorem allocator_checks_and_gives_up :
  forall t out,
    runs (generateUniqueAccountNumber default_maxRetries) t out ->
    default_maxRetries = 5%nat
    /\ (forall candidate,
          out = Normal candidate ->
          exists before n,
            t = (before
                 ++ [EvInt 1000000000 9999999999 n;
                     EvRow (AccountNumberLookup candidate) (Answer None None)])%list
            /\ candidate = Z_toString n
            /\ Forall (fun e => is_lookup e = true -> is_collision e = true)
                 before)
    /\ (count is_lookup t <= 5)%nat
    /\ (count is_collision t = 5%nat -> out = Throw allocation_exhausted)
    /\ (forall (req : request) (tok : token) t' out',
          runs (handleCreateAccount Number_toString req tok) t' out' ->
          count is_collision t' = 5%nat ->
          out' = Normal (internal_server_error allocation_exhausted)
          /\ statusCode (internal_server_error allocation_exhausted) = 500
          /\ count is_insert t' = 0%nat).
Proof.
  intros t out H. apply allocator_runs in H.
  destruct (allocation_counts _ _ _ H) as (Hle & _ & Hex & _).
  split; [reflexivity | ].
  split; [intros candidate E; eapply allocation_returns_checked; eauto | ].
  split; [exact Hle | ].
  split; [exact Hex | ].
  intros req tok t' out' H' Hfive.
  destruct (exhausted_is_500 req tok t' out' H' Hfive) as [-> Hins].
  repeat split; auto.
Qed.

Lemma collisions_exhaust :
  forall taken : list (Z * object),
    runs (generateUniqueAccountNumber (List.length taken)) (collisions taken)
      (Throw allocation_exhausted).
Proof.
  intro taken; apply allocator_can_run.
  induction taken as [ | [n row] rest IH]; cbn; constructor; exact IH.
Qed.


End WithBuiltins.

(** ** Balances in the answers *)

Lemma get_set_field :
  forall (o : object) (name : string) (v : value),
    get_field (set_field o name v) name = v.
Proof.
  induction o as [ | [k w] rest IH]; intros name v; cbn.
  - rewrite String.eqb_refl; reflexivity.
  - destruct (String.eqb k name) eqn:E; cbn; rewrite E; [reflexivity | apply IH].
Qed.

Lemma get_set_field_other :
  forall (o : object) (name other : string) (v : value),
    String.eqb name other = false ->
    get_field (set_field o name v) other = get_field o other.
Proof.
  induction o as [ | [k w] rest IH]; intros name other v Hne; cbn.
  - rewrite Hne; reflexivity.
  - destruct (String.eqb k name) eqn:E; cbn.
    + apply String.eqb_eq in E; subst k. rewrite Hne; reflexivity.
    + destruct (String.eqb k other); [reflexivity | apply IH; exact Hne].
Qed.

(** A failed balance request is shown as "Error". *)
Lemma failed_is_shown_as_Error :
  forall (acc : object) (r : reply value),
    balance_failed r ->
    ReadSpec.shown (acc, r) = set_field acc "balance" (JStr "Error").
Proof.
  intros acc r Hfail. unfold ReadSpec.shown; cbn [fst snd].
  destruct r as [d [err | ] | e]; [reflexivity | contradiction | reflexivity].
Qed.

(** One callback of the list: its request, and the account it shows unless
    the log line of a failure throws. *)
Lemma with_balance_runs :
  forall (acc : object) t res,
    runs (with_balance acc) t res ->
    exists r,
      t = [ReadSpec.balance_request (acc, r)]
      /\ res = if ReadSpec.log_throws (acc, r) then Throw cannot_convert
               else Normal (ReadSpec.shown (acc, r)).
Proof.
  intros acc t res H.
  unfold with_balance, balance_logged, template, ret, throw in H. run_step.
  match goal with R : runs _ _ _ |- _ => rename R into H end.
  exists r. unfold ReadSpec.log_throws, ReadSpec.shown; cbn [fst snd].
  destruct r as [d [err | ] | e]; cbn [forallb] in H;
    rewrite ?andb_true_r in H;
    try destruct (convertible (get_field acc "id"));
    run_step; split; reflexivity.
Qed.

(** All the callbacks: one request per row, in order, and one account per
    row unless the log line of a failure throws. *)
Lemma all_with_balance_shape :
  forall (rows : list object) t res,
    runs (all_with_balance rows) t res ->
    exists answers : list (reply value),
      List.length answers = List.length rows
      /\ t = List.map ReadSpec.balance_request (combine rows answers)
      /\ res = if existsb ReadSpec.log_throws (combine rows answers)
               then Throw cannot_convert
               else Normal (List.map ReadSpec.shown (combine rows answers)).
Proof.
  induction rows as [ | acc rest IH]; intros t res H;
    cbn [all_with_balance] in H.
  - unfold ret in H; run_step. exists []; repeat split.
  - apply runs_bind in H. destruct H as (t1 & first & t2 & -> & H1 & H2).
    apply runs_bind in H2. destruct H2 as (t3 & others & t4 & -> & H3 & H4).
    apply with_balance_runs in H1. destruct H1 as (r1 & -> & ->).
    destruct (IH _ _ H3) as (answers & Hl & -> & ->).
    exists (r1 :: answers). cbn [combine List.map existsb List.length app].
    split; [lia | ].
    unfold ret, throw in H4.
    destruct (ReadSpec.log_throws (acc, r1));
      destruct (existsb ReadSpec.log_throws (combine rest answers));
      run_step; rewrite app_nil_r; split; reflexivity.
Qed.

Lemma no_rows_query_among_balances :
  forall (asked : list (object * reply value)) (e : event),
    In e (List.map ReadSpec.balance_request asked) ->
    ReadSpec.is_balance_request e = true /\ is_write e = false.
Proof.
  intros asked e Hin. apply in_map_iff in Hin.
  destruct Hin as ([acc r] & <- & _). split; reflexivity.
Qed.

Lemma balance_request_asked :
  forall (asked : list (object * reply value)) id r,
    In (EvRpc (calculate_balance id) r)
       (List.map ReadSpec.balance_request asked) ->
    exists acc, In (acc, r) asked /\ get_field acc "id" = id.
Proof.
  intros asked id r Hin. apply in_map_iff in Hin.
  destruct Hin as ([acc r'] & E & Hin). injection E as <- <-.
  exists acc; split; [exact Hin | reflexivity].
Qed.

Lemma shown_keeps_ids :
  forall (rows : list object) (answers : list (reply value)),
    List.length answers = List.length rows ->
    List.map (fun o => get_field o "id")
      (List.map ReadSpec.shown (combine rows answers))
    = List.map (fun o => get_field o "id") rows.
Proof.
  induction rows as [ | acc rows IH]; intros [ | r answers] Hl;
    try discriminate Hl; [reflexivity | ].
  cbn [combine List.map]. f_equal.
  - unfold ReadSpec.shown; cbn [fst snd].
    apply get_set_field_other; reflexivity.
  - apply IH. injection Hl as Hl; exact Hl.
Qed.

(** Every run of the handler that shows one account. *)
Lemma get_runs :
  forall (req : request) (tok : token) t out,
    runs (handleGetAccount req tok) t out ->
    let accountId := last_path_part (path req) in
    (t = []
     /\ out = Normal (message_only 400 "Missing or invalid account ID in path"))
    \/ exists r rest,
         t = EvRow (AccountById accountId) r :: rest
         /\ (String.length accountId >= 10)%nat
         /\ match r with
            | Rejects e => rest = [] /\ out = Normal (internal_server_error e)
            | Answer data error =>
                match found_row data error with
                | None =>
                    rest = []
                    /\ exists resp,
                         out = Normal resp
                         /\ (statusCode resp = 404 \/ statusCode resp = 500)
                | Some row =>
                    exists rc rest',
                      rest = EvRow (CustomerIdByAuth0Sub (sub tok)) rc :: rest'
                      /\ match rc with
                         | Rejects e =>
                             rest' = []
                             /\ out = Normal (internal_server_error e)
                         | Answer cdata cerror =>
                             let owner := resolved_customer cdata cerror in
                             if truthy owner
                                && strict_eq owner (get_field row "customer_id")
                             then
                               exists rb,
                                 rest' = [ReadSpec.balance_request (row, rb)]
                                 /\ out = Normal
                                            (if ReadSpec.log_throws (row, rb)
                                             then
                                               internal_server_error
                                                 cannot_convert
                                             else
                                               Response 200
                                                 (JObj
                                                    (ReadSpec.shown (row, rb))))
                             else
                               rest' = []
                               /\ out = Normal
                                          (if List.forallb convertible
                                                (ReadSpec.mismatch_log tok owner
                                                   accountId row)
                                           then
                                             message_only 403
                                               "Forbidden: You can only view your own accounts."
                                           else
                                             internal_server_error
                                               cannot_convert)
                         end
                end
            end.
Proof.
  intros req tok t out H accountId. unfold handleGetAccount in H.
  fold accountId in H.
  destruct (negb (truthy (JStr accountId))
            || (String.length accountId <? 10)%nat) eqn:G.
  { apply runs_ret_inv in H; destruct H as [-> ->]. left; split; reflexivity. }
  apply orb_false_elim in G. destruct G as [_ G]. apply Nat.ltb_ge in G.
  right.
  unfold try_catch, bindc, getCustomerIdFromAuth0Sub, await_row,
    balance_logged, template, ret, throw in H.
  cbn [bind] in H. run_step.
  match goal with R : runs _ _ _ |- _ => rename R into H end.
  exists r, t0. split; [reflexivity | ]. split; [exact G | ].
  destruct r as [data [err | ] | e]; cbn [bind] in H.
  - assert (found_row data (Some err) = None) as -> by (destruct data; reflexivity).
    destruct (not_found_code err); cbn [bind] in H; run_step;
      (split; [reflexivity | ]); eexists; (split; [reflexivity | ]);
      [left | right]; reflexivity.
  - destruct data as [row | ]; cbn [found_row bind] in H |- *.
    + run_step.
      match goal with R : runs _ _ _ |- _ => rename R into H end.
      exists r, t. split; [reflexivity | ].
      destruct r as [cdata cerror | e]; cbn [bind] in H.
      * cbv zeta.
        assert (H' :
          runs
            (bind
               (if negb (truthy (resolved_customer cdata cerror))
                   || negb (strict_eq (resolved_customer cdata cerror)
                              (get_field row "customer_id"))
                then
                  if List.forallb convertible
                       (ReadSpec.mismatch_log tok
                          (resolved_customer cdata cerror) accountId row)
                  then Ret (Normal (message_only 403
                              "Forbidden: You can only view your own accounts."))
                  else Ret (Throw cannot_convert)
                else
                  AwaitRpc (calculate_balance (get_field row "id")) (fun r =>
                    if ReadSpec.log_throws (row, r)
                    then Ret (Throw cannot_convert)
                    else Ret (Normal
                                (Response 200
                                   (JObj (ReadSpec.shown (row, r)))))))
               (fun c =>
                  match c with
                  | Normal a => Ret (Normal a)
                  | Throw e => Ret (Normal (internal_server_error e))
                  end)) t out).
        { assert (Hk : forall r : reply value,
                    match r with
                    | Answer _ None =>
                        Ret (Normal
                               (Response 200
                                  (JObj (set_field row "balance"
                                           (balance_or_Error r)))))
                    | _ =>
                        if List.forallb convertible [get_field row "id"]
                        then
                          Ret (Normal
                                 (Response 200
                                    (JObj (set_field row "balance"
                                             (balance_or_Error r)))))
                        else Ret (Throw cannot_convert)
                    end
                    = if ReadSpec.log_throws (row, r)
                      then Ret (Throw cannot_convert)
                      else Ret (Normal
                                  (Response 200
                                     (JObj (ReadSpec.shown (row, r)))))).
          { intro r. unfold ReadSpec.log_throws, ReadSpec.shown;
              cbn [fst snd forallb]. rewrite andb_true_r.
            destruct r as [d [err | ] | e]; try reflexivity;
              destruct (convertible (get_field row "id")); reflexivity. }
          destruct cerror as [err | ];
            [ | destruct cdata as [crow | ]];
            cbn [resolved_customer bind] in H |- *;
            (destruct (negb _ || negb _);
             [exact H
             | cbn [bind] in H |- *; run_step; constructor;
               rewrite <- Hk; assumption]). }
        clear H.
        destruct (truthy (resolved_customer cdata cerror));
          cbn [negb orb andb bind] in *.
        2: { destruct (List.forallb _ _); cbn [bind] in H'; run_step;
             split; reflexivity. }
        destruct (strict_eq (resolved_customer cdata cerror)
                    (get_field row "customer_id")); cbn [negb bind] in *.
        2: { destruct (List.forallb _ _); cbn [bind] in H'; run_step;
             split; reflexivity. }
        run_step.
        match goal with R : runs _ _ _ |- _ => rename R into H end.
        exists r. destruct (ReadSpec.log_throws (row, r));
          cbn [bind] in H; run_step; split; reflexivity.
      * run_step; split; reflexivity.
    + run_step. split; [reflexivity | ]. eexists; split; [reflexivity | ].
      left; reflexivity.
  - run_step; split; reflexivity.
Qed.

Section Reading.

Variable Number_toString : number -> string.

(** The guard of the list handler never throws: the [customerId] of a
    query string is a string. *)
Lemma not_self_of_string :
  forall (owner : value) (customerIdQuery : string),
    not_self Number_toString owner (JStr customerIdQuery)
    = Some (negb (truthy owner)
            || negb (strict_eq owner (JNum (parseInt_string customerIdQuery)))).
Proof.
  intros owner q. unfold not_self, parseInt; cbn [ToString option_map].
  destruct (truthy owner); reflexivity.
Qed.

Opaque all_with_balance.

(** Every run of the handler that lists accounts. *)
Lemma list_runs :
  forall (req : request) (tok : token) t out,
    runs (handleListAccounts Number_toString req tok) t out ->
    (t = [] /\ out = Normal (message_only 400 "Missing customerId query parameter")
     /\ forall c, query_customerId req = Some c -> truthy (JStr c) = false)
    \/ exists customerIdQuery,
         query_customerId req = Some customerIdQuery
         /\ truthy (JStr customerIdQuery) = true
         /\ ((exists e,
                t = [EvRow (CustomerIdByAuth0Sub (sub tok)) (Rejects e)]
                /\ out = Throw e)
             \/ exists data error,
                  let owner := resolved_customer data error in
                  (t = [EvRow (CustomerIdByAuth0Sub (sub tok))
                          (Answer data error)]
                   /\ not_self Number_toString owner (JStr customerIdQuery)
                      = Some true
                   /\ out = if List.forallb convertible
                                 [JStr (sub tok); owner; JStr customerIdQuery]
                            then
                              Normal
                                (message_only 403
                                   "Forbidden: You can only list your own accounts.")
                            else Throw cannot_convert)
                  \/ exists r rest,
                       t = EvRow (CustomerIdByAuth0Sub (sub tok))
                             (Answer data error)
                           :: EvRows (AccountsByCustomer owner) r :: rest
                       /\ not_self Number_toString owner
                            (JStr customerIdQuery) = Some false
                       /\ match r with
                          | Rejects e =>
                              rest = [] /\ out = Normal (internal_server_error e)
                          | Answer _ (Some err) =>
                              rest = []
                              /\ out = Normal
                                         (respond 500
                                            [("message",
                                              JStr "Database error listing accounts");
                                             ("details", message_value err)])
                          | Answer None None =>
                              rest = [] /\ out = Normal (Response 200 (JArr []))
                          | Answer (Some rows) None =>
                              exists answers : list (reply value),
                                List.length answers = List.length rows
                                /\ rest = List.map ReadSpec.balance_request
                                            (combine rows answers)
                                /\ out = Normal
                                           (if existsb ReadSpec.log_throws
                                                 (combine rows answers)
                                            then
                                              internal_server_error
                                                cannot_convert
                                            else
                                              Response 200
                                                (JArr
                                                   (List.map JObj
                                                      (List.map ReadSpec.shown
                                                         (combine rows
                                                            answers)))))
                          end).
Proof.
  intros req tok t out H. unfold handleListAccounts in H.
  destruct (query_customerId req) as [c | ] eqn:Q.
  2: { apply runs_ret_inv in H; destruct H as [-> ->]. left.
       repeat split. intros c E; discriminate E. }
  destruct (truthy (JStr c)) eqn:T; cbn [negb] in H.
  2: { apply runs_ret_inv in H; destruct H as [-> ->]. left.
       repeat split. intros c' E; injection E as <-; exact T. }
  right; exists c; split; [reflexivity | ]. split; [exact T | ].
  unfold try_catch, bindc, getCustomerIdFromAuth0Sub, await_row, await_rows,
    template, ret, throw in H.
  cbn [bind] in H. run_step.
  match goal with R : runs _ _ _ |- _ => rename R into H end.
  destruct r as [data error | e]; [ | cbn [bind] in H; run_step; left; eauto].
  right; exists data, error. cbv zeta.
  assert (H' :
    runs
      match not_self Number_toString (resolved_customer data error) (JStr c) with
      | None => Ret (Throw cannot_convert)
      | Some true =>
          if List.forallb convertible
               [JStr (sub tok); resolved_customer data error; JStr c]
          then Ret (Normal (message_only 403
                      "Forbidden: You can only list your own accounts."))
          else Ret (Throw cannot_convert)
      | Some false =>
         bind
           (AwaitRows (AccountsByCustomer (resolved_customer data error))
              (fun r =>
                 match r with
                 | Answer accounts accountsError =>
                     match accountsError with
                     | Some err =>
                         Ret (Normal
                                (respond 500
                                   [("message",
                                     JStr "Database error listing accounts");
                                    ("details", message_value err)]))
                     | None =>
                         match accounts with
                         | None | Some [] =>
                             Ret (Normal (Response 200 (JArr [])))
                         | Some rows =>
                             bind (all_with_balance rows)
                               (fun c0 =>
                                  match c0 with
                                  | Normal accountsWithBalance =>
                                      Ret (Normal
                                             (Response 200
                                                (JArr (List.map JObj
                                                         accountsWithBalance))))
                                  | Throw e => Ret (Throw e)
                                  end)
                         end
                     end
                 | Rejects e => Ret (Throw e)
                 end))
           (fun c0 =>
              match c0 with
              | Normal a => Ret (Normal a)
              | Throw e => Ret (Normal (internal_server_error e))
              end)
      end t0 out).
  { destruct error as [err | ]; [exact H | ].
    destruct data as [row | ]; exact H. }
  clear H.
  destruct (not_self Number_toString (resolved_customer data error) (JStr c))
    as [[ | ] | ] eqn:Hself.
  3: { rewrite not_self_of_string in Hself; discriminate Hself. }
  { left. destruct (List.forallb _ _); run_step; repeat split. }
  right. cbn [bind] in H'. run_step.
  match goal with R : runs _ _ _ |- _ => rename R into H end.
  exists r, t. split; [reflexivity | ]. split; [reflexivity | ].
  destruct r as [accounts [err | ] | e]; cbn [bind] in H.
  - run_step; destruct accounts; split; reflexivity.
  - destruct accounts as [[ | acc rows] | ]; cbn [bind] in H.
    + run_step. exists []; repeat split.
    + apply runs_bind in H. destruct H as (t1 & c1 & t2 & -> & H1 & H2).
      apply runs_bind in H1. destruct H1 as (t3 & res & t4 & -> & H3 & H4).
      destruct (all_with_balance_shape _ _ _ H3) as (answers & Hl & -> & ->).
      exists answers. split; [exact Hl | ].
      destruct (existsb ReadSpec.log_throws (combine (acc :: rows) answers));
        run_step; cbn [bind] in H2; run_step; rewrite !app_nil_r;
        split; reflexivity.
    + run_step; split; reflexivity.
  - run_step; split; reflexivity.
Qed.

Transparent all_with_balance.

(** C4, as amended. When the balance routine reports an error for an
    account, or the call rejects, [handleGetAccount] and
    [handleListAccounts] log it and still answer 200 with that account: the
    row the datastore returned, the one under whose [id] the balance was
    asked for, with the string "Error" as its [balance], at the place of
    the row in the list. The one exception is a row whose [id] does not
    convert to a string, for which the log line throws: the answer is then
    500. *)
Theorem balance_failure_shown_as_Error :
  forall (r : reply value),
    balance_failed r ->
    (forall (req : request) (tok : token) t out id,
        runs (handleGetAccount req tok) t out ->
        In (EvRpc (calculate_balance id) r) t ->
        exists row,
          In (EvRow (AccountById (last_path_part (path req)))
                (Answer (Some row) None)) t
          /\ id = get_field row "id"
          /\ out = Normal
                     (if convertible id
                      then
                        Response 200
                          (JObj (set_field row "balance" (JStr "Error")))
                      else internal_server_error cannot_convert))
    /\ (forall (req : request) (tok : token) t out id,
          runs (handleListAccounts Number_toString req tok) t out ->
          In (EvRpc (calculate_balance id) r) t ->
          exists q rows answers acc,
            In (EvRows q (Answer (Some rows) None)) t
            /\ List.length answers = List.length rows
            /\ In (acc, r) (combine rows answers)
            /\ id = get_field acc "id"
            /\ In (set_field acc "balance" (JStr "Error"))
                 (List.map ReadSpec.shown (combine rows answers))
            /\ out = Normal
                       (if existsb ReadSpec.log_throws (combine rows answers)
                        then internal_server_error cannot_convert
                        else
                          Response 200
                            (JArr
                               (List.map JObj
                                  (List.map ReadSpec.shown
                                     (combine rows answers)))))
            /\ (existsb ReadSpec.log_throws (combine rows answers) = true ->
                exists acc' r',
                  In (acc', r') (combine rows answers)
                  /\ balance_failed r'
                  /\ convertible (get_field acc' "id") = false)).
Proof.
  intros r Hfail. split.
  - intros req tok t out id H Hin.
    destruct (get_runs req tok t out H) as [[-> _] | (r0 & rest & -> & _ & Hr)];
      [contradiction | ].
    destruct Hin as [E | Hin]; [discriminate E | ].
    destruct r0 as [data error | e]; [ | destruct Hr as [-> _]; contradiction].
    destruct (found_row data error) as [row | ] eqn:F;
      [ | destruct Hr as [-> _]; contradiction].
    assert (data = Some row /\ error = None) as [-> ->].
    { destruct error; [destruct data; discriminate F | ].
      destruct data; [injection F as -> | discriminate F]. split; reflexivity. }
    destruct Hr as (rc & rest' & -> & Hrc).
    destruct Hin as [E | Hin]; [discriminate E | ].
    destruct rc as [cdata cerror | e]; [ | destruct Hrc as [-> _]; contradiction].
    cbv zeta in Hrc.
    destruct (truthy (resolved_customer cdata cerror)
              && strict_eq (resolved_customer cdata cerror)
                   (get_field row "customer_id"));
      [ | destruct Hrc as [-> _]; contradiction].
    destruct Hrc as (rb & -> & ->).
    destruct Hin as [E | []]. injection E as <- ->.
    exists row. split; [left; reflexivity | ]. split; [reflexivity | ].
    rewrite (failed_is_shown_as_Error row r Hfail).
    unfold ReadSpec.log_throws; cbn [fst snd].
    destruct r as [d [err | ] | e]; [ | contradiction | ];
      destruct (convertible (get_field row "id")); reflexivity.
  - intros req tok t out id H Hin.
    destruct (list_runs req tok t out H)
      as [(-> & _) | (c & _ & _ & [(e & -> & _) | (data & error & Hcase)])].
    + contradiction.
    + destruct Hin as [E | []]; discriminate E.
    + cbv zeta in Hcase.
      destruct Hcase as [(-> & _) | (r0 & rest & -> & _ & Hr)].
      { destruct Hin as [E | []]; discriminate E. }
      destruct Hin as [E | [E | Hin]]; [discriminate E | discriminate E | ].
      destruct r0 as [[rows | ] [err | ] | e];
        try (destruct Hr as [-> _]; contradiction).
      destruct Hr as (answers & Hl & -> & ->).
      destruct (balance_request_asked _ _ _ Hin) as (acc & Hacc & <-).
      exists (AccountsByCustomer (resolved_customer data error)), rows,
        answers, acc.
      split; [right; left; reflexivity | ]. split; [exact Hl | ].
      split; [exact Hacc | ]. split; [reflexivity | ].
      split.
      { rewrite <- (failed_is_shown_as_Error acc r Hfail).
        apply in_map; exact Hacc. }
      split; [reflexivity | ].
      intro Hex. apply existsb_exists in Hex.
      destruct Hex as ([acc' r'] & Hin' & Ht).
      exists acc', r'. split; [exact Hin' | ].
      unfold ReadSpec.log_throws in Ht; cbn [fst snd] in Ht.
      destruct r' as [d [err | ] | e]; cbn;
        try discriminate Ht; apply negb_true_iff in Ht; auto.
Qed.

End Reading.

End AccountFacts.

(* ================================================================== *)
(** * Currency codes *)
(* ================================================================== *)

Module CurrencyFacts.
Import TransferSpec AccountSpec.




End CurrencyFacts.

(* ================================================================== *)
(** * The properties on the small bank *)
(* ================================================================== *)

Module Cases.
Import Sample.

(** The ledger of the small bank satisfies the invariant. *)
Lemma bank_double_entry : forall cur : string, double_entry (bank cur []).
Proof.
  intro cur; split.
  - intros id [<- | []]. cbv. do 2 eexists; repeat split.
  - intros e [<- | [<- | []]]; left; reflexivity.
Qed.

(** C1: the same request twice, with the [transaction_id] "tx-caller-1"
    in its body both times. Both calls are answered 200 with different
    identifiers, four entries are written, none of them under the
    identifier of the caller. *)
Lemma identical_transfers_post_twice :
  let first := transfer usd_world describe_marked
                 "acc-alice-0001" "acc-bob-0001" 10 "USD" in
  let second := transfer (world_of first) describe_marked
                  "acc-alice-0001" "acc-bob-0001" 10 "USD" in
  result_of first = Normal (TransferSpec.completed "uuid-0")
  /\ result_of second = Normal (TransferSpec.completed "uuid-1")
  /\ result_of first <> result_of second
  /\ List.length (entries_of (store (world_of second)) "uuid-0") = 2%nat
  /\ List.length (entries_of (store (world_of second)) "uuid-1") = 2%nat
  /\ List.length (ledger_entries (store (world_of second)))
     = (List.length (ledger_entries (store usd_world)) + 4)%nat
  /\ entries_of (store (world_of second)) "tx-caller-1" = [].
Proof.
  vm_compute. repeat split. intro E; discriminate E.
Qed.

Lemma repeated_transfer_posts_again_witness :
  double_entry (store usd_world)
  /\ List.length
       (ledger_entries
          (store
             (world_of
                (transfer
                   (world_of
                      (transfer usd_world describe_marked
                         "acc-alice-0001" "acc-bob-0001" 10 "USD"))
                   describe_marked "acc-alice-0001" "acc-bob-0001" 10 "USD"))))
     = (List.length (ledger_entries (store usd_world)) + 4)%nat.
Proof.
  split; [apply bank_double_entry | ].
  apply (TransferFacts.repeated_transfer_posts_again print_integer
           describe_marked usd_world
           (transfer_request "acc-alice-0001" "acc-bob-0001" 10 "USD")
           alice_token (bank_double_entry "USD")
           (TransferSpec.completed "uuid-0") (TransferSpec.completed "uuid-1")
           eq_refl eq_refl eq_refl eq_refl).
Defined.

Lemma transfer_keeps_double_entry_witness :
  double_entry (store usd_world)
  /\ double_entry
       (store
          (world_of
             (transfer usd_world describe_marked
                "acc-alice-0001" "acc-bob-0001" 10 "USD"))).
Proof.
  split; [apply bank_double_entry | ].
  apply (TransferFacts.transfer_keeps_double_entry print_integer
           describe_marked usd_world
           (transfer_request "acc-alice-0001" "acc-bob-0001" 10 "USD")
           alice_token (bank_double_entry "USD")).
Defined.



Lemma self_transfer_rejected_before_lookup_witness :
  strict_eq (JStr "acc-alice-0001") (JStr "acc-alice-0001") = true
  /\ exists resp,
       statusCode resp = 400
       /\ TransactionService.handleInternalTransfer print_integer
            (transfer_request "acc-alice-0001" "acc-alice-0001" 10 "USD")
            alice_token
          = Ret (Normal resp).
Proof.
  split; [reflexivity | ].
  destruct (TransferFacts.self_transfer_rejected_before_lookup print_integer
              (transfer_request "acc-alice-0001" "acc-alice-0001" 10 "USD")
              alice_token _
              (fields "acc-alice-0001" "acc-alice-0001" 10 "USD")
              eq_refl eq_refl eq_refl)
    as (resp & Hcode & Hret & _).
  exists resp; split; assumption.
Defined.

(** C7: the routine words its rejection without the marker; the caller
    gets the fixed sentence instead of it. *)
Lemma unmarked_insufficient_funds_is_masked :
  let x := transfer usd_world describe_plain
             "acc-alice-0001" "acc-bob-0001" 1000 "USD" in
  In (EvRpc
        (post_ledger_transaction "uuid-0" (JStr "acc-alice-0001")
           (JStr "acc-bob-0001") (JNum (num_of_Z 1000)) "USD" (JStr "rent"))
        (Answer JNull (Some (describe_plain InsufficientFunds))))
     (trace_of x)
  /\ pg_message (describe_plain InsufficientFunds) = Some "InsufficientFunds"
  /\ result_of x
     = Normal
         (respond 422
            [("message", JStr "Transaction failed.");
             ("details", JStr "Transaction failed due to database error.");
             ("transactionId", JStr "uuid-0")]).
Proof. vm_compute. repeat split. tauto. Qed.

Lemma posting_error_details_witness :
  let x := transfer usd_world describe_marked
             "acc-alice-0001" "acc-bob-0001" 1000 "USD" in
  In (EvRpc
        (post_ledger_transaction "uuid-0" (JStr "acc-alice-0001")
           (JStr "acc-bob-0001") (JNum (num_of_Z 1000)) "USD" (JStr "rent"))
        (Answer JNull (Some (describe_marked InsufficientFunds))))
     (trace_of x)
  /\ exists id,
       In (EvUUID id) (trace_of x)
       /\ result_of x
          = Normal
              (respond 422
                 [("message", JStr "Transaction failed.");
                  ("details",
                   JStr (TransferSpec.details_of
                           (describe_marked InsufficientFunds)));
                  ("transactionId", JStr id)]).
Proof.
  assert (Hin :
    In (EvRpc
          (post_ledger_transaction "uuid-0" (JStr "acc-alice-0001")
             (JStr "acc-bob-0001") (JNum (num_of_Z 1000)) "USD" (JStr "rent"))
          (Answer JNull (Some (describe_marked InsufficientFunds))))
       (trace_of (transfer usd_world describe_marked
                    "acc-alice-0001" "acc-bob-0001" 1000 "USD"))).
  { vm_compute. tauto. }
  split; [exact Hin | ].
  exact (proj1 (TransferFacts.posting_error_details print_integer
                  (transfer_request "acc-alice-0001" "acc-bob-0001" 1000 "USD")
                  alice_token _ _ _ _ _
                  (exec_runs describe_marked _ _ usd_world) Hin)).
Defined.

(** C9: the debit account does not exist; the answer is 404. *)
Lemma missing_debit_account_is_404 :
  let x := transfer usd_world describe_marked
             "acc-ghost-0001" "acc-bob-0001" 10 "USD" in
  get_account (store usd_world) (JStr "acc-ghost-0001") = None
  /\ TransferSpec.passes_validation
       (fields "acc-ghost-0001" "acc-bob-0001" 10 "USD") = true
  /\ result_of x
     = Normal (message_only 404 "Debit account not found: acc-ghost-0001")
  /\ List.existsb is_write (trace_of x) = false.
Proof. vm_compute. repeat split. Qed.

Lemma debit_owner_gate_witness :
  TransferSpec.passes_validation
    (fields "acc-bob-0001" "acc-alice-0001" 10 "USD") = true
  /\ Forall
       (TransferSpec.debit_only alice_token
          (fields "acc-bob-0001" "acc-alice-0001" 10 "USD"))
       (trace_of (transfer usd_world describe_marked
                    "acc-bob-0001" "acc-alice-0001" 10 "USD")).
Proof.
  split; [reflexivity | ].
  exact (proj1 (proj2
    (TransferFacts.debit_owner_gate print_integer
       (transfer_request "acc-bob-0001" "acc-alice-0001" 10 "USD")
       alice_token _
       (fields "acc-bob-0001" "acc-alice-0001" 10 "USD")
       eq_refl eq_refl eq_refl _ _
       (exec_runs describe_marked _ _ usd_world)))).
Defined.

(** A debit account id that cannot be converted to a string: the request
    passes the validation, and building the filter of the debit lookup
    throws, so the answer is 500 after the customer lookup alone. *)
Example unconvertible_debit_id_is_500 :
  let from := JObj [("toString", JNum (num_of_Z 1))] in
  let f := TransactionService.TransferFields from (JStr "acc-bob-0001")
             (JNum (num_of_Z 10)) (JStr "USD") JUndefined in
  let req := Request
               (Some (JObj [("fromAccountId", from);
                            ("toAccountId", JStr "acc-bob-0001");
                            ("amount", JNum (num_of_Z 10));
                            ("currency", JStr "USD")]))
               "/transfers/internal" None in
  let x := exec describe_marked usd_world
             (TransactionService.handleInternalTransfer print_integer req
                alice_token) in
  TransactionService.destructure (JObj [("fromAccountId", from);
                                        ("toAccountId", JStr "acc-bob-0001");
                                        ("amount", JNum (num_of_Z 10));
                                        ("currency", JStr "USD")])
  = Some f
  /\ TransferSpec.passes_validation f = true
  /\ ToString print_integer from = None
  /\ trace_of x
     = [EvRow (CustomerIdByAuth0Sub "auth0|alice")
          (Answer (Some [("id", JNum (num_of_Z 1))]) None)]
  /\ result_of x
     = Normal
         (message_only 500
            "Internal server error: Cannot convert object to primitive value").
Proof. vm_compute. repeat split. Qed.

(** C4: Alice's ledger is corrupt and her balance cannot be computed; the
    account is returned with status 200 and the string "Error" in place of
    the balance. *)
Lemma corrupt_balance_shown_as_Error :
  let x := exec describe_marked corrupt_world
             (AccountService.handleGetAccount (get_request "acc-alice-0001")
                alice_token) in
  List.map (balance (store corrupt_world))
    (List.filter (has_id (JStr "acc-alice-0001")) (accounts (store corrupt_world)))
  = [None]
  /\ In (EvRpc (calculate_balance (JStr "acc-alice-0001"))
           (Answer JNull (Some (describe_marked StorageError))))
        (trace_of x)
  /\ result_of x
     = Normal
         (Response 200
            (JObj
               [("id", JStr "acc-alice-0001");
                ("customer_id", JNum (num_of_Z 1));
                ("account_number", JStr "1000000002");
                ("account_type", JStr "CHECKING");
                ("status", JStr "ACTIVE");
                ("currency", JStr "USD");
                ("nickname", JNull);
                ("balance", JStr "Error")])).
Proof. vm_compute. repeat split. tauto. Qed.

Lemma balance_failure_shown_as_Error_witness :
  let failure := Answer JNull (Some (describe_marked StorageError)) in
  let x := exec describe_marked corrupt_world
             (AccountService.handleListAccounts print_integer
                (list_request "1") alice_token) in
  AccountSpec.balance_failed failure
  /\ exists q rows answers acc,
       In (EvRows q (Answer (Some rows) None)) (trace_of x)
       /\ In (acc, failure) (combine rows answers)
       /\ JStr "acc-alice-0001" = get_field acc "id"
       /\ In (set_field acc "balance" (JStr "Error"))
            (List.map ReadSpec.shown (combine rows answers))
       /\ result_of x
          = Normal
              (if existsb ReadSpec.log_throws (combine rows answers)
               then internal_server_error cannot_convert
               else
                 Response 200
                   (JArr
                      (List.map JObj
                         (List.map ReadSpec.shown (combine rows answers))))).
Proof.
  split; [exact I | ].
  destruct (proj2 (AccountFacts.balance_failure_shown_as_Error print_integer
                     (Answer JNull (Some (describe_marked StorageError))) I)
              (list_request "1") alice_token _ _ (JStr "acc-alice-0001")
              (exec_runs describe_marked _ _ corrupt_world))
    as (q & rows & answers & acc & Hq & _ & Hacc & Hid & Hshown & Hout & _).
  { vm_compute. tauto. }
  exists q, rows, answers, acc. repeat split; assumption.
Defined.

Lemma allocator_checks_and_gives_up_witness :
  runs (AccountService.generateUniqueAccountNumber
          AccountService.default_maxRetries)
    (AccountSpec.collisions five_taken)
    (Throw AccountService.allocation_exhausted)
  /\ (AccountSpec.count AccountSpec.is_lookup
        (AccountSpec.collisions five_taken) <= 5)%nat.
Proof.
  split; [exact (AccountFacts.collisions_exhaust five_taken) | ].
  exact (proj1 (proj2 (proj2
    (AccountFacts.allocator_checks_and_gives_up print_integer _ _
       (AccountFacts.collisions_exhaust five_taken))))).
Defined.

(** An account opened in "eur" is stored in "EUR", under a number that
    was checked. *)
Example account_opened_in_eur :
  let x := exec describe_marked usd_world
             (AccountService.handleCreateAccount print_integer
                (create_request 1 "eur") alice_token) in
  result_of x
  = Normal
      (Response 201
         (JObj
            [("id", JStr "uuid-0");
             ("customer_id", JNum (num_of_Z 1));
             ("account_number", JStr "1000000000");
             ("account_type", JStr "SAVINGS");
             ("status", JStr "ACTIVE");
             ("currency", JStr "EUR");
             ("nickname", JUndefined)]))
  /\ List.map account_currency (accounts (store (world_of x)))
     = ["USD"; "USD"; "USD"; "EUR"].
Proof. vm_compute. split; reflexivity. Qed.



(** One request of a run at a time: the handler is evaluated up to its
    next request, which must be the next event. *)
Ltac next_event :=
  match goal with
  | |- runs ?m ?t ?a =>
      let m' := eval hnf in m in
      change (runs m' t a); constructor
  end.

(** An account row whose [id] does not convert to a string, and whose
    balance cannot be computed: the log line of the failure throws, and
    the owner is answered 500 by the handler that shows the account and
    by the one that lists the accounts. *)
Example unconvertible_row_id_is_500 :
  let id := JObj [("toString", JNum (num_of_Z 1))] in
  let row := [("id", id); ("customer_id", JNum (num_of_Z 1))] in
  let failure := Answer JNull (Some (describe_marked StorageError)) in
  AccountSpec.balance_failed failure
  /\ runs
       (AccountService.handleGetAccount (get_request "acc-alice-0001")
          alice_token)
       [EvRow (AccountById "acc-alice-0001") (Answer (Some row) None);
        EvRow (CustomerIdByAuth0Sub "auth0|alice")
          (Answer (Some [("id", JNum (num_of_Z 1))]) None);
        EvRpc (calculate_balance id) failure]
       (Normal
          (message_only 500
             "Internal server error: Cannot convert object to primitive value"))
  /\ runs
       (AccountService.handleListAccounts print_integer (list_request "1")
          alice_token)
       [EvRow (CustomerIdByAuth0Sub "auth0|alice")
          (Answer (Some [("id", JNum (num_of_Z 1))]) None);
        EvRows (AccountsByCustomer (JNum (num_of_Z 1)))
          (Answer (Some [row]) None);
        EvRpc (calculate_balance id) failure]
       (Normal
          (message_only 500
             "Internal server error: Cannot convert object to primitive value")).
Proof.
  cbv zeta. split; [vm_compute; tauto | ].
  split; repeat next_event.
Qed.

(** An insert answered with a row whose [id] does not convert to a
    string: the account is inserted, with the upper-cased currency, and
    the log line of the success throws, so the answer is 500. *)
Example unconvertible_created_id_is_500 :
  let id := JObj [("toString", JNum (num_of_Z 1))] in
  exists row,
    runs
      (AccountService.handleCreateAccount print_integer
         (create_request 1 "eur") alice_token)
      [EvRow (CustomerIdByAuth0Sub "auth0|alice")
         (Answer (Some [("id", JNum (num_of_Z 1))]) None);
       EvInt 1000000000 9999999999 1000000000;
       EvRow (AccountNumberLookup "1000000000") (Answer None None);
       EvRow (InsertAccount row) (Answer (Some [("id", id)]) None)]
      (Normal
         (message_only 500
            "Internal server error: Cannot convert object to primitive value"))
    /\ get_field row "currency" = JStr "EUR".
Proof.
  cbv zeta. eexists. split; [repeat next_event | reflexivity].
Qed.

End Cases.

(* ================================================================== *)
(** * The entry point of the transaction service *)
(* ================================================================== *)

Module EntryFacts.
Import TransactionService TransferSpec EntrySpec.

Section WithVerifier.

Variable jwt_verify : string -> jwt_outcome.

(** A token is verified exactly for a bearer header that [jwt_verify]
    decodes. *)
Lemma verified_is_bearer :
  forall (event : http_event) (tok : token),
    verifyToken jwt_verify event = Verified tok <-> bearer jwt_verify event tok.
Proof.
  intros event tok; unfold verifyToken, bearer; split.
  - destruct (authorization event) as [h | ]; [ | discriminate].
    destruct (truthy (JStr h)); cbn [negb orb]; [ | discriminate].
    destruct (String.prefix "Bearer " h) eqn:P; cbn [negb]; [ | discriminate].
    destruct (jwt_verify (drop 7 h)) eqn:J; [discriminate | ].
    intro E; injection E as ->. exists h; auto.
  - intros (h & -> & P & J).
    assert (T : truthy (JStr h) = true)
      by (destruct h; [discriminate P | reflexivity]).
    rewrite T, P, J; reflexivity.
Qed.

(** Whatever [verifyToken] rejects with carries the status 401. *)
Lemma refused_is_401 :
  forall (event : http_event) (r : rejection),
    verifyToken jwt_verify event = Refused r ->
    statusCode (answer_rejection r) = 401
    /\ rejection_message r <> EmptyString.
Proof.
  intros event r; unfold verifyToken.
  destruct (authorization event) as [h | ].
  - destruct (negb (truthy (JStr h)) || negb (String.prefix "Bearer " h)).
    + intro E; injection E as <-; split; [reflexivity | discriminate].
    + destruct (jwt_verify (drop 7 h)); intro E; [ | discriminate].
      injection E as <-; split; [reflexivity | discriminate].
  - intro E; injection E as <-; split; [reflexivity | discriminate].
Qed.

End WithVerifier.

(** ** The answers and the writes of a transfer *)

Section WithBuiltins.

Variable Number_toString : number -> string.

(** What the runs of a validated transfer have in common. *)
Lemma transfer_run_outcome :
  forall (tok : token) (f : transfer_fields) t out,
    transfer_run Number_toString tok f t out ->
    exists resp r rest,
      out = Normal resp
      /\ t = EvRow (CustomerIdByAuth0Sub (sub tok)) r :: rest
      /\ In (statusCode resp) [200; 403; 404; 422; 500]
      /\ (statusCode resp = 200 <-> existsb is_posted t = true)
      /\ (AccountSpec.count is_write t <= 1)%nat
      /\ Forall (fun e => is_write e = false) (removelast t).
Proof.
  intros tok f t out H; destruct H; do 3 eexists;
    (split; [reflexivity | ]); (split; [reflexivity | ]);
    (split; [cbn; tauto | ]);
    (split; [cbn; split; intro E; try discriminate E; reflexivity | ]);
    (split; [cbv; lia | ]);
    cbn; repeat constructor.
Qed.

(** Every run of the transfer handler: what it answers and what it
    writes. *)
Lemma transfer_outcome :
  forall (req : request) (tok : token) t out,
    runs (handleInternalTransfer Number_toString req tok) t out ->
    (AccountSpec.count is_write t <= 1)%nat
    /\ Forall (fun e => is_write e = false) (removelast t)
    /\ (t = [] \/ exists r rest,
                    t = EvRow (CustomerIdByAuth0Sub (sub tok)) r :: rest)
    /\ forall resp,
         out = Normal resp ->
         In (statusCode resp) [200; 400; 403; 404; 422; 500]
         /\ (statusCode resp = 200 <-> existsb is_posted t = true).
Proof.
  intros req tok t out H.
  destruct (TransferFacts.handler_runs Number_toString req tok t _ H)
    as [[-> Hc] | (requestBody & f & _ & _ & _ & Hr)].
  - split; [cbv; lia | ]. split; [constructor | ]. split; [left; reflexivity | ].
    intros resp E; rewrite (Hc resp E); split; [cbn; tauto | ].
    split; intro E'; discriminate E'.
  - destruct (transfer_run_outcome tok f t _ Hr)
      as (resp' & r & rest & E & Ht & Hin & Hiff & Hc & Hl).
    split; [exact Hc | ]. split; [exact Hl | ].
    split; [right; eauto | ].
    intros resp E'; rewrite E in E'; injection E' as <-.
    split; [ | exact Hiff]. cbn in Hin |- *; tauto.
Qed.

(** X1. The transfer handler answers 200 exactly when the posting routine
    was called and answered without an error; its other answers are 400,
    403, 404, 422 and 500. *)
Theorem transfer_200_iff_posted :
  forall (req : request) (tok : token) t resp,
    runs (handleInternalTransfer Number_toString req tok) t (Normal resp) ->
    In (statusCode resp) [200; 400; 403; 404; 422; 500]
    /\ (statusCode resp = 200 <-> existsb is_posted t = true).
Proof.
  intros req tok t resp H.
  exact (proj2 (proj2 (proj2 (transfer_outcome req tok t _ H))) resp eq_refl).
Qed.

(** X2. A run of the transfer handler changes the datastore at most once,
    by its last request: nothing is asked after a write, so a posting is
    never followed by a compensating or a second write. *)
Theorem transfer_writes_once_and_last :
  forall (req : request) (tok : token) t out,
    runs (handleInternalTransfer Number_toString req tok) t out ->
    (AccountSpec.count is_write t <= 1)%nat
    /\ Forall (fun e => is_write e = false) (removelast t).
Proof.
  intros req tok t out H.
  destruct (transfer_outcome req tok t _ H) as (Hc & Hl & _).
  split; assumption.
Qed.

End WithBuiltins.

(** ** The entry point of the transaction service *)

Section WithDeployment.

Variable configured : bool.
Variable jwt_verify : string -> jwt_outcome.
Variable Number_toString : number -> string.

(** X3. The entry point of the transaction service asks the datastore
    nothing unless the service is configured, the event carries a bearer
    token that [jwt.verify] accepts, the method is POST and the path, with
    the prefix of the service removed, is [/transfers/internal]; the first
    thing it then asks for is the customer of the [sub] of that token. *)
Theorem transfer_requests_need_verified_token :
  forall (event : http_event) t resp,
    runs (TransactionMain.handler configured jwt_verify Number_toString event)
      t resp ->
    t <> [] ->
    configured = true
    /\ httpMethod event = "POST"
    /\ routed "/api/transaction-service" event = "/transfers/internal"
    /\ exists tok r rest,
         bearer jwt_verify event tok
         /\ t = EvRow (CustomerIdByAuth0Sub (sub tok)) r :: rest.
Proof.
  intros event t resp H Hne. unfold TransactionMain.handler in H.
  destruct configured; cbn [negb] in H;
    [ | apply runs_ret_inv in H; destruct H as [-> _]; contradiction].
  destruct (verifyToken jwt_verify event) as [tok | r] eqn:V;
    [ | apply runs_ret_inv in H; destruct H as [-> _]; contradiction].
  destruct (String.eqb (httpMethod event) "POST") eqn:M; cbn [andb] in H;
    [ | apply runs_ret_inv in H; destruct H as [-> _]; contradiction].
  destruct (String.eqb
              (remove_first (path (request_of event)) "/api/transaction-service")
              "/transfers/internal") eqn:P;
    [ | apply runs_ret_inv in H; destruct H as [-> _]; contradiction].
  apply String.eqb_eq in M, P.
  apply runs_bind in H. destruct H as (t1 & c & t2 & -> & H1 & H2).
  assert (t2 = []) as ->
    by (destruct c; apply runs_ret_inv in H2; destruct H2 as [-> _]; reflexivity).
  rewrite app_nil_r in *.
  destruct (transfer_outcome Number_toString _ tok t1 _ H1)
    as (_ & _ & [-> | (r & rest & ->)] & _); [contradiction | ].
  repeat split; auto. exists tok, r, rest; split; [ | reflexivity].
  apply verified_is_bearer; exact V.
Qed.

(** X4. A configured transaction service answers 401 exactly when the
    event carries no bearer token that [jwt.verify] accepts, and then it
    asks the datastore nothing. *)
Theorem unauthorized_iff_token_refused :
  forall (event : http_event) t resp,
    runs (TransactionMain.handler true jwt_verify Number_toString event)
      t resp ->
    (statusCode resp = 401 <-> forall tok, ~ bearer jwt_verify event tok)
    /\ (statusCode resp = 401 -> t = []).
Proof.
  intros event t resp H. unfold TransactionMain.handler in H. cbn [negb] in H.
  destruct (verifyToken jwt_verify event) as [tok | r] eqn:V.
  - assert (Hno : statusCode resp <> 401).
    { destruct (String.eqb (httpMethod event) "POST"
                && String.eqb
                     (remove_first (path (request_of event))
                        "/api/transaction-service")
                     "/transfers/internal");
        [ | apply runs_ret_inv in H; destruct H as [_ ->]; discriminate].
      apply runs_bind in H. destruct H as (t1 & c & t2 & -> & H1 & H2).
      destruct c as [answer | e]; apply runs_ret_inv in H2;
        destruct H2 as [-> ->].
      - destruct (proj2 (proj2 (proj2 (transfer_outcome Number_toString _ _ _ _ H1)))
                    answer eq_refl) as [Hin _].
        intro E; rewrite E in Hin; cbn in Hin.
        repeat (destruct Hin as [Hin | Hin]; [discriminate Hin | ]).
        exact Hin.
      - unfold answer_error, last_resort.
        destruct (String.eqb (err_message e) EmptyString); discriminate. }
    split; [split | ].
    + intro E; contradiction.
    + intro Hn; exfalso; apply (Hn tok); apply verified_is_bearer; exact V.
    + intro E; contradiction.
  - apply runs_ret_inv in H; destruct H as [-> ->].
    destruct (refused_is_401 _ _ _ V) as [Hc _].
    split; [split | reflexivity].
    + intros _ tok Hb. apply verified_is_bearer in Hb. congruence.
    + intros _; exact Hc.
Qed.

(** X5. A transfer whose body is JSON but no object is turned away before
    any request: the entry point answers 500 when the body is [null],
    whose properties cannot be read, and 400 when it is a number, a
    string, a boolean or an array, whose properties are all missing. *)
Theorem body_that_is_no_object :
  forall (event : http_event) (tok : token) (requestBody : value) t resp,
    bearer jwt_verify event tok ->
    httpMethod event = "POST" ->
    routed "/api/transaction-service" event = "/transfers/internal" ->
    parsed_body (request_of event) = Some requestBody ->
    (forall o, requestBody <> JObj o) ->
    runs (TransactionMain.handler true jwt_verify Number_toString event)
      t resp ->
    t = []
    /\ statusCode resp = match requestBody with
                         | JNull | JUndefined => 500
                         | _ => 400
                         end.
Proof.
  intros event tok requestBody t resp Hb M P B Hno H.
  apply verified_is_bearer in Hb. unfold routed in P.
  unfold TransactionMain.handler in H. cbn [negb] in H.
  rewrite Hb, M, P in H. cbn [String.eqb Ascii.eqb Bool.eqb andb] in H.
  unfold handleInternalTransfer in H. rewrite B in H.
  destruct requestBody as [ | | b | n | s | items | o];
    try (cbn in H; apply runs_ret_inv in H; destruct H as [-> ->];
         split; reflexivity).
  exfalso; apply (Hno o); reflexivity.
Qed.

End WithDeployment.

End EntryFacts.

(* ================================================================== *)
(** * Who may open, read and change an account *)
(* ================================================================== *)

Module OwnershipFacts.
Import AccountService AccountUpdate AccountSpec EntrySpec.

Lemma count_zero_not_in :
  forall (p : event -> bool) (t : list event) (e : event),
    count p t = 0%nat -> In e t -> p e = false.
Proof.
  intros p t e; unfold count; induction t as [ | x t IH]; intros Hc Hin;
    [contradiction | ].
  cbn [filter] in Hc. destruct (p x) eqn:Px; [discriminate Hc | ].
  destruct Hin as [<- | Hin]; [exact Px | apply IH; assumption].
Qed.

Lemma strict_eq_JStr :
  forall (v : value) (s : string), strict_eq v (JStr s) = true -> v = JStr s.
Proof.
  intros v s H; destruct v; try discriminate H.
  cbn in H. apply String.eqb_eq in H. congruence.
Qed.

(** ** The allocator *)

(** X6. A uniqueness check that comes back with an error ends the
    allocation: it is the last request, no other candidate is drawn, and
    the allocator throws "Database error during account number
    generation" whatever number of attempts is left. *)
Theorem allocator_stops_on_check_error :
  forall (maxRetries : nat) t out e,
    runs (generateUniqueAccountNumber maxRetries) t out ->
    In e t ->
    is_failed_check e = true ->
    out = Throw allocation_db_error
    /\ exists before, t = (before ++ [e])%list.
Proof.
  intros maxRetries t out e H. apply AccountFacts.allocator_runs in H.
  induction H as [ | left n | left n data err | left n e' | left n row t out H IH];
    intros Hin Hf.
  - contradiction.
  - destruct Hin as [<- | [<- | []]]; discriminate Hf.
  - destruct Hin as [<- | [<- | []]]; [discriminate Hf | ].
    split; [reflexivity | ]. eexists [_]; reflexivity.
  - destruct Hin as [<- | [<- | []]]; discriminate Hf.
  - destruct Hin as [<- | [<- | Hin]]; try discriminate Hf.
    destruct (IH Hin Hf) as [-> [before ->]].
    split; [reflexivity | ]. eexists (_ :: _ :: before); reflexivity.
Qed.

(** ** Opening an account *)

Section WithBuiltins.

Variable Number_toString : number -> string.

Lemma no_insert_in_allocation :
  forall left ta out e,
    allocation_run left ta out -> In e ta ->
    is_insert e = false /\ is_inserted e = false /\ is_write e = false.
Proof.
  intros left ta out e Ha; induction Ha; intro Hin;
    try (destruct Hin as [<- | [<- | Hin]]); try contradiction;
    try (repeat split; reflexivity).
  apply IHHa; exact Hin.
Qed.

Lemma existsb_none :
  forall (p : event -> bool) (t : list event),
    (forall e, In e t -> p e = false) -> existsb p t = false.
Proof.
  intros p t H; induction t as [ | x t IH]; [reflexivity | ].
  cbn [existsb]. rewrite (H x (or_introl eq_refl)). apply IH.
  intros e He; apply H; right; exact He.
Qed.

Lemma count_none :
  forall (p : event -> bool) (t : list event),
    (forall e, In e t -> p e = false) -> count p t = 0%nat.
Proof.
  intros p t H; unfold count; induction t as [ | x t IH]; [reflexivity | ].
  cbn [filter]. rewrite (H x (or_introl eq_refl)). apply IH.
  intros e He; apply H; right; exact He.
Qed.

(** The guard lets the request through: the customer of the token was
    resolved and is the customer named in the body. *)
Lemma not_self_false :
  forall owner id : value,
    not_self Number_toString owner id = Some false ->
    truthy owner = true
    /\ exists n,
         parseInt Number_toString id = Some n /\ strict_eq owner n = true.
Proof.
  intros owner id H. unfold not_self in H.
  destruct (truthy owner); cbn [negb] in H; [ | discriminate H].
  split; [reflexivity | ].
  destruct (parseInt Number_toString id) as [n | ]; [ | discriminate H].
  injection H as H. apply negb_false_iff in H. exists n; auto.
Qed.

(** What the runs of a validated request to open an account have in
    common. *)
Lemma create_run_outcome :
  forall (tok : token) (f : create_fields) t out,
    create_run Number_toString tok f t out ->
    (count is_write t <= 1)%nat
    /\ (forall row r,
          In (EvRow (InsertAccount row) r) t ->
          exists data error before number,
            t = (EvRow (CustomerIdByAuth0Sub (sub tok)) (Answer data error)
                 :: before
                 ++ [EvRow (AccountNumberLookup number) (Answer None None);
                     EvRow (InsertAccount row) r])%list
            /\ not_self Number_toString (resolved_customer data error)
                 (customerId f) = Some false
            /\ get_field row "customer_id" = resolved_customer data error
            /\ get_field row "account_number" = JStr number
            /\ out = Normal (insert_outcome r))
    /\ (forall resp,
          out = Normal resp ->
          In (statusCode resp) [201; 403; 500]
          /\ (statusCode resp = 201 <-> existsb is_created t = true)
          /\ (existsb is_inserted t = true ->
              statusCode resp = 201 \/ statusCode resp = 500)).
Proof.
  intros tok f t out H.
  assert (Hshort : forall r0,
            t = [EvRow (CustomerIdByAuth0Sub (sub tok)) r0] ->
            (forall resp, out = Normal resp -> statusCode resp = 403) ->
            (count is_write t <= 1)%nat
            /\ (forall row r,
                  In (EvRow (InsertAccount row) r) t ->
                  exists data error before number,
                    t = (EvRow (CustomerIdByAuth0Sub (sub tok))
                           (Answer data error)
                         :: before
                         ++ [EvRow (AccountNumberLookup number)
                               (Answer None None);
                             EvRow (InsertAccount row) r])%list
                    /\ not_self Number_toString (resolved_customer data error)
                         (customerId f) = Some false
                    /\ get_field row "customer_id"
                       = resolved_customer data error
                    /\ get_field row "account_number" = JStr number
                    /\ out = Normal (insert_outcome r))
            /\ (forall resp,
                  out = Normal resp ->
                  In (statusCode resp) [201; 403; 500]
                  /\ (statusCode resp = 201 <-> existsb is_created t = true)
                  /\ (existsb is_inserted t = true ->
                      statusCode resp = 201 \/ statusCode resp = 500))).
  { intros r0 -> Hc. split; [cbv; lia | ]. split.
    - intros row r [E | []]; discriminate E.
    - intros resp E. rewrite (Hc resp E). split; [cbn; tauto | ].
      split; [split; intro E'; discriminate E' | intro E'; discriminate E']. }
  assert (Hafter : forall data error ta o,
            allocation_run default_maxRetries ta o ->
            t = EvRow (CustomerIdByAuth0Sub (sub tok)) (Answer data error)
                :: ta ->
            (forall resp, out = Normal resp -> statusCode resp = 500) ->
            (count is_write t <= 1)%nat
            /\ (forall row r,
                  In (EvRow (InsertAccount row) r) t ->
                  exists data error before number,
                    t = (EvRow (CustomerIdByAuth0Sub (sub tok))
                           (Answer data error)
                         :: before
                         ++ [EvRow (AccountNumberLookup number)
                               (Answer None None);
                             EvRow (InsertAccount row) r])%list
                    /\ not_self Number_toString (resolved_customer data error)
                         (customerId f) = Some false
                    /\ get_field row "customer_id"
                       = resolved_customer data error
                    /\ get_field row "account_number" = JStr number
                    /\ out = Normal (insert_outcome r))
            /\ (forall resp,
                  out = Normal resp ->
                  In (statusCode resp) [201; 403; 500]
                  /\ (statusCode resp = 201 <-> existsb is_created t = true)
                  /\ (existsb is_inserted t = true ->
                      statusCode resp = 201 \/ statusCode resp = 500))).
  { intros data error ta o Ha -> Hc.
    assert (Hno : forall e0, In e0 ta ->
              is_insert e0 = false /\ is_inserted e0 = false
              /\ is_write e0 = false)
      by (intros e0; apply (no_insert_in_allocation _ _ _ _ Ha)).
    assert (Hnc : forall e0, In e0 ta -> is_created e0 = false).
    { intros e0 He. destruct (Hno e0 He) as (_ & Hi & _).
      destruct e0 as [q [[row | ] [err | ] | e] | | | | ];
        try reflexivity; destruct q; try reflexivity; discriminate Hi. }
    split.
    { change (count is_write ta <= 1)%nat.
      rewrite count_none; [lia | ]. intros e0 He; apply Hno; exact He. }
    split.
    - intros row r [E | Hin]; [discriminate E | ].
      destruct (Hno _ Hin) as [Hi _]; discriminate Hi.
    - intros resp E. rewrite (Hc resp E). split; [cbn; tauto | ].
      cbn [existsb is_inserted is_created orb].
      rewrite !existsb_none
        by (intros e0 He; first [apply Hnc | apply Hno]; exact He).
      split; [split; intro E'; discriminate E' | intro E'; discriminate E']. }
  destruct H as
    [ e | data error Hself | data error Hself Hlog | data error Hself Hlog
    | data error ta e Hself Ha
    | data error ta number Hself Ha Hcur
    | data error ta number s r Hself Ha Hcur ].
  - eapply Hshort; [reflexivity | intros resp E; discriminate E].
  - eapply Hshort; [reflexivity | intros resp E; discriminate E].
  - eapply Hshort; [reflexivity | intros resp E; injection E as <-; reflexivity].
  - eapply Hshort; [reflexivity | intros resp E; discriminate E].
  - eapply Hafter; [exact Ha | reflexivity | ].
    intros resp E; injection E as <-; reflexivity.
  - eapply Hafter; [exact Ha | reflexivity | ].
    intros resp E; injection E as <-; reflexivity.
  - clear Hshort Hafter.
    assert (Hno : forall e0, In e0 ta ->
              is_insert e0 = false /\ is_inserted e0 = false
              /\ is_write e0 = false)
      by (intros e0; apply (no_insert_in_allocation _ _ _ _ Ha)).
    assert (Hnc : forall e0, In e0 ta -> is_created e0 = false).
    { intros e0 He. destruct (Hno e0 He) as (_ & Hi & _).
      destruct e0 as [q [[row | ] [err | ] | e] | | | | ];
        try reflexivity; destruct q; try reflexivity; discriminate Hi. }
    split.
    { change (count is_write
                (ta ++ [EvRow (InsertAccount
                          (new_account (resolved_customer data error) number f
                             (toUpperCase s))) r]) <= 1)%nat.
      rewrite AccountFacts.count_app.
      rewrite count_none by (intros e0 He; apply Hno; exact He).
      cbv; lia. }
    split.
    + intros row r' [E | Hin]; [discriminate E | ].
      apply in_app_or in Hin. destruct Hin as [Hin | [E | []]].
      { destruct (Hno _ Hin) as [Hi _]; discriminate Hi. }
      injection E as <- <-.
      destruct (AccountFacts.allocation_returns_checked _ _ _ _ Ha eq_refl)
        as (before & n & -> & _ & _).
      exists data, error, (before ++ [EvInt 1000000000 9999999999 n])%list,
        number.
      split; [ | repeat split; auto].
      cbn [app]. f_equal. rewrite <- !app_assoc. reflexivity.
    + intros resp E; injection E as <-.
      cbn [existsb is_inserted is_created orb]. rewrite !existsb_app.
      rewrite !existsb_none
        by (intros e0 He; first [apply Hnc | apply Hno]; exact He).
      destruct r as [[row | ] [err | ] | e];
        cbn [insert_outcome existsb is_inserted is_created orb];
        try destruct (convertible (get_field row "id"));
        cbn; (split; [tauto | ]);
        (split; [split; intro E; try discriminate E; reflexivity | ]);
        intro E; try discriminate E; tauto.
Qed.

(** Every run of the handler that opens accounts. *)
Lemma create_outcome :
  forall (req : request) (tok : token) t out,
    runs (handleCreateAccount Number_toString req tok) t out ->
    (count is_write t <= 1)%nat
    /\ (forall row r,
          In (EvRow (InsertAccount row) r) t ->
          exists requestBody f data error before number,
            parsed_body req = Some requestBody
            /\ destructure requestBody = Some f
            /\ t = (EvRow (CustomerIdByAuth0Sub (sub tok)) (Answer data error)
                    :: before
                    ++ [EvRow (AccountNumberLookup number) (Answer None None);
                        EvRow (InsertAccount row) r])%list
            /\ not_self Number_toString (resolved_customer data error)
                 (customerId f) = Some false
            /\ get_field row "customer_id" = resolved_customer data error
            /\ get_field row "account_number" = JStr number
            /\ out = Normal (insert_outcome r))
    /\ (forall resp,
          out = Normal resp ->
          In (statusCode resp) [201; 400; 403; 500]
          /\ (statusCode resp = 201 <-> existsb is_created t = true)
          /\ (existsb is_inserted t = true ->
              statusCode resp = 201 \/ statusCode resp = 500)).
Proof.
  intros req tok t out H.
  assert (Hquiet : t = [] ->
            (forall resp, out = Normal resp -> statusCode resp = 400) ->
            (count is_write t <= 1)%nat
            /\ (forall row r,
                  In (EvRow (InsertAccount row) r) t ->
                  exists requestBody f data error before number,
                    parsed_body req = Some requestBody
                    /\ destructure requestBody = Some f
                    /\ t = (EvRow (CustomerIdByAuth0Sub (sub tok))
                              (Answer data error)
                            :: before
                            ++ [EvRow (AccountNumberLookup number)
                                  (Answer None None);
                                EvRow (InsertAccount row) r])%list
                    /\ not_self Number_toString (resolved_customer data error)
                         (customerId f) = Some false
                    /\ get_field row "customer_id"
                       = resolved_customer data error
                    /\ get_field row "account_number" = JStr number
                    /\ out = Normal (insert_outcome r))
            /\ (forall resp,
                  out = Normal resp ->
                  In (statusCode resp) [201; 400; 403; 500]
                  /\ (statusCode resp = 201 <-> existsb is_created t = true)
                  /\ (existsb is_inserted t = true ->
                      statusCode resp = 201 \/ statusCode resp = 500))).
  { intros -> Hc. split; [cbv; lia | ]. split; [intros row r [] | ].
    intros resp E; rewrite (Hc resp E). split; [cbn; tauto | ].
    split; [split; intro E'; discriminate E' | intro E'; discriminate E']. }
  destruct (parsed_body req) as [requestBody | ] eqn:Hbody.
  2: { unfold handleCreateAccount in H; rewrite Hbody in H.
       apply runs_ret_inv in H; destruct H as [-> ->].
       apply Hquiet; [reflexivity | ].
       intros resp E; injection E as <-; reflexivity. }
  destruct (destructure requestBody) as [f | ] eqn:Hf.
  2: { unfold handleCreateAccount in H; rewrite Hbody, Hf in H.
       apply runs_ret_inv in H; destruct H as [-> ->].
       apply Hquiet; [reflexivity | ]. intros resp E; discriminate E. }
  destruct (AccountFacts.create_runs Number_toString tok f req t out H
              requestBody Hbody Hf)
    as [(_ & -> & resp & -> & Hc) | [_ R]].
  - apply Hquiet; [reflexivity | ].
    intros resp' E; injection E as <-; exact Hc.
  - destruct (create_run_outcome tok f t out R) as (Hw & Hins & Hst).
    split; [exact Hw | ]. split.
    + intros row r Hin.
      destruct (Hins row r Hin) as (data & error & before & number & Hrest).
      exists requestBody, f, data, error, before, number.
      split; [reflexivity | ]. split; [exact Hf | exact Hrest].
    + intros resp E. destruct (Hst resp E) as (Hin & Hiff & Himp).
      split; [cbn in Hin |- *; tauto | split; assumption].
Qed.

(** X7. An account is only ever inserted for the customer of the verified
    token: the [customer_id] of the row is the id the datastore returned
    for [sub] of the token, which is truthy and strictly equal to
    [parseInt(customerId, 10)] of the body; its [account_number] is the
    candidate of the uniqueness check made just before, which found no
    row; and the insert is the last request of the run. *)
Theorem account_opened_for_token_owner :
  forall (req : request) (tok : token) t out row r,
    runs (handleCreateAccount Number_toString req tok) t out ->
    In (EvRow (InsertAccount row) r) t ->
    exists requestBody f data error before number,
      parsed_body req = Some requestBody
      /\ destructure requestBody = Some f
      /\ t = (EvRow (CustomerIdByAuth0Sub (sub tok)) (Answer data error)
              :: before
              ++ [EvRow (AccountNumberLookup number) (Answer None None);
                  EvRow (InsertAccount row) r])%list
      /\ truthy (resolved_customer data error) = true
      /\ (exists n,
            parseInt Number_toString (customerId f) = Some n
            /\ strict_eq (resolved_customer data error) n = true)
      /\ get_field row "customer_id" = resolved_customer data error
      /\ get_field row "account_number" = JStr number.
Proof.
  intros req tok t out row r H Hin.
  destruct (create_outcome req tok t out H) as (_ & Hins & _).
  destruct (Hins row r Hin)
    as (requestBody & f & data & error & before & number
        & Hb & Hf & Ht & Hself & Hc & Hn & _).
  exists requestBody, f, data, error, before, number.
  destruct (not_self_false _ _ Hself) as [Ht1 Ht2].
  repeat split; assumption.
Qed.

(** X8. The handler that opens accounts answers 201 exactly when the insert
    was made and the datastore answered it with the new row, whose [id]
    the handler writes to the log first: when that [id] does not convert
    to a string the answer is 500 instead. Its other answers are 400, 403
    and 500, and it writes at most once. *)
Theorem account_201_iff_inserted :
  forall (req : request) (tok : token) t resp,
    runs (handleCreateAccount Number_toString req tok) t (Normal resp) ->
    In (statusCode resp) [201; 400; 403; 500]
    /\ (statusCode resp = 201 <-> existsb is_created t = true)
    /\ (existsb is_inserted t = true ->
        statusCode resp = 201 \/ statusCode resp = 500)
    /\ (count is_write t <= 1)%nat.
Proof.
  intros req tok t resp H.
  destruct (create_outcome req tok t _ H) as (Hw & _ & Hst).
  destruct (Hst resp eq_refl) as (Hin & Hiff & Himp).
  repeat split; try assumption; apply Hiff.
Qed.

(** ** Reading accounts *)

(** X9. The accounts query of the list handler is keyed by the verified
    token alone: the [customer_id] it filters on is the id the datastore
    returned for [sub] of the token, and the query is only made when that
    id is truthy and strictly equal to [parseInt(customerId, 10)] of the
    query string. *)
Theorem accounts_listed_for_token_owner :
  forall (req : request) (tok : token) t out cid r,
    runs (handleListAccounts Number_toString req tok) t out ->
    In (EvRows (AccountsByCustomer cid) r) t ->
    exists data error customerIdQuery rest,
      t = EvRow (CustomerIdByAuth0Sub (sub tok)) (Answer data error)
          :: EvRows (AccountsByCustomer cid) r :: rest
      /\ cid = resolved_customer data error
      /\ truthy cid = true
      /\ query_customerId req = Some customerIdQuery
      /\ (exists n,
            parseInt Number_toString (JStr customerIdQuery) = Some n
            /\ strict_eq cid n = true).
Proof.
  intros req tok t out cid r H Hin.
  destruct (AccountFacts.list_runs Number_toString req tok t out H)
    as [(-> & _) | (c & Q & _ & [(e & -> & _) | (data & error & Hcase)])].
  - contradiction.
  - destruct Hin as [E | []]; discriminate E.
  - cbv zeta in Hcase.
    destruct Hcase as [(-> & _) | (r' & rest & -> & Hself & Hr)].
    + destruct Hin as [E | []]; discriminate E.
    + assert (Hhere : EvRows (AccountsByCustomer (resolved_customer data error)) r'
                      = EvRows (AccountsByCustomer cid) r).
      { destruct Hin as [E | [E | Hin]]; [discriminate E | exact E | ].
        exfalso.
        destruct r' as [[rows | ] [err | ] | e].
        - destruct Hr as [-> _]; contradiction.
        - destruct Hr as (answers & _ & -> & _).
          apply AccountFacts.no_rows_query_among_balances in Hin.
          destruct Hin as [Hb _]; discriminate Hb.
        - destruct Hr as [-> _]; contradiction.
        - destruct Hr as [-> _]; contradiction.
        - destruct Hr as [-> _]; contradiction. }
      injection Hhere as <- <-.
      destruct (not_self_false _ _ Hself) as [Ht1 Ht2].
      exists data, error, c, rest. repeat split; assumption.
Qed.

(** X10. When the accounts query returns rows, the list handler asks for one
    balance per row, in the order of the rows and under the [id] of each
    row, and answers 200 with one account per row in that order, each
    under the [id] of its row, whatever the balance requests answer; the
    one exception is a failed balance request for a row whose [id] does
    not convert to a string, for which the log line throws and the answer
    is 500. *)
Theorem one_listed_account_per_row :
  forall (req : request) (tok : token) t out q rows,
    runs (handleListAccounts Number_toString req tok) t out ->
    In (EvRows q (Answer (Some rows) None)) t ->
    exists first answers,
      List.length answers = List.length rows
      /\ t = first :: EvRows q (Answer (Some rows) None)
              :: List.map ReadSpec.balance_request (combine rows answers)
      /\ out = Normal
                 (if existsb ReadSpec.log_throws (combine rows answers)
                  then internal_server_error cannot_convert
                  else
                    Response 200
                      (JArr (List.map JObj
                               (List.map ReadSpec.shown
                                  (combine rows answers)))))
      /\ List.map (fun o => get_field o "id")
           (List.map ReadSpec.shown (combine rows answers))
         = List.map (fun o => get_field o "id") rows.
Proof.
  intros req tok t out q rows H Hin.
  destruct (AccountFacts.list_runs Number_toString req tok t out H)
    as [(-> & _) | (c & Q & _ & [(e & -> & _) | (data & error & Hcase)])].
  - contradiction.
  - destruct Hin as [E | []]; discriminate E.
  - cbv zeta in Hcase.
    destruct Hcase as [(-> & _) | (r' & rest & -> & Hself & Hr)].
    + destruct Hin as [E | []]; discriminate E.
    + assert (Hhere : EvRows (AccountsByCustomer (resolved_customer data error)) r'
                      = EvRows q (Answer (Some rows) None)).
      { destruct Hin as [E | [E | Hin]]; [discriminate E | exact E | ].
        exfalso.
        destruct r' as [[rows' | ] [err | ] | e].
        - destruct Hr as [-> _]; contradiction.
        - destruct Hr as (answers & _ & -> & _).
          apply AccountFacts.no_rows_query_among_balances in Hin.
          destruct Hin as [Hb _]; discriminate Hb.
        - destruct Hr as [-> _]; contradiction.
        - destruct Hr as [-> _]; contradiction.
        - destruct Hr as [-> _]; contradiction. }
      injection Hhere as <- ->.
      destruct Hr as (answers & Hl & -> & ->).
      eexists _, answers. split; [exact Hl | ].
      split; [reflexivity | ]. split; [reflexivity | ].
      apply AccountFacts.shown_keeps_ids; exact Hl.
Qed.

End WithBuiltins.

(** X11. The handler that shows one account answers 200 only to the owner:
    the account was found under the last part of the path, the customer of
    [sub] of the token was then resolved to a truthy id strictly equal to
    the [customer_id] of the row, and only after that the balance was
    asked for, once, under the [id] of the row. A balance is requested in
    no other run but one: the same run for the owner in which the balance
    request failed and the [id] of the row does not convert to a string,
    so that the log line throws and the answer is 500. *)
Theorem account_shown_to_owner_only :
  forall (req : request) (tok : token) t resp,
    runs (handleGetAccount req tok) t (Normal resp) ->
    (statusCode resp = 200 ->
     exists row cdata cerror rb,
       t = [EvRow (AccountById (last_path_part (path req)))
              (Answer (Some row) None);
            EvRow (CustomerIdByAuth0Sub (sub tok)) (Answer cdata cerror);
            ReadSpec.balance_request (row, rb)]
       /\ truthy (resolved_customer cdata cerror) = true
       /\ strict_eq (resolved_customer cdata cerror)
            (get_field row "customer_id") = true
       /\ resp = Response 200 (JObj (ReadSpec.shown (row, rb))))
    /\ (existsb ReadSpec.is_balance_request t = true ->
        exists row cdata cerror rb,
          t = [EvRow (AccountById (last_path_part (path req)))
                 (Answer (Some row) None);
               EvRow (CustomerIdByAuth0Sub (sub tok)) (Answer cdata cerror);
               ReadSpec.balance_request (row, rb)]
          /\ truthy (resolved_customer cdata cerror) = true
          /\ strict_eq (resolved_customer cdata cerror)
               (get_field row "customer_id") = true
          /\ (statusCode resp = 200
              \/ (ReadSpec.log_throws (row, rb) = true
                  /\ resp = internal_server_error cannot_convert))).
Proof.
  intros req tok t resp H.
  destruct (AccountFacts.get_runs req tok t _ H)
    as [[-> E] | (r & rest & -> & _ & Hr)].
  { injection E as ->. split; intro E; discriminate E. }
  destruct r as [data error | e].
  2: { destruct Hr as [-> E]; injection E as ->.
       split; intro E; discriminate E. }
  destruct (found_row data error) as [row | ] eqn:F.
  2: { destruct Hr as (-> & resp' & E & Hc). injection E as <-.
       split; [intro E; rewrite E in Hc; destruct Hc; discriminate | ].
       intro E; discriminate E. }
  destruct Hr as (rc & rest' & -> & Hrc).
  destruct rc as [cdata cerror | e].
  2: { destruct Hrc as [-> E]; injection E as ->.
       split; intro E; discriminate E. }
  cbv zeta in Hrc.
  assert (Hno : forall b : bool,
            statusCode
              (if b
               then message_only 403
                      "Forbidden: You can only view your own accounts."
               else internal_server_error cannot_convert) <> 200)
    by (intros [ | ] E; discriminate E).
  destruct (truthy (resolved_customer cdata cerror)) eqn:T;
    cbn [andb] in Hrc.
  2: { destruct Hrc as [-> E]; injection E as ->.
       split; intro E; [exfalso; exact (Hno _ E) | discriminate E]. }
  destruct (strict_eq (resolved_customer cdata cerror)
              (get_field row "customer_id")) eqn:S.
  2: { destruct Hrc as [-> E]; injection E as ->.
       split; intro E; [exfalso; exact (Hno _ E) | discriminate E]. }
  destruct Hrc as (rb & -> & E). injection E as ->.
  assert (data = Some row /\ error = None) as [-> ->].
  { destruct error; [destruct data; discriminate F | ].
    destruct data; [injection F as -> | discriminate F]. split; reflexivity. }
  split; intros E; exists row, cdata, cerror, rb;
    destruct (ReadSpec.log_throws (row, rb)); try discriminate E;
    repeat split; auto.
Qed.

(** X12. The two handlers that read accounts never write: no run of either
    contains an insert or a posting. *)
Theorem reads_never_write :
  forall (Number_toString : number -> string) (req : request) (tok : token)
         t out,
    runs (handleGetAccount req tok) t out
    \/ runs (handleListAccounts Number_toString req tok) t out ->
    Forall (fun e => is_write e = false) t.
Proof.
  intros nts req tok t out [H | H].
  - destruct (AccountFacts.get_runs req tok t _ H)
      as [[-> _] | (r & rest & -> & _ & Hr)]; [constructor | ].
    constructor; [reflexivity | ].
    destruct r as [data error | e]; [ | destruct Hr as [-> _]; constructor].
    destruct (found_row data error) as [row | ];
      [ | destruct Hr as [-> _]; constructor].
    destruct Hr as (rc & rest' & -> & Hrc). constructor; [reflexivity | ].
    destruct rc as [cdata cerror | e]; [ | destruct Hrc as [-> _]; constructor].
    cbv zeta in Hrc.
    destruct (truthy (resolved_customer cdata cerror)
              && strict_eq (resolved_customer cdata cerror)
                   (get_field row "customer_id")).
    + destruct Hrc as (rb & -> & _). repeat constructor.
    + destruct Hrc as [-> _]; constructor.
  - destruct (AccountFacts.list_runs nts req tok t out H)
      as [(-> & _) | (c & _ & _ & [(e & -> & _) | (data & error & Hcase)])].
    + constructor.
    + repeat constructor.
    + cbv zeta in Hcase.
      destruct Hcase as [(-> & _) | (r & rest & -> & _ & Hr)];
        [repeat constructor | ].
      constructor; [reflexivity | ]. constructor; [reflexivity | ].
      destruct r as [[rows | ] [err | ] | e];
        try (destruct Hr as [-> _]; constructor).
      destruct Hr as (answers & _ & -> & _).
      apply Forall_forall. intros e He.
      apply (AccountFacts.no_rows_query_among_balances _ _ He).
Qed.

(** ** Changing the status of an account *)

(** Every run of the handler that changes the status of an account. *)
Lemma update_runs :
  forall (req : request) (tok : token) t out,
    runs (handleUpdateAccount req tok) t out ->
    let accountId := last_path_part (path req) in
    (t = []
     /\ match out with
        | Normal (Finished resp) => statusCode resp = 400
        | Normal (Asking _ _) => False
        | Throw _ => parsed_body req = Some JNull
                     \/ parsed_body req = Some JUndefined
        end)
    \/ exists status r rest,
         (exists requestBody,
            parsed_body req = Some requestBody
            /\ get_prop requestBody "status" = Some status)
         /\ known_status status = true
         /\ t = EvRow (AccountOwnerById (JStr accountId)) r :: rest
         /\ match r with
            | Rejects e =>
                rest = []
                /\ out = Normal (Finished (internal_server_error e))
            | Answer data error =>
                match found_row data error with
                | None =>
                    rest = []
                    /\ exists resp,
                         out = Normal (Finished resp)
                         /\ (statusCode resp = 404 \/ statusCode resp = 500)
                | Some row =>
                    exists rc,
                      rest = [EvRow (CustomerIdByAuth0Sub (sub tok)) rc]
                      /\ match rc with
                         | Rejects e =>
                             out = Normal
                                     (Finished (internal_server_error e))
                         | Answer cdata cerror =>
                             let owner := resolved_customer cdata cerror in
                             if truthy owner
                                && strict_eq owner (get_field row "customer_id")
                             then
                               out = Normal
                                       (Asking
                                          (UpdateAccountStatus accountId status)
                                          after_update)
                             else
                               out = Normal
                                       (Finished
                                          (if List.forallb convertible
                                                (ReadSpec.mismatch_log tok owner
                                                   accountId row)
                                           then
                                             message_only 403
                                               "Forbidden: You cannot update this account."
                                           else
                                             internal_server_error
                                               cannot_convert))
                         end
                end
            end.
Proof.
  intros req tok t out H accountId. unfold handleUpdateAccount in H.
  fold accountId in H.
  destruct (negb (truthy (JStr accountId))
            || (String.length accountId <? 10)%nat).
  { apply runs_ret_inv in H; destruct H as [-> ->]. left; split; reflexivity. }
  destruct (parsed_body req) as [requestBody | ] eqn:B.
  2: { apply runs_ret_inv in H; destruct H as [-> ->]. left; split; reflexivity. }
  destruct (get_prop requestBody "status") as [status | ] eqn:P.
  2: { apply runs_ret_inv in H; destruct H as [-> ->]. left.
       split; [reflexivity | ].
       destruct requestBody; try discriminate P; auto. }
  destruct (truthy status); cbn [negb orb] in H.
  2: { apply runs_ret_inv in H; destruct H as [-> ->]. left; split; reflexivity. }
  destruct (known_status status) eqn:K; cbn [negb] in H.
  2: { apply runs_ret_inv in H; destruct H as [-> ->]. left; split; reflexivity. }
  right; exists status.
  unfold try_catch, bindc, getCustomerIdFromAuth0Sub, await_row, ret, throw
    in H.
  cbn [bind] in H. run_step.
  match goal with R : runs _ _ _ |- _ => rename R into H end.
  exists r, t0. split; [exists requestBody; split; [reflexivity | exact P] | ].
  split; [exact K | ]. split; [reflexivity | ].
  destruct r as [data [err | ] | e]; cbn [bind] in H.
  - assert (found_row data (Some err) = None) as -> by (destruct data; reflexivity).
    destruct (not_found_code err); cbn [bind] in H; run_step;
      (split; [reflexivity | ]); eexists; (split; [reflexivity | ]);
      [left | right]; reflexivity.
  - destruct data as [row | ]; cbn [found_row bind] in H |- *.
    + run_step.
      match goal with R : runs _ _ _ |- _ => rename R into H end.
      exists r.
      destruct r as [cdata cerror | e]; cbn [bind] in H.
      * cbv zeta.
        assert (H' :
          runs
            (bind
               (if negb (truthy (resolved_customer cdata cerror))
                   || negb (strict_eq (resolved_customer cdata cerror)
                              (get_field row "customer_id"))
                then
                  template
                    [JStr (sub tok); resolved_customer cdata cerror;
                     JStr accountId; get_field row "customer_id"]
                    (Ret (Normal (Finished (message_only 403
                            "Forbidden: You cannot update this account."))))
                else
                  Ret (Normal (Asking (UpdateAccountStatus accountId status)
                                 after_update)))
               (fun c =>
                  match c with
                  | Normal a => Ret (Normal a)
                  | Throw e =>
                      Ret (Normal (Finished (internal_server_error e)))
                  end)) t out).
        { destruct cerror as [err | ]; [exact H | ].
          destruct cdata as [crow | ]; exact H. }
        clear H. unfold template, throw in H'.
        fold (ReadSpec.mismatch_log tok (resolved_customer cdata cerror)
                accountId row) in H'.
        destruct (truthy (resolved_customer cdata cerror));
          cbn [negb orb andb bind] in *.
        2: { destruct (List.forallb convertible
                         (ReadSpec.mismatch_log tok
                            (resolved_customer cdata cerror) accountId row));
             cbn [bind] in H'; run_step; split; reflexivity. }
        destruct (strict_eq (resolved_customer cdata cerror)
                    (get_field row "customer_id")); cbn [negb bind] in *.
        { run_step; split; reflexivity. }
        destruct (List.forallb convertible
                    (ReadSpec.mismatch_log tok
                       (resolved_customer cdata cerror) accountId row));
          cbn [bind] in H'; run_step; split; reflexivity.
      * run_step; split; reflexivity.
    + run_step. split; [reflexivity | ]. eexists; split; [reflexivity | ].
      left; reflexivity.
  - run_step; split; reflexivity.
Qed.

Lemma known_status_is_one_of_four :
  forall status : value,
    known_status status = true ->
    In status
      [JStr "ACTIVE"; JStr "DORMANT"; JStr "PENDING_CLOSURE"; JStr "CLOSED"].
Proof.
  intros status K. unfold known_status in K.
  repeat (apply orb_true_iff in K; destruct K as [K | K]);
    apply strict_eq_JStr in K; subst status; cbn; tauto.
Qed.

(** X13. The handler that changes the status of an account asks for the
    update only for the owner: after the account was found under the last
    part of the path and the customer of [sub] of the token was resolved
    to a truthy id strictly equal to the [customer_id] of the row. The
    update is for that account and carries the [status] of the body, which
    is one of ACTIVE, DORMANT, PENDING_CLOSURE and CLOSED. *)
Theorem status_updated_by_owner_only :
  forall (req : request) (tok : token) t q k,
    runs (handleUpdateAccount req tok) t (Normal (Asking q k)) ->
    exists requestBody status row cdata cerror,
      parsed_body req = Some requestBody
      /\ get_prop requestBody "status" = Some status
      /\ In status
           [JStr "ACTIVE"; JStr "DORMANT"; JStr "PENDING_CLOSURE";
            JStr "CLOSED"]
      /\ q = UpdateAccountStatus (last_path_part (path req)) status
      /\ k = after_update
      /\ t = [EvRow (AccountOwnerById (JStr (last_path_part (path req))))
                (Answer (Some row) None);
              EvRow (CustomerIdByAuth0Sub (sub tok)) (Answer cdata cerror)]
      /\ truthy (resolved_customer cdata cerror) = true
      /\ strict_eq (resolved_customer cdata cerror)
           (get_field row "customer_id") = true.
Proof.
  intros req tok t q k H.
  destruct (update_runs req tok t _ H)
    as [[_ []] | (status & r & rest & (requestBody & B & P) & K & -> & Hr)].
  destruct r as [data error | e]; [ | destruct Hr as [_ E]; discriminate E].
  destruct (found_row data error) as [row | ] eqn:F.
  2: { destruct Hr as (_ & resp & E & _); discriminate E. }
  destruct Hr as (rc & -> & Hrc).
  destruct rc as [cdata cerror | e]; [ | discriminate Hrc].
  cbv zeta in Hrc.
  destruct (truthy (resolved_customer cdata cerror)) eqn:T;
    cbn [andb] in Hrc; [ | discriminate Hrc].
  destruct (strict_eq (resolved_customer cdata cerror)
              (get_field row "customer_id")) eqn:S; [ | discriminate Hrc].
  injection Hrc as -> ->.
  assert (data = Some row /\ error = None) as [-> ->].
  { destruct error; [destruct data; discriminate F | ].
    destruct data; [injection F as -> | discriminate F]. split; reflexivity. }
  exists requestBody, status, row, cdata, cerror.
  repeat split; try assumption; try reflexivity.
  apply known_status_is_one_of_four; exact K.
Qed.

(** X14. The two handlers that address one account look the account up
    before they look at the caller: the customer of the token is only
    resolved after the lookup under the last part of the path has found a
    row, so an account that does not exist is answered without reading the
    token, and differently from one that belongs to someone else. *)
Theorem account_lookup_precedes_owner_check :
  forall (req : request) (tok : token) t (s : string) rc,
    (exists out, runs (handleGetAccount req tok) t out)
    \/ (exists out, runs (handleUpdateAccount req tok) t out) ->
    In (EvRow (CustomerIdByAuth0Sub s) rc) t ->
    s = sub tok
    /\ exists q row rest,
         t = EvRow q (Answer (Some row) None)
             :: EvRow (CustomerIdByAuth0Sub s) rc :: rest
         /\ (q = AccountById (last_path_part (path req))
             \/ q = AccountOwnerById (JStr (last_path_part (path req)))).
Proof.
  intros req tok t s rc [[out H] | [out H]] Hin.
  - destruct (AccountFacts.get_runs req tok t _ H)
      as [[-> _] | (r & rest & -> & _ & Hr)]; [contradiction | ].
    destruct Hin as [E | Hin]; [discriminate E | ].
    destruct r as [data error | e]; [ | destruct Hr as [-> _]; contradiction].
    destruct (found_row data error) as [row | ] eqn:F;
      [ | destruct Hr as [-> _]; contradiction].
    assert (data = Some row /\ error = None) as [-> ->].
    { destruct error; [destruct data; discriminate F | ].
      destruct data; [injection F as -> | discriminate F]. split; reflexivity. }
    destruct Hr as (rc' & rest' & -> & Hrc).
    assert (Hhere : EvRow (CustomerIdByAuth0Sub (sub tok)) rc'
                    = EvRow (CustomerIdByAuth0Sub s) rc).
    { destruct Hin as [E | Hin]; [exact E | exfalso].
      destruct rc' as [cdata cerror | e];
        [ | destruct Hrc as [-> _]; contradiction].
      cbv zeta in Hrc.
      destruct (truthy (resolved_customer cdata cerror)
                && strict_eq (resolved_customer cdata cerror)
                     (get_field row "customer_id")).
      - destruct Hrc as (rb & -> & _). destruct Hin as [E | []]; discriminate E.
      - destruct Hrc as [-> _]; contradiction. }
    injection Hhere as <- <-. split; [reflexivity | ].
    exists (AccountById (last_path_part (path req))), row, rest'.
    split; [reflexivity | left; reflexivity].
  - destruct (update_runs req tok t _ H)
      as [[-> _] | (status & r & rest & _ & _ & -> & Hr)]; [contradiction | ].
    destruct Hin as [E | Hin]; [discriminate E | ].
    destruct r as [data error | e]; [ | destruct Hr as [-> _]; contradiction].
    destruct (found_row data error) as [row | ] eqn:F;
      [ | destruct Hr as [-> _]; contradiction].
    assert (data = Some row /\ error = None) as [-> ->].
    { destruct error; [destruct data; discriminate F | ].
      destruct data; [injection F as -> | discriminate F]. split; reflexivity. }
    destruct Hr as (rc' & -> & _).
    destruct Hin as [E | []]. injection E as <- <-. split; [reflexivity | ].
    exists (AccountOwnerById (JStr (last_path_part (path req)))), row, [].
    split; [reflexivity | right; reflexivity].
Qed.

End OwnershipFacts.

(* ================================================================== *)
(** * The routes of the account service *)
(* ================================================================== *)

Module RouteFacts.
Import AccountService AccountUpdate AccountMain EntrySpec.

(** ** The last part of a path *)

Lemma find_sep_slash_app :
  forall a u : string,
    find_sep "/" (a ++ "/" ++ u)
    = match find_sep "/" a with
      | Some (before, after) => Some (before, after ++ "/" ++ u)
      | None => Some (a, u)
      end.
Proof.
  induction a as [ | c a IH]; intro u.
  - cbn. destruct u; reflexivity.
  - cbn [append find_sep String.prefix].
    destruct (Ascii.ascii_dec "/" c) as [<- | N].
    + assert (P : forall s, String.prefix "" s = true) by (destruct s; reflexivity).
      rewrite !P. cbn [String.length drop]. reflexivity.
    + change (String "/" u) with ("/" ++ u). rewrite IH.
      destruct (find_sep "/" a) as [[b a'] | ]; reflexivity.
Qed.

Lemma find_sep_no_slash :
  forall u : string, no_slash u = true -> find_sep "/" u = None.
Proof.
  induction u as [ | c u IH]; intro H; [reflexivity | ].
  cbn [no_slash] in H. apply andb_true_iff in H. destruct H as [Hc Hu].
  cbn [find_sep String.prefix].
  destruct (Ascii.ascii_dec "/" c) as [<- | N]; [discriminate Hc | ].
  rewrite (IH Hu); reflexivity.
Qed.

Lemma last_split_after_slash :
  forall u : string,
    no_slash u = true ->
    forall (rounds : nat) (a : string),
      (String.length a < rounds)%nat ->
      List.last (split_rounds rounds "/" (a ++ "/" ++ u)) EmptyString = u.
Proof.
  intros u Hu; induction rounds as [ | rounds IH]; intros a Hr; [lia | ].
  cbn [split_rounds]. rewrite find_sep_slash_app.
  destruct (find_sep "/" a) as [[b a'] | ] eqn:F.
  - apply find_sep_sound in F. subst a.
    rewrite !string_length_app in Hr. cbn [String.length] in Hr.
    assert (Hl : (String.length a' < rounds)%nat) by lia.
    specialize (IH a' Hl).
    destruct (split_rounds rounds "/" (a' ++ "/" ++ u)) eqn:S; [ | exact IH].
    destruct rounds; [lia | ]. cbn [split_rounds] in S.
    destruct (find_sep "/" (a' ++ "/" ++ u)) as [[x y] | ]; discriminate S.
  - destruct rounds as [ | rounds]; [reflexivity | ].
    cbn [split_rounds]. rewrite (find_sep_no_slash u Hu). reflexivity.
Qed.

(** The last part of a path is what follows its last [/]. *)
Lemma last_path_part_app :
  forall a u : string,
    no_slash u = true -> last_path_part (a ++ "/" ++ u) = u.
Proof.
  intros a u Hu. unfold last_path_part, split.
  apply last_split_after_slash; [exact Hu | ].
  rewrite string_length_app. cbn [append String.length]. lia.
Qed.

(** ** The shape of a UUID *)

Lemma hex_run_sound :
  forall (n : nat) (s rest : string),
    hex_run n s = Some rest ->
    exists v, s = v ++ rest /\ no_slash v = true /\ String.length v = n.
Proof.
  induction n as [ | n IH]; intros s rest H; cbn [hex_run] in H.
  - injection H as <-. exists EmptyString; repeat split.
  - destruct s as [ | c s]; [discriminate H | ].
    destruct (is_hex c) eqn:Hc; [ | discriminate H].
    destruct (IH _ _ H) as (v & -> & Hv & Hl).
    exists (String c v). split; [reflexivity | ].
    split; [ | cbn; rewrite Hl; reflexivity].
    cbn [no_slash]. rewrite Hv, andb_true_r.
    destruct (Ascii.eqb c "/") eqn:E; [ | reflexivity].
    apply Ascii.eqb_eq in E; subst c; discriminate Hc.
Qed.

Lemma dash_sound :
  forall s rest : string,
    dash s = Some rest ->
    exists v, s = v ++ rest /\ no_slash v = true /\ String.length v = 1%nat.
Proof.
  intros s rest H. destruct s as [ | c s]; [discriminate H | ].
  cbn [dash] in H.
  destruct (Ascii.ascii_dec c "-") as [-> | N].
  - injection H as <-. exists "-"; repeat split.
  - exfalso. destruct c as [[] [] [] [] [] [] [] []]; try discriminate H.
    apply N; reflexivity.
Qed.

Lemma no_slash_app :
  forall a b : string,
    no_slash a = true -> no_slash b = true -> no_slash (a ++ b) = true.
Proof.
  induction a as [ | c a IH]; intros b Ha Hb; [exact Hb | ].
  cbn [append no_slash] in *. apply andb_true_iff in Ha. destruct Ha as [Hc Ha].
  rewrite Hc, (IH b Ha Hb); reflexivity.
Qed.

Lemma and_then_sound :
  forall (o : option string) (f : string -> option string) (n m : nat)
         (s rest : string),
    (forall r1, o = Some r1 ->
       exists v, s = v ++ r1 /\ no_slash v = true /\ String.length v = n) ->
    (forall s2 r2, f s2 = Some r2 ->
       exists v, s2 = v ++ r2 /\ no_slash v = true /\ String.length v = m) ->
    and_then o f = Some rest ->
    exists v, s = v ++ rest /\ no_slash v = true
              /\ String.length v = (n + m)%nat.
Proof.
  intros o f n m s rest Ho Hf H. destruct o as [r1 | ]; [ | discriminate H].
  cbn [and_then] in H.
  destruct (Ho r1 eq_refl) as (v1 & -> & N1 & L1).
  destruct (Hf _ _ H) as (v2 & -> & N2 & L2).
  exists (v1 ++ v2). split; [ | split].
  - clear; induction v1 as [ | c v1 IH]; cbn; [ | rewrite IH]; reflexivity.
  - apply no_slash_app; assumption.
  - rewrite string_length_app; lia.
Qed.

(** What [uuid_run] accepts is 36 characters without a [/]. *)
Lemma uuid_run_sound :
  forall u rest : string,
    uuid_run u = Some rest ->
    exists v, u = v ++ rest /\ no_slash v = true /\ String.length v = 36%nat.
Proof.
  intros u rest H. unfold uuid_run in H.
  refine (and_then_sound _ _ 24 12 u rest _ (hex_run_sound 12) H).
  intros r8 H8.
  refine (and_then_sound _ _ 23 1 u r8 _ dash_sound H8).
  intros r7 H7.
  refine (and_then_sound _ _ 19 4 u r7 _ (hex_run_sound 4) H7).
  intros r6 H6.
  refine (and_then_sound _ _ 18 1 u r6 _ dash_sound H6).
  intros r5 H5.
  refine (and_then_sound _ _ 14 4 u r5 _ (hex_run_sound 4) H5).
  intros r4 H4.
  refine (and_then_sound _ _ 13 1 u r4 _ dash_sound H4).
  intros r3 H3.
  refine (and_then_sound _ _ 9 4 u r3 _ (hex_run_sound 4) H3).
  intros r2 H2.
  refine (and_then_sound _ _ 8 1 u r2 _ dash_sound H2).
  intros r1 H1. apply hex_run_sound; exact H1.
Qed.

Lemma uuid_alone :
  forall u : string,
    uuid_run u = Some EmptyString ->
    no_slash u = true /\ String.length u = 36%nat.
Proof.
  intros u H. destruct (uuid_run_sound _ _ H) as (v & -> & N & L).
  assert (E : forall s : string, s ++ "" = s)
    by (induction s as [ | c s IH]; cbn; [ | rewrite IH]; reflexivity).
  rewrite E. split; assumption.
Qed.

(** A path that names one account is not the path of the collection. *)
Lemma one_account_is_not_root :
  forall p : string, one_account p = true -> accounts_root p = false.
Proof.
  intros p H. unfold accounts_root.
  destruct (String.eqb p "/accounts") eqn:E1.
  { apply String.eqb_eq in E1; subst p; discriminate H. }
  destruct (String.eqb p "/accounts/") eqn:E2; [ | reflexivity].
  apply String.eqb_eq in E2; subst p; discriminate H.
Qed.

Section WithDeployment.

Variable jwt_verify : string -> jwt_outcome.
Variable Number_toString : number -> string.

(** The runs of a handler called from the entry point. *)
Lemma or_last_resort_runs :
  forall (A : Type) (wrap : A -> pending response) (h : js A) t out,
    runs (or_last_resort wrap h) t out ->
    exists c,
      runs h t c
      /\ out = match c with
               | Normal answer => wrap answer
               | Throw error => Finished (answer_error error)
               end.
Proof.
  intros A wrap h t out H. unfold or_last_resort in H.
  apply runs_bind in H. destruct H as (t1 & c & t2 & -> & H1 & H2).
  exists c. destruct c; apply runs_ret_inv in H2; destruct H2 as [-> ->];
    rewrite app_nil_r; split; auto.
Qed.

Lemma answer_error_is_500 :
  forall e : js_error, statusCode (answer_error e) = 500.
Proof.
  intro e; unfold answer_error, last_resort.
  destruct (String.eqb (err_message e) EmptyString); reflexivity.
Qed.

(** X15. A path that addresses one account by its UUID reaches the datastore
    under that UUID: for [/api/account-service/accounts/<uuid>] the GET
    handler first looks the account up by the UUID, and the PATCH handler,
    unless it rejects the body, first looks its owner up by the UUID. *)
Theorem account_route_reads_the_uuid :
  forall (event : http_event) (tok : token) (u : string) t out,
    EntrySpec.bearer jwt_verify event tok ->
    path (request_of event) = "/api/account-service/accounts/" ++ u ->
    uuid_run u = Some EmptyString ->
    runs (handler true jwt_verify Number_toString event) t out ->
    (httpMethod event = "GET" ->
     exists r rest, t = EvRow (AccountById u) r :: rest)
    /\ (httpMethod event = "PATCH" ->
        t = [] \/ exists r rest, t = EvRow (AccountOwnerById (JStr u)) r :: rest).
Proof.
  intros event tok u t out Hb Hp Hu H.
  apply EntryFacts.verified_is_bearer in Hb.
  destruct (uuid_alone u Hu) as [Hn Hl].
  assert (Hlast : last_path_part (path (request_of event)) = u).
  { rewrite Hp.
    change ("/api/account-service/accounts/" ++ u)
      with ("/api/account-service/accounts" ++ "/" ++ u).
    apply last_path_part_app; exact Hn. }
  assert (Hroute : remove_first (path (request_of event)) "/api/account-service"
                   = "/accounts/" ++ u).
  { rewrite Hp. unfold remove_first.
    change ("/api/account-service/accounts/" ++ u)
      with ("/api/account-service" ++ ("/accounts/" ++ u)).
    rewrite find_sep_at_start. reflexivity. }
  assert (Hone : one_account ("/accounts/" ++ u) = true).
  { unfold one_account.
    change (String.prefix "/accounts/" ("/accounts/" ++ u)) with
      (String.prefix "" u).
    assert (P : String.prefix "" u = true) by (destruct u; reflexivity).
    rewrite P. change (drop 10 ("/accounts/" ++ u)) with u.
    rewrite Hu. reflexivity. }
  unfold handler in H. cbn [negb] in H. rewrite Hb, Hroute in H.
  rewrite (one_account_is_not_root _ Hone), Hone in H.
  split; intro M; rewrite M in H; cbn [String.eqb Ascii.eqb Bool.eqb andb] in H.
  - apply or_last_resort_runs in H. destruct H as (c & H & _).
    destruct (AccountFacts.get_runs _ _ _ _ H)
      as [[-> _] | (r & rest & -> & _)].
    + exfalso. unfold handleGetAccount in H. rewrite Hlast in H.
      assert (G : negb (truthy (JStr u)) || (String.length u <? 10)%nat = false).
      { rewrite Hl. destruct u; [discriminate Hl | reflexivity]. }
      rewrite G in H.
      unfold try_catch, await_row in H; cbn [bind] in H. inversion H.
    + rewrite Hlast. eauto.
  - apply or_last_resort_runs in H. destruct H as (c & H & _).
    destruct (OwnershipFacts.update_runs _ _ _ _ H)
      as [[-> _] | (status & r & rest & _ & _ & -> & _)].
    + left; reflexivity.
    + right. rewrite Hlast. eauto.
Qed.

(** X16. With a slash after the UUID the path still passes the route, but
    the handlers read the last part of the path, which is then empty: the
    account service answers 400 "Missing or invalid account ID in path"
    to GET and to PATCH, without asking the datastore. *)
Theorem trailing_slash_is_400 :
  forall (event : http_event) (tok : token) (p : string),
    EntrySpec.bearer jwt_verify event tok ->
    httpMethod event = "GET" \/ httpMethod event = "PATCH" ->
    path (request_of event) = p ++ "/" ->
    one_account (routed "/api/account-service" event) = true ->
    handler true jwt_verify Number_toString event
    = Ret (Finished (message_only 400 "Missing or invalid account ID in path")).
Proof.
  intros event tok p Hb Hm Hp Hone.
  apply EntryFacts.verified_is_bearer in Hb.
  assert (Hlast : last_path_part (path (request_of event)) = EmptyString).
  { rewrite Hp. change (p ++ "/") with (p ++ "/" ++ "").
    apply last_path_part_app; reflexivity. }
  unfold routed in Hone.
  unfold handler. cbn [negb]. rewrite Hb.
  rewrite (one_account_is_not_root _ Hone), Hone.
  destruct Hm as [M | M]; rewrite M;
    cbn [String.eqb Ascii.eqb Bool.eqb andb].
  - unfold handleGetAccount. rewrite Hlast. reflexivity.
  - unfold handleUpdateAccount. rewrite Hlast. reflexivity.
Qed.

Variable configured : bool.

(** X17. A GET on the collection of accounts is never answered 400: without
    a [customerId] in the query string the route is not taken and the
    answer is 404, so the check of the list handler for a missing
    [customerId] cannot fail; and the datastore is asked nothing unless
    the [customerId] is there. *)
Theorem collection_get_is_never_400 :
  forall (event : http_event) t out,
    runs (handler configured jwt_verify Number_toString event) t out ->
    httpMethod event = "GET" ->
    accounts_root (routed "/api/account-service" event) = true ->
    exists resp,
      out = Finished resp
      /\ statusCode resp <> 400
      /\ (has_customerId event = false ->
          t = [] /\ In (statusCode resp) [401; 404; 500]).
Proof.
  intros event t out H M Hroot. unfold routed in Hroot.
  unfold handler in H.
  destruct configured; cbn [negb] in H.
  2: { apply runs_ret_inv in H; destruct H as [-> ->].
       eexists; split; [reflexivity | ]. split; [discriminate | ].
       intros _; split; [reflexivity | cbn; tauto]. }
  destruct (verifyToken jwt_verify event) as [tok | rj] eqn:V.
  2: { apply runs_ret_inv in H; destruct H as [-> ->].
       destruct (EntryFacts.refused_is_401 _ _ _ V) as [Hc _].
       eexists; split; [reflexivity | ]. rewrite Hc.
       split; [discriminate | ].
       intros _; split; [reflexivity | cbn; tauto]. }
  rewrite M, Hroot in H. cbn [String.eqb Ascii.eqb Bool.eqb andb] in H.
  destruct (has_customerId event) eqn:Hq.
  - apply or_last_resort_runs in H. destruct H as (c & H & ->).
    assert (Hreq : exists cq, query_customerId (request_of event) = Some cq
                              /\ truthy (JStr cq) = true).
    { unfold has_customerId in Hq.
      destruct (query_customerId (request_of event)) as [cq | ];
        [eauto | discriminate Hq]. }
    destruct Hreq as (cq & Q & T).
    destruct (AccountFacts.list_runs Number_toString _ _ _ _ H)
      as [(_ & _ & Hno) | (c' & _ & _ & Hcase)].
    { rewrite (Hno cq Q) in T; discriminate T. }
    destruct Hcase as [(e & _ & ->) | (data & error & Hcase)].
    { eexists; split; [reflexivity | ]. rewrite answer_error_is_500.
      split; [discriminate | intro E; discriminate E]. }
    cbv zeta in Hcase.
    destruct Hcase as [(_ & _ & ->) | (r & rest & _ & _ & Hr)].
    { destruct (List.forallb convertible _);
        (eexists; split; [reflexivity | ]); try rewrite answer_error_is_500;
        (split; [discriminate | intro E; discriminate E]). }
    destruct r as [[rows | ] [err | ] | e].
    + destruct Hr as [_ ->]. eexists; split; [reflexivity | ].
      split; [discriminate | intro E; discriminate E].
    + destruct Hr as (answers & _ & _ & ->).
      destruct (existsb ReadSpec.log_throws _);
        (eexists; split; [reflexivity | ]);
        (split; [discriminate | intro E; discriminate E]).
    + destruct Hr as [_ ->]. eexists; split; [reflexivity | ].
      split; [discriminate | intro E; discriminate E].
    + destruct Hr as [_ ->]. eexists; split; [reflexivity | ].
      split; [discriminate | intro E; discriminate E].
    + destruct Hr as [_ ->]. eexists; split; [reflexivity | ].
      split; [discriminate | intro E; discriminate E].
  - assert (Hnot : one_account
                     (remove_first (path (request_of event))
                        "/api/account-service") = false).
    { destruct (one_account _) eqn:O; [ | reflexivity].
      rewrite (one_account_is_not_root _ O) in Hroot; discriminate Hroot. }
    rewrite Hnot in H. cbn [andb] in H.
    apply runs_ret_inv in H; destruct H as [-> ->].
    eexists; split; [reflexivity | ]. split; [discriminate | ].
    intros _; split; [reflexivity | cbn; tauto].
Qed.

(** X18. The account service asks the datastore nothing, and prepares no
    update, unless it is configured and the event carries a bearer token
    that [jwt.verify] accepts. *)
Theorem account_requests_need_verified_token :
  forall (event : http_event) t out,
    runs (handler configured jwt_verify Number_toString event) t out ->
    t <> [] \/ (exists q k, out = Asking q k) ->
    configured = true /\ exists tok, EntrySpec.bearer jwt_verify event tok.
Proof.
  intros event t out H Hdid. unfold handler in H.
  assert (Hquiet : forall resp,
            runs (Ret (Finished resp)) t out -> False).
  { intros resp R. apply runs_ret_inv in R; destruct R as [-> ->].
    destruct Hdid as [N | (q & k & E)]; [apply N; reflexivity | discriminate E]. }
  destruct configured; cbn [negb] in H; [ | destruct (Hquiet _ H)].
  destruct (verifyToken jwt_verify event) as [tok | rj] eqn:V;
    [ | destruct (Hquiet _ H)].
  split; [reflexivity | ]. exists tok.
  apply EntryFacts.verified_is_bearer; exact V.
Qed.

End WithDeployment.

End RouteFacts.

(* ================================================================== *)
(** * The customer service *)
(* ================================================================== *)

Module CustomerFacts.
Import CustomerService EntrySpec.

(** X19. Whatever the customer service asks the datastore concerns the
    customer of the verified token and no other: the service must be
    configured and the token accepted by [jwt.verify], the profile is
    looked up by [sub] of the token, and a customer is upserted only under
    an [auth0_user_id] that is that [sub]. *)
Theorem customer_record_of_token_only :
  forall (configured : bool) (jwt_verify : string -> jwt_outcome)
         (event : http_event) q k,
    handler configured jwt_verify event = Asking q k ->
    configured = true
    /\ exists tok,
         bearer jwt_verify event tok
         /\ customer_of q = Some (JStr (sub tok)).
Proof.
  intros configured jwt_verify event q k H. unfold handler in H.
  destruct configured; cbn [negb] in H; [ | discriminate H].
  destruct (verifyToken jwt_verify event) as [tok | rj] eqn:V;
    [ | discriminate H].
  split; [reflexivity | ]. exists tok.
  split; [apply EntryFacts.verified_is_bearer; exact V | ].
  destruct (String.eqb (httpMethod event) "POST"
            && String.eqb (route_path event) "/create").
  - unfold handleCreateCustomer in H.
    destruct (parsed_body (request_of event)) as [requestBody | ];
      [ | discriminate H].
    destruct (get_prop requestBody "auth0_user_id") as [id | ];
      [ | discriminate H].
    destruct (get_prop requestBody "email") as [email | ]; [ | discriminate H].
    destruct (negb (truthy id) || negb (truthy email)); [discriminate H | ].
    destruct (strict_eq id (JStr (sub tok))) eqn:S; cbn [negb] in H;
      [ | destruct (List.forallb convertible _); discriminate H].
    injection H as <- _. cbn [customer_of]. f_equal.
    apply OwnershipFacts.strict_eq_JStr; exact S.
  - destruct (String.eqb (httpMethod event) "GET"
              && String.eqb (route_path event) "/profile");
      [ | discriminate H].
    unfold handleGetProfile in H. injection H as <- _. reflexivity.
Qed.

(** The two calls the customer service can end in. *)
Lemma customer_asks :
  forall (configured : bool) (jwt_verify : string -> jwt_outcome)
         (event : http_event) q k,
    handler configured jwt_verify event = Asking q k ->
    (k = after_upsert /\ exists id email, q = UpsertCustomer id email)
    \/ (k = after_profile /\ exists s, q = CustomerByAuth0Sub s).
Proof.
  intros configured jwt_verify event q k E. unfold handler in E.
  destruct configured; cbn [negb] in E; [ | discriminate E].
  destruct (verifyToken jwt_verify event) as [tok | rj]; [ | discriminate E].
  destruct (String.eqb (httpMethod event) "POST"
            && String.eqb (route_path event) "/create").
  - left. unfold handleCreateCustomer in E.
    destruct (parsed_body (request_of event)) as [requestBody | ];
      [ | discriminate E].
    destruct (get_prop requestBody "auth0_user_id") as [id | ];
      [ | discriminate E].
    destruct (get_prop requestBody "email") as [email | ];
      [ | discriminate E].
    destruct (negb (truthy id) || negb (truthy email)); [discriminate E | ].
    destruct (negb (strict_eq id (JStr (sub tok))));
      [destruct (List.forallb convertible _); discriminate E | ].
    injection E as <- <-. split; [reflexivity | eauto].
  - right.
    destruct (String.eqb (httpMethod event) "GET"
              && String.eqb (route_path event) "/profile");
      [ | discriminate E].
    unfold handleGetProfile in E. injection E as <- <-.
    split; [reflexivity | eauto].
Qed.

(** What the customer service answers without asking the datastore is
    never a 200. *)
Lemma customer_finished_is_no_200 :
  forall (configured : bool) (jwt_verify : string -> jwt_outcome)
         (event : http_event) resp,
    handler configured jwt_verify event = Finished resp ->
    statusCode resp <> 200.
Proof.
  intros configured jwt_verify event resp E. unfold handler in E.
  destruct configured; cbn [negb] in E;
    [ | injection E as <-; discriminate].
  destruct (verifyToken jwt_verify event) as [tok | rj] eqn:V.
  2: { injection E as <-.
       destruct (EntryFacts.refused_is_401 _ _ _ V) as [Hc _].
       rewrite Hc; discriminate. }
  destruct (String.eqb (httpMethod event) "POST"
            && String.eqb (route_path event) "/create").
  - unfold handleCreateCustomer in E.
    destruct (parsed_body (request_of event)) as [requestBody | ];
      [ | injection E as <-; discriminate].
    assert (Hthrow : forall e, statusCode (answer_error e) <> 200).
    { intro e; unfold answer_error, last_resort.
      destruct (String.eqb (err_message e) EmptyString); discriminate. }
    destruct (get_prop requestBody "auth0_user_id") as [id | ];
      [ | injection E as <-; apply Hthrow].
    destruct (get_prop requestBody "email") as [email | ];
      [ | injection E as <-; apply Hthrow].
    destruct (negb (truthy id) || negb (truthy email));
      [injection E as <-; discriminate | ].
    destruct (negb (strict_eq id (JStr (sub tok)))); [ | discriminate E].
    destruct (List.forallb convertible _); injection E as <-;
      [discriminate | apply Hthrow].
  - destruct (String.eqb (httpMethod event) "GET"
              && String.eqb (route_path event) "/profile");
      [discriminate E | injection E as <-; discriminate].
Qed.

(** X20. The customer service answers 200 only with what the datastore
    returned: the service then asked the datastore, the datastore answered
    without an error, and the body is the data of that answer; for a
    profile that data is a row, while an upsert answered without data is
    still a 200, with [null] as body. *)
Theorem customer_200_is_datastore_answer :
  forall (configured : bool) (jwt_verify : string -> jwt_outcome)
         (event : http_event) (answer_of : late_query -> reply (option object)),
    statusCode (settle (handler configured jwt_verify event) answer_of) = 200 ->
    exists q k data,
      handler configured jwt_verify event = Asking q k
      /\ answer_of q = Answer data None
      /\ body (settle (handler configured jwt_verify event) answer_of)
         = data_value data
      /\ (forall s, q = CustomerByAuth0Sub s -> data <> None).
Proof.
  intros configured jwt_verify event answer_of H.
  destruct (handler configured jwt_verify event) as [resp | q k] eqn:E.
  - exfalso. exact (customer_finished_is_no_200 _ _ _ _ E H).
  - cbn [settle] in H |- *. exists q, k.
    destruct (customer_asks _ _ _ _ _ E)
      as [[-> (id & email & ->)] | [-> (s & ->)]].
    + destruct (answer_of (UpsertCustomer id email)) as [data [err | ] | e];
        try discriminate H.
      exists data. repeat split. intros s N; discriminate N.
    + destruct (answer_of (CustomerByAuth0Sub s)) as [data [err | ] | e];
        cbn in H; try discriminate H.
      * destruct (no_rows err); discriminate H.
      * destruct data as [row | ]; [ | discriminate H].
        exists (Some row). repeat split. intros s' _ N; discriminate N.
Qed.

End CustomerFacts.

(* ================================================================== *)
(** * The properties on the small bank *)
(* ================================================================== *)

Module Visited.
Import Ledger World Sample Visits.

Lemma alice_is_bearer :
  forall (method : string) (req : request),
    EntrySpec.bearer accept_alice (as_alice method req) alice_token.
Proof.
  intros method req. exists "Bearer alice.jwt". repeat split.
Qed.

Lemma transfer_200_iff_posted_witness :
  let x := transfer usd_world describe_marked
             "acc-alice-0001" "acc-bob-0001" 10 "USD" in
  result_of x = Normal (TransferSpec.completed "uuid-0")
  /\ (statusCode (TransferSpec.completed "uuid-0") = 200
      <-> existsb EntrySpec.is_posted (trace_of x) = true).
Proof.
  split; [vm_compute; reflexivity | ].
  assert (R : runs
                (TransactionService.handleInternalTransfer print_integer
                   (transfer_request "acc-alice-0001" "acc-bob-0001" 10 "USD")
                   alice_token)
                (trace_of (transfer usd_world describe_marked
                             "acc-alice-0001" "acc-bob-0001" 10 "USD"))
                (Normal (TransferSpec.completed "uuid-0")))
    by exact (exec_runs describe_marked _ _ usd_world).
  exact (proj2 (EntryFacts.transfer_200_iff_posted print_integer _ _ _ _ R)).
Defined.

Lemma transfer_writes_once_and_last_witness :
  let x := transfer usd_world describe_marked
             "acc-alice-0001" "acc-bob-0001" 10 "USD" in
  (AccountSpec.count is_write (trace_of x) <= 1)%nat
  /\ Forall (fun e => is_write e = false) (removelast (trace_of x)).
Proof.
  exact (EntryFacts.transfer_writes_once_and_last print_integer _ _ _ _
           (exec_runs describe_marked _ _ usd_world)).
Defined.

Lemma transfer_requests_need_verified_token_witness :
  let x := exec describe_marked usd_world
             (TransactionMain.handler true accept_alice print_integer
                (transfer_event "acc-alice-0001" "acc-bob-0001" 10 "USD")) in
  trace_of x <> []
  /\ exists tok r rest,
       EntrySpec.bearer accept_alice
         (transfer_event "acc-alice-0001" "acc-bob-0001" 10 "USD") tok
       /\ trace_of x = EvRow (CustomerIdByAuth0Sub (sub tok)) r :: rest.
Proof.
  assert (N : trace_of
                (exec describe_marked usd_world
                   (TransactionMain.handler true accept_alice print_integer
                      (transfer_event "acc-alice-0001" "acc-bob-0001" 10 "USD")))
              <> []) by (vm_compute; discriminate).
  split; [exact N | ].
  exact (proj2 (proj2 (proj2
    (EntryFacts.transfer_requests_need_verified_token true accept_alice
       print_integer _ _ _
       (exec_runs describe_marked _ _ usd_world) N)))).
Defined.

Lemma unauthorized_iff_token_refused_witness :
  let event := anonymous "POST"
                 (transfer_request "acc-alice-0001" "acc-bob-0001" 10 "USD") in
  let x := exec describe_marked usd_world
             (TransactionMain.handler true accept_alice print_integer event) in
  (forall tok, ~ EntrySpec.bearer accept_alice event tok)
  /\ statusCode (result_of x) = 401.
Proof.
  assert (Hno : forall tok,
            ~ EntrySpec.bearer accept_alice
                (anonymous "POST"
                   (transfer_request "acc-alice-0001" "acc-bob-0001" 10 "USD"))
                tok)
    by (intros tok (h & E & _); discriminate E).
  split; [exact Hno | ].
  exact (proj2 (proj1
    (EntryFacts.unauthorized_iff_token_refused accept_alice print_integer
       _ _ _ (exec_runs describe_marked _ _ usd_world))) Hno).
Defined.

Lemma body_that_is_no_object_witness :
  let event := as_alice "POST"
                 (Request (Some JNull)
                    "/api/transaction-service/transfers/internal" None) in
  let x := exec describe_marked usd_world
             (TransactionMain.handler true accept_alice print_integer event) in
  trace_of x = [] /\ statusCode (result_of x) = 500.
Proof.
  refine (EntryFacts.body_that_is_no_object accept_alice print_integer
            (as_alice "POST"
               (Request (Some JNull)
                  "/api/transaction-service/transfers/internal" None))
            alice_token JNull _ _ (alice_is_bearer _ _) eq_refl eq_refl
            eq_refl _ (exec_runs describe_marked _ _ usd_world)).
  intros o E; discriminate E.
Defined.

(** A uniqueness check that fails on the second attempt. *)
Lemma allocator_stops_on_check_error_witness :
  let failed := EvRow (AccountNumberLookup (Z_toString 1000000007))
                  (Answer None (Some (describe_marked StorageError))) in
  let t := [EvInt 1000000000 9999999999 1000000002;
            EvRow (AccountNumberLookup (Z_toString 1000000002))
              (Answer (Some [("account_number", JStr "1000000002")]) None);
            EvInt 1000000000 9999999999 1000000007;
            failed] in
  runs (AccountService.generateUniqueAccountNumber
          AccountService.default_maxRetries) t
    (Throw AccountService.allocation_db_error)
  /\ exists before, t = (before ++ [failed])%list.
Proof.
  assert (R : runs
                (AccountService.generateUniqueAccountNumber
                   AccountService.default_maxRetries)
                [EvInt 1000000000 9999999999 1000000002;
                 EvRow (AccountNumberLookup (Z_toString 1000000002))
                   (Answer (Some [("account_number", JStr "1000000002")]) None);
                 EvInt 1000000000 9999999999 1000000007;
                 EvRow (AccountNumberLookup (Z_toString 1000000007))
                   (Answer None (Some (describe_marked StorageError)))]
                (Throw AccountService.allocation_db_error)).
  { apply AccountFacts.allocator_can_run. repeat constructor. }
  split; [exact R | ].
  exact (proj2
    (OwnershipFacts.allocator_stops_on_check_error _ _ _ _ R
       (or_intror (or_intror (or_intror (or_introl eq_refl)))) eq_refl)).
Defined.

Lemma account_opened_for_token_owner_witness :
  let x := exec describe_marked usd_world
             (AccountService.handleCreateAccount print_integer
                (create_request 1 "eur") alice_token) in
  let row := [("customer_id", JNum (num_of_Z 1));
              ("account_number", JStr "1000000000");
              ("account_type", JStr "SAVINGS");
              ("currency", JStr "EUR");
              ("nickname", JUndefined)] in
  exists r,
    In (EvRow (InsertAccount row) r) (trace_of x)
    /\ exists requestBody f data error before number,
         parsed_body (create_request 1 "eur") = Some requestBody
         /\ AccountService.destructure requestBody = Some f
         /\ trace_of x
            = (EvRow (CustomerIdByAuth0Sub (sub alice_token))
                 (Answer data error)
               :: before
               ++ [EvRow (AccountNumberLookup number) (Answer None None);
                   EvRow (InsertAccount row) r])%list
         /\ truthy (resolved_customer data error) = true
         /\ (exists n,
               parseInt print_integer (AccountService.customerId f) = Some n
               /\ strict_eq (resolved_customer data error) n = true)
         /\ get_field row "customer_id" = resolved_customer data error
         /\ get_field row "account_number" = JStr number.
Proof.
  eexists.
  assert (Hin :
    In (EvRow
          (InsertAccount
             [("customer_id", JNum (num_of_Z 1));
              ("account_number", JStr "1000000000");
              ("account_type", JStr "SAVINGS");
              ("currency", JStr "EUR");
              ("nickname", JUndefined)])
          (Answer
             (Some
                (account_row
                   (Account "uuid-0" (JNum (num_of_Z 1)) "1000000000"
                      (JStr "SAVINGS") ACTIVE "EUR" JUndefined)))
             None))
       (trace_of
          (exec describe_marked usd_world
             (AccountService.handleCreateAccount print_integer
                (create_request 1 "eur") alice_token)))).
  { vm_compute. tauto. }
  split; [exact Hin | ].
  exact (OwnershipFacts.account_opened_for_token_owner print_integer _ _ _ _
           _ _ (exec_runs describe_marked _ _ usd_world) Hin).
Defined.

Lemma account_201_iff_inserted_witness :
  let x := exec describe_marked usd_world
             (AccountService.handleCreateAccount print_integer
                (create_request 1 "eur") alice_token) in
  existsb EntrySpec.is_created (trace_of x) = true
  /\ exists resp, result_of x = Normal resp /\ statusCode resp = 201.
Proof.
  assert (R : exists resp,
            result_of
              (exec describe_marked usd_world
                 (AccountService.handleCreateAccount print_integer
                    (create_request 1 "eur") alice_token))
            = Normal resp) by (eexists; vm_compute; reflexivity).
  assert (Hex : existsb EntrySpec.is_created
                  (trace_of
                     (exec describe_marked usd_world
                        (AccountService.handleCreateAccount print_integer
                           (create_request 1 "eur") alice_token))) = true)
    by (vm_compute; reflexivity).
  split; [exact Hex | ].
  destruct R as [resp E]. exists resp; split; [exact E | ].
  pose proof (exec_runs describe_marked _
                (AccountService.handleCreateAccount print_integer
                   (create_request 1 "eur") alice_token) usd_world) as R.
  rewrite E in R.
  exact (proj2 (proj1 (proj2
    (OwnershipFacts.account_201_iff_inserted print_integer _ _ _ _ R))) Hex).
Defined.

Lemma accounts_listed_for_token_owner_witness :
  let x := exec describe_marked usd_world
             (AccountService.handleListAccounts print_integer
                (list_request "1") alice_token) in
  exists cid r,
    In (EvRows (AccountsByCustomer cid) r) (trace_of x)
    /\ cid = JNum (num_of_Z 1)
    /\ exists data error customerIdQuery rest,
         trace_of x
         = EvRow (CustomerIdByAuth0Sub (sub alice_token)) (Answer data error)
           :: EvRows (AccountsByCustomer cid) r :: rest
         /\ cid = resolved_customer data error
         /\ truthy cid = true
         /\ query_customerId (list_request "1") = Some customerIdQuery
         /\ (exists n,
               parseInt print_integer (JStr customerIdQuery) = Some n
               /\ strict_eq cid n = true).
Proof.
  eexists (JNum (num_of_Z 1)), _.
  assert (Hin :
    In (EvRows (AccountsByCustomer (JNum (num_of_Z 1)))
          (fst (answer_rows usd_world
                  (AccountsByCustomer (JNum (num_of_Z 1))))))
       (trace_of
          (exec describe_marked usd_world
             (AccountService.handleListAccounts print_integer
                (list_request "1") alice_token)))).
  { vm_compute. tauto. }
  split; [exact Hin | ]. split; [reflexivity | ].
  exact (OwnershipFacts.accounts_listed_for_token_owner print_integer _ _ _ _
           _ _ (exec_runs describe_marked _ _ usd_world) Hin).
Defined.

Lemma one_listed_account_per_row_witness :
  let x := exec describe_marked usd_world
             (AccountService.handleListAccounts print_integer
                (list_request "1") alice_token) in
  let rows := [account_summary
                 (checking "acc-alice-0001" 1 "1000000002" "USD")] in
  exists first answers,
    List.length answers = List.length rows
    /\ trace_of x
       = first
         :: EvRows (AccountsByCustomer (JNum (num_of_Z 1)))
              (Answer (Some rows) None)
         :: List.map ReadSpec.balance_request (combine rows answers)
    /\ result_of x
       = Normal
           (if existsb ReadSpec.log_throws (combine rows answers)
            then internal_server_error cannot_convert
            else
              Response 200
                (JArr (List.map JObj
                         (List.map ReadSpec.shown (combine rows answers)))))
    /\ List.map (fun o => get_field o "id")
         (List.map ReadSpec.shown (combine rows answers))
       = List.map (fun o => get_field o "id") rows.
Proof.
  refine (OwnershipFacts.one_listed_account_per_row print_integer _ _ _ _
            _ _ (exec_runs describe_marked _ _ usd_world) _).
  vm_compute. tauto.
Defined.

Lemma account_shown_to_owner_only_witness :
  let x := exec describe_marked usd_world
             (AccountService.handleGetAccount (get_request "acc-alice-0001")
                alice_token) in
  exists resp,
    result_of x = Normal resp
    /\ statusCode resp = 200
    /\ exists row cdata cerror rb,
         trace_of x
         = [EvRow (AccountById "acc-alice-0001") (Answer (Some row) None);
            EvRow (CustomerIdByAuth0Sub (sub alice_token))
              (Answer cdata cerror);
            ReadSpec.balance_request (row, rb)]
         /\ truthy (resolved_customer cdata cerror) = true
         /\ strict_eq (resolved_customer cdata cerror)
              (get_field row "customer_id") = true
         /\ resp = Response 200 (JObj (ReadSpec.shown (row, rb))).
Proof.
  assert (E : exists resp,
            result_of
              (exec describe_marked usd_world
                 (AccountService.handleGetAccount
                    (get_request "acc-alice-0001") alice_token))
            = Normal resp /\ statusCode resp = 200)
    by (eexists; vm_compute; split; reflexivity).
  destruct E as (resp & E & Hc). exists resp.
  split; [exact E | ]. split; [exact Hc | ].
  pose proof (exec_runs describe_marked _
                (AccountService.handleGetAccount
                   (get_request "acc-alice-0001") alice_token) usd_world) as R.
  rewrite E in R.
  exact (proj1 (OwnershipFacts.account_shown_to_owner_only _ _ _ _ R) Hc).
Defined.

Lemma reads_never_write_witness :
  Forall (fun e => is_write e = false)
    (trace_of
       (exec describe_marked usd_world
          (AccountService.handleGetAccount (get_request "acc-alice-0001")
             alice_token))).
Proof.
  exact (OwnershipFacts.reads_never_write print_integer _ _ _ _
           (or_introl (exec_runs describe_marked _ _ usd_world))).
Defined.

Lemma status_updated_by_owner_only_witness :
  let req := update_request "acc-alice-0001" "DORMANT" in
  let x := exec describe_marked usd_world
             (AccountUpdate.handleUpdateAccount req alice_token) in
  result_of x
  = Normal
      (Asking (UpdateAccountStatus "acc-alice-0001" (JStr "DORMANT"))
         AccountUpdate.after_update)
  /\ exists row cdata cerror,
       trace_of x
       = [EvRow (AccountOwnerById (JStr "acc-alice-0001"))
            (Answer (Some row) None);
          EvRow (CustomerIdByAuth0Sub (sub alice_token)) (Answer cdata cerror)]
       /\ strict_eq (resolved_customer cdata cerror)
            (get_field row "customer_id") = true.
Proof.
  assert (E : result_of
                (exec describe_marked usd_world
                   (AccountUpdate.handleUpdateAccount
                      (update_request "acc-alice-0001" "DORMANT") alice_token))
              = Normal
                  (Asking
                     (UpdateAccountStatus "acc-alice-0001" (JStr "DORMANT"))
                     AccountUpdate.after_update))
    by (vm_compute; reflexivity).
  split; [exact E | ].
  pose proof (exec_runs describe_marked _
                (AccountUpdate.handleUpdateAccount
                   (update_request "acc-alice-0001" "DORMANT") alice_token)
                usd_world) as R.
  rewrite E in R.
  destruct (OwnershipFacts.status_updated_by_owner_only _ _ _ _ _ R)
    as (requestBody & status & row & cdata & cerror
        & _ & _ & _ & _ & _ & Ht & _ & Hs).
  exists row, cdata, cerror. split; [exact Ht | exact Hs].
Defined.

Lemma account_lookup_precedes_owner_check_witness :
  let x := exec describe_marked usd_world
             (AccountService.handleGetAccount (get_request "acc-bob-0001")
                alice_token) in
  statusCode
    match result_of x with
    | Normal resp => resp
    | Throw e => internal_server_error e
    end = 403
  /\ exists q row rest,
       trace_of x
       = EvRow q (Answer (Some row) None)
         :: EvRow (CustomerIdByAuth0Sub "auth0|alice")
              (fst (answer_row usd_world (CustomerIdByAuth0Sub "auth0|alice")))
         :: rest.
Proof.
  split; [vm_compute; reflexivity | ].
  destruct (OwnershipFacts.account_lookup_precedes_owner_check
              (get_request "acc-bob-0001") alice_token _ "auth0|alice"
              (fst (answer_row usd_world (CustomerIdByAuth0Sub "auth0|alice")))
              (or_introl
                 (ex_intro _ _ (exec_runs describe_marked _ _ usd_world))))
    as (_ & q & row & rest & E & _).
  { vm_compute. tauto. }
  exists q, row, rest; exact E.
Defined.

Lemma account_route_reads_the_uuid_witness :
  let event := as_alice "GET" (get_request alice_uuid) in
  let x := exec describe_marked usd_world
             (AccountMain.handler true accept_alice print_integer event) in
  AccountMain.uuid_run alice_uuid = Some EmptyString
  /\ exists r rest, trace_of x = EvRow (AccountById alice_uuid) r :: rest.
Proof.
  split; [reflexivity | ].
  exact (proj1
    (RouteFacts.account_route_reads_the_uuid accept_alice print_integer
       (as_alice "GET" (get_request alice_uuid)) alice_token alice_uuid _ _
       (alice_is_bearer _ _) eq_refl eq_refl
       (exec_runs describe_marked _ _ usd_world)) eq_refl).
Defined.

Lemma trailing_slash_is_400_witness :
  let event := as_alice "PATCH"
                 (update_request (alice_uuid ++ "/") "DORMANT") in
  AccountMain.one_account (EntrySpec.routed "/api/account-service" event)
  = true
  /\ AccountMain.handler true accept_alice print_integer event
     = Ret (Finished
              (message_only 400 "Missing or invalid account ID in path")).
Proof.
  split; [reflexivity | ].
  exact (RouteFacts.trailing_slash_is_400 accept_alice print_integer
           (as_alice "PATCH" (update_request (alice_uuid ++ "/") "DORMANT"))
           alice_token ("/api/account-service/accounts/" ++ alice_uuid)
           (alice_is_bearer _ _) (or_intror eq_refl) eq_refl eq_refl).
Defined.

Lemma collection_get_is_never_400_witness :
  let event := as_alice "GET"
                 (Request None "/api/account-service/accounts" None) in
  let x := exec describe_marked usd_world
             (AccountMain.handler true accept_alice print_integer event) in
  AccountMain.has_customerId event = false
  /\ exists resp,
       result_of x = Finished resp
       /\ statusCode resp <> 400
       /\ trace_of x = [].
Proof.
  split; [reflexivity | ].
  destruct (RouteFacts.collection_get_is_never_400 accept_alice print_integer
              true
              (as_alice "GET"
                 (Request None "/api/account-service/accounts" None))
              _ _ (exec_runs describe_marked _ _ usd_world) eq_refl eq_refl)
    as (resp & E & Hc & Hq).
  exists resp. split; [exact E | ]. split; [exact Hc | ].
  exact (proj1 (Hq eq_refl)).
Defined.

Lemma account_requests_need_verified_token_witness :
  let event := as_alice "GET" (list_request "1") in
  let x := exec describe_marked usd_world
             (AccountMain.handler true accept_alice print_integer event) in
  trace_of x <> []
  /\ exists tok, EntrySpec.bearer accept_alice event tok.
Proof.
  assert (N : trace_of
                (exec describe_marked usd_world
                   (AccountMain.handler true accept_alice print_integer
                      (as_alice "GET" (list_request "1"))))
              <> []) by (vm_compute; discriminate).
  split; [exact N | ].
  exact (proj2
    (RouteFacts.account_requests_need_verified_token accept_alice
       print_integer true _ _ _
       (exec_runs describe_marked _ _ usd_world) (or_introl N))).
Defined.

Lemma customer_record_of_token_only_witness :
  let event := as_alice "POST"
                 (signup_request "auth0|alice" "alice@example.org") in
  CustomerService.handler true accept_alice event
  = Asking (UpsertCustomer (JStr "auth0|alice") (JStr "alice@example.org"))
      CustomerService.after_upsert
  /\ exists tok,
       EntrySpec.bearer accept_alice event tok
       /\ Some (JStr "auth0|alice") = Some (JStr (sub tok)).
Proof.
  split; [reflexivity | ].
  exact (proj2
    (CustomerFacts.customer_record_of_token_only true accept_alice
       (as_alice "POST" (signup_request "auth0|alice" "alice@example.org"))
       _ _ eq_refl)).
Defined.

(** The datastore holds Alice's profile. *)
Lemma customer_200_is_datastore_answer_witness :
  let event := as_alice "GET"
                 (Request None "/api/customer-service/profile" None) in
  let profile := [("id", JNum (num_of_Z 1));
                  ("auth0_user_id", JStr "auth0|alice");
                  ("email", JStr "alice@example.org")] in
  let answer_of := fun _ : late_query => Answer (Some profile) None in
  exists q k data,
    CustomerService.handler true accept_alice event = Asking q k
    /\ answer_of q = Answer data None
    /\ body (settle (CustomerService.handler true accept_alice event) answer_of)
       = data_value data.
Proof.
  destruct (CustomerFacts.customer_200_is_datastore_answer true accept_alice
              (as_alice "GET"
                 (Request None "/api/customer-service/profile" None))
              (fun _ : late_query =>
                 Answer
                   (Some [("id", JNum (num_of_Z 1));
                          ("auth0_user_id", JStr "auth0|alice");
                          ("email", JStr "alice@example.org")])
                   None)
              eq_refl)
    as (q & k & data & E & A & B & _).
  exists q, k, data. repeat split; assumption.
Defined.

End Visited.
